(** * Shopping Lists Manager: services, migrations and cache hooks

    A shallow embedding of the persistence layer of the shopping-list
    application (database.service.ts, shopping-lists.service.ts,
    shopping-items.service.ts, settings.service.ts) and of the two
    cache hooks (use-shopping-items.ts, use-shopping-lists.ts), with
    the properties of the design document stated and proved over it.

    Conventions.
    - A JavaScript string is the list of its UTF-16 code units, so
      [length] is [String.prototype.length].
    - The SQLite connection is an explicit state; every SQL statement
      of the source is one function on that state, named after the
      statement and quoted in its comment.
    - [Date.now()] and [generateUUID()] read the environment; the value
      each call returns is an explicit argument of the operation. *)

From Stdlib Require Import List String Ascii Bool Arith ZArith NArith Lia.
From Stdlib Require Import Sorting.Sorted Sorting.Permutation.
Import ListNotations.

Set Implicit Arguments.

(* ================================================================= *)
(** ** JavaScript strings *)

Definition jsstring : Type := list N.

(** A string literal of the source. *)
Definition js (s : string) : jsstring :=
  List.map N_of_ascii (list_ascii_of_string s).

Fixpoint jsstring_eqb (a b : jsstring) : bool :=
  match a, b with
  | [], [] => true
  | x :: a', y :: b' => N.eqb x y && jsstring_eqb a' b'
  | _, _ => false
  end.

(** ECMAScript WhiteSpace and LineTerminator code points, the set
    [String.prototype.trim] strips. All of them are single code units. *)
Definition isWhiteSpace (c : N) : bool :=
  ((c =? 0x0009) || (c =? 0x000B) || (c =? 0x000C) || (c =? 0x0020)
   || (c =? 0x00A0) || (c =? 0xFEFF) || (c =? 0x1680)
   || ((0x2000 <=? c) && (c <=? 0x200A))
   || (c =? 0x202F) || (c =? 0x205F) || (c =? 0x3000)
   || (c =? 0x000A) || (c =? 0x000D) || (c =? 0x2028) || (c =? 0x2029))%N.

Fixpoint trimStart (s : jsstring) : jsstring :=
  match s with
  | [] => []
  | c :: rest => if isWhiteSpace c then trimStart rest else s
  end.

Definition trimEnd (s : jsstring) : jsstring := rev (trimStart (rev s)).

Definition trim (s : jsstring) : jsstring := trimEnd (trimStart s).

(** SQLite [length(X)] of a TEXT value counts characters, so a
    surrogate pair counts once. *)
Definition isHighSurrogate (c : N) : bool := ((0xD800 <=? c) && (c <=? 0xDBFF))%N.
Definition isLowSurrogate (c : N) : bool := ((0xDC00 <=? c) && (c <=? 0xDFFF))%N.

Fixpoint sql_length (s : jsstring) : nat :=
  match s with
  | [] => 0
  | c :: rest =>
      match rest with
      | d :: rest' =>
          if isHighSurrogate c && isLowSurrogate d
          then S (sql_length rest') else S (sql_length rest)
      | [] => 1
      end
  end.

(* ================================================================= *)
(** ** Errors (types/service-errors.ts) *)

#[warnings="-register-all"]
Inductive JsError : Type :=
| ValidationError (message field value : jsstring)
| NotFoundError (message resourceType resourceId : jsstring)
| DatabaseError (message : jsstring) (cause : option JsError)
| SQLiteError (message : jsstring)       (* thrown by expo-sqlite *)
| SyntaxError (message : jsstring).      (* thrown by JSON.parse *)

Definition isValidationError (e : JsError) : bool :=
  match e with ValidationError _ _ _ => true | _ => false end.
Definition isNotFoundError (e : JsError) : bool :=
  match e with NotFoundError _ _ _ => true | _ => false end.
Definition isDatabaseError (e : JsError) : bool :=
  match e with DatabaseError _ _ => true | _ => false end.

(* ================================================================= *)
(** ** The SQLite store *)

Inductive SqlValue : Type :=
| SqlNull
| SqlText (s : jsstring)
| SqlInteger (z : Z).

Inductive SqlType : Type := TEXT | INTEGER.

Inductive ColumnConstraint : Type :=
| PRIMARY_KEY
| NOT_NULL
| DEFAULT (v : SqlValue)
| CHECK_LENGTH (lo hi : nat)   (* CHECK(length(c) >= lo AND length(c) <= hi) *)
| CHECK_EQ (z : Z).            (* CHECK (c = z) *)

Record ColumnDef : Type := {
  col_name : string;
  col_type : SqlType;
  col_constraints : list ColumnConstraint
}.

Record ForeignKey : Type := {
  fk_column : string;
  fk_table : string;
  fk_ref : string;
  fk_on_delete_cascade : bool
}.

Record TableDef : Type := {
  tbl_name : string;
  tbl_columns : list ColumnDef;
  tbl_foreign_keys : list ForeignKey
}.

Inductive Direction : Type := ASC | DESC.

Record IndexDef : Type := {
  idx_name : string;
  idx_table : string;
  idx_columns : list (string * Direction)
}.

Record ShoppingListRow : Type := {
  l_id : jsstring;
  l_name : jsstring;
  l_created_at : Z;
  l_updated_at : Z
}.

Record ShoppingItemRow : Type := {
  i_id : jsstring;
  i_list_id : jsstring;
  i_text : jsstring;
  i_completed : Z;
  i_created_at : Z;
  i_updated_at : Z
}.

Record AppSettingsRow : Type := {
  s_id : Z;
  s_theme_id : jsstring;
  s_custom_colors : option jsstring;
  s_created_at : Z;
  s_updated_at : Z
}.

Record SchemaVersionRow : Type := {
  v_version : Z;
  v_applied_at : Z
}.

(** One open connection: the catalog and the rows of the four tables,
    rows in insertion order. *)
Record SQLiteDatabase : Type := {
  foreign_keys : bool;                       (* PRAGMA foreign_keys *)
  tables : list TableDef;
  indexes : list IndexDef;
  schema_version : list SchemaVersionRow;
  shopping_lists : list ShoppingListRow;
  shopping_items : list ShoppingItemRow;
  app_settings : list AppSettingsRow
}.

Definition set_foreign_keys (b : bool) (d : SQLiteDatabase) : SQLiteDatabase :=
  {| foreign_keys := b; tables := tables d; indexes := indexes d;
     schema_version := schema_version d; shopping_lists := shopping_lists d;
     shopping_items := shopping_items d; app_settings := app_settings d |}.

Definition set_tables (ts : list TableDef) (d : SQLiteDatabase) : SQLiteDatabase :=
  {| foreign_keys := foreign_keys d; tables := ts; indexes := indexes d;
     schema_version := schema_version d; shopping_lists := shopping_lists d;
     shopping_items := shopping_items d; app_settings := app_settings d |}.

Definition set_indexes (ix : list IndexDef) (d : SQLiteDatabase) : SQLiteDatabase :=
  {| foreign_keys := foreign_keys d; tables := tables d; indexes := ix;
     schema_version := schema_version d; shopping_lists := shopping_lists d;
     shopping_items := shopping_items d; app_settings := app_settings d |}.

Definition set_schema_version (vs : list SchemaVersionRow) (d : SQLiteDatabase)
  : SQLiteDatabase :=
  {| foreign_keys := foreign_keys d; tables := tables d; indexes := indexes d;
     schema_version := vs; shopping_lists := shopping_lists d;
     shopping_items := shopping_items d; app_settings := app_settings d |}.

Definition set_shopping_lists (ls : list ShoppingListRow) (d : SQLiteDatabase)
  : SQLiteDatabase :=
  {| foreign_keys := foreign_keys d; tables := tables d; indexes := indexes d;
     schema_version := schema_version d; shopping_lists := ls;
     shopping_items := shopping_items d; app_settings := app_settings d |}.

Definition set_shopping_items (its : list ShoppingItemRow) (d : SQLiteDatabase)
  : SQLiteDatabase :=
  {| foreign_keys := foreign_keys d; tables := tables d; indexes := indexes d;
     schema_version := schema_version d; shopping_lists := shopping_lists d;
     shopping_items := its; app_settings := app_settings d |}.

Definition set_app_settings (ss : list AppSettingsRow) (d : SQLiteDatabase)
  : SQLiteDatabase :=
  {| foreign_keys := foreign_keys d; tables := tables d; indexes := indexes d;
     schema_version := schema_version d; shopping_lists := shopping_lists d;
     shopping_items := shopping_items d; app_settings := ss |}.

(** *** Constraint checking *)

Definition constraint_ok (v : SqlValue) (c : ColumnConstraint) : bool :=
  match c with
  | PRIMARY_KEY => true          (* uniqueness is checked against the table *)
  | NOT_NULL => match v with SqlNull => false | _ => true end
  | DEFAULT _ => true
  | CHECK_LENGTH lo hi =>
      match v with
      | SqlText s => (lo <=? sql_length s)%nat && (sql_length s <=? hi)%nat
      | _ => true
      end
  | CHECK_EQ z =>
      match v with
      | SqlInteger z' => Z.eqb z' z
      | SqlNull => true
      | SqlText _ => false
      end
  end.

Fixpoint column_value (n : string) (vals : list (string * SqlValue)) : SqlValue :=
  match vals with
  | [] => SqlNull
  | (k, v) :: rest => if String.eqb k n then v else column_value n rest
  end.

Definition row_ok (t : TableDef) (vals : list (string * SqlValue)) : bool :=
  forallb (fun c => forallb (constraint_ok (column_value (col_name c) vals))
                            (col_constraints c))
          (tbl_columns t).

Definition has_column (n : string) (t : TableDef) : bool :=
  existsb (fun c => String.eqb (col_name c) n) (tbl_columns t).

(** Every column a statement names must exist in the table. *)
Definition columns_known (t : TableDef) (cols : list string) : bool :=
  forallb (fun c => has_column c t) cols.

Definition no_such_column (n : string) : JsError :=
  SQLiteError (js "no such column in table " ++ js n).

Definition find_table (n : string) (d : SQLiteDatabase) : option TableDef :=
  find (fun t => String.eqb (tbl_name t) n) (tables d).

Definition no_such_table (n : string) : JsError :=
  SQLiteError (js "no such table: " ++ js n).

Definition constraint_failed (what : string) : JsError :=
  SQLiteError (js "constraint failed: " ++ js what).

Definition list_values (r : ShoppingListRow) : list (string * SqlValue) :=
  [("id", SqlText (l_id r)); ("name", SqlText (l_name r));
   ("created_at", SqlInteger (l_created_at r));
   ("updated_at", SqlInteger (l_updated_at r))]%string.

Definition item_values (r : ShoppingItemRow) : list (string * SqlValue) :=
  [("id", SqlText (i_id r)); ("list_id", SqlText (i_list_id r));
   ("text", SqlText (i_text r)); ("completed", SqlInteger (i_completed r));
   ("created_at", SqlInteger (i_created_at r));
   ("updated_at", SqlInteger (i_updated_at r))]%string.

Definition settings_values (r : AppSettingsRow) : list (string * SqlValue) :=
  [("id", SqlInteger (s_id r)); ("theme_id", SqlText (s_theme_id r));
   ("custom_colors",
     match s_custom_colors r with Some t => SqlText t | None => SqlNull end);
   ("created_at", SqlInteger (s_created_at r));
   ("updated_at", SqlInteger (s_updated_at r))]%string.

(** A foreign key of the item table is enforced when the pragma is on:
    the referenced list row must exist. *)
Definition parent_exists (d : SQLiteDatabase) (fk : ForeignKey) (v : SqlValue) : bool :=
  match v with
  | SqlNull => true
  | SqlInteger _ => false
  | SqlText key =>
      if (String.eqb (fk_table fk) "shopping_lists" && String.eqb (fk_ref fk) "id")%string
      then existsb (fun l => jsstring_eqb (l_id l) key) (shopping_lists d)
      else false
  end.

Definition foreign_keys_ok (d : SQLiteDatabase) (t : TableDef)
           (vals : list (string * SqlValue)) : bool :=
  negb (foreign_keys d)
  || forallb (fun fk => parent_exists d fk (column_value (fk_column fk) vals))
             (tbl_foreign_keys t).

(** An [UPDATE] checks the constraints of the rows it changes; an
    [INSERT] those of the new row, then the primary and foreign keys. *)

(** *** Statements on [shopping_lists] *)

(** [ORDER BY key]: a stable insertion sort on an integer key. SQLite
    leaves the relative order of rows with equal keys unspecified. *)
Section OrderBy.
Variable A : Type.
Variable key : A -> Z.
Variable dir : Direction.

Definition before (x y : A) : bool :=
  match dir with
  | ASC => (key x <=? key y)%Z
  | DESC => (key y <=? key x)%Z
  end.

Fixpoint insert_sorted (x : A) (l : list A) : list A :=
  match l with
  | [] => [x]
  | y :: l' => if before x y then x :: l else y :: insert_sorted x l'
  end.

Fixpoint order_by (l : list A) : list A :=
  match l with
  | [] => []
  | x :: l' => insert_sorted x (order_by l')
  end.

(** The order [ORDER BY key dir] promises between an earlier and a
    later row. *)
Definition in_order (x y : A) : Prop :=
  match dir with
  | ASC => (key x <= key y)%Z
  | DESC => (key y <= key x)%Z
  end.
End OrderBy.

(** [SELECT * FROM shopping_lists ORDER BY created_at DESC] *)
Definition select_lists_order_by_created_at_desc (d : SQLiteDatabase)
  : JsError + list ShoppingListRow :=
  match find_table "shopping_lists" d with
  | None => inl (no_such_table "shopping_lists")
  | Some _ => inr (order_by l_created_at DESC (shopping_lists d))
  end.

(** [SELECT * FROM shopping_lists WHERE id = ?] (first row) *)
Definition select_list_where_id (id : jsstring) (d : SQLiteDatabase)
  : JsError + option ShoppingListRow :=
  match find_table "shopping_lists" d with
  | None => inl (no_such_table "shopping_lists")
  | Some _ => inr (find (fun l => jsstring_eqb (l_id l) id) (shopping_lists d))
  end.

(** [SELECT COUNT( * ) as count FROM shopping_lists] *)
Definition select_count_lists (d : SQLiteDatabase) : JsError + Z :=
  match find_table "shopping_lists" d with
  | None => inl (no_such_table "shopping_lists")
  | Some _ => inr (Z.of_nat (List.length (shopping_lists d)))
  end.

(** [SELECT COUNT( * ) as count FROM shopping_lists WHERE id = ?] *)
Definition select_count_lists_where_id (id : jsstring) (d : SQLiteDatabase)
  : JsError + Z :=
  match find_table "shopping_lists" d with
  | None => inl (no_such_table "shopping_lists")
  | Some _ =>
      inr (Z.of_nat (List.length (filter (fun l => jsstring_eqb (l_id l) id)
                                    (shopping_lists d))))
  end.

(** [INSERT INTO shopping_lists (id, name, created_at, updated_at)
     VALUES (?, ?, ?, ?)] *)
Definition insert_list (r : ShoppingListRow) (d : SQLiteDatabase)
  : JsError + SQLiteDatabase :=
  match find_table "shopping_lists" d with
  | None => inl (no_such_table "shopping_lists")
  | Some t =>
      if negb (columns_known t (List.map fst (list_values r)))
      then inl (no_such_column "shopping_lists")
      else if negb (row_ok t (list_values r))
      then inl (constraint_failed "shopping_lists")
      else if existsb (fun l => jsstring_eqb (l_id l) (l_id r)) (shopping_lists d)
      then inl (constraint_failed "UNIQUE shopping_lists.id")
      else inr (set_shopping_lists (shopping_lists d ++ [r]) d)
  end.

(** [UPDATE shopping_lists SET name = ?, updated_at = ? WHERE id = ?] *)
Definition update_list_name (name : jsstring) (now : Z) (id : jsstring)
           (d : SQLiteDatabase) : JsError + SQLiteDatabase :=
  match find_table "shopping_lists" d with
  | None => inl (no_such_table "shopping_lists")
  | Some t =>
      let hit l := jsstring_eqb (l_id l) id in
      let upd l := {| l_id := l_id l; l_name := name;
                      l_created_at := l_created_at l; l_updated_at := now |} in
      if negb (columns_known t ["name"; "updated_at"; "id"]%string)
      then inl (no_such_column "shopping_lists")
      else if forallb (fun l => row_ok t (list_values (upd l)))
                      (filter hit (shopping_lists d))
      then inr (set_shopping_lists
                  (List.map (fun l => if hit l then upd l else l)
                            (shopping_lists d)) d)
      else inl (constraint_failed "shopping_lists")
  end.

(** The tables whose foreign key references [shopping_lists], split by
    their ON DELETE action. Only [shopping_items] can hold such rows. *)
Definition items_fk_to_lists (d : SQLiteDatabase) : list ForeignKey :=
  match find_table "shopping_items" d with
  | None => []
  | Some t => filter (fun fk => String.eqb (fk_table fk) "shopping_lists")
                     (tbl_foreign_keys t)
  end.

(** [DELETE FROM shopping_lists WHERE id = ?], with the foreign-key
    action on the item rows when the pragma is on. *)
Definition delete_list_where_id (id : jsstring) (d : SQLiteDatabase)
  : JsError + SQLiteDatabase :=
  match find_table "shopping_lists" d with
  | None => inl (no_such_table "shopping_lists")
  | Some _ =>
      let d' := set_shopping_lists
                  (filter (fun l => negb (jsstring_eqb (l_id l) id))
                          (shopping_lists d)) d in
      let deleted := existsb (fun l => jsstring_eqb (l_id l) id) (shopping_lists d) in
      let children := filter (fun i => jsstring_eqb (i_list_id i) id)
                             (shopping_items d) in
      if negb (foreign_keys d) || negb deleted then inr d'
      else match items_fk_to_lists d with
           | [] => inr d'
           | fks =>
               if forallb fk_on_delete_cascade fks
               then inr (set_shopping_items
                           (filter (fun i => negb (jsstring_eqb (i_list_id i) id))
                                   (shopping_items d)) d')
               else match children with
                    | [] => inr d'
                    | _ => inl (constraint_failed "FOREIGN KEY")
                    end
           end
  end.

(** *** Statements on [shopping_items] *)

(** [SELECT * FROM shopping_items WHERE list_id = ? ORDER BY created_at ASC] *)
Definition select_items_where_list_id_order_by_created_at_asc
           (listId : jsstring) (d : SQLiteDatabase)
  : JsError + list ShoppingItemRow :=
  match find_table "shopping_items" d with
  | None => inl (no_such_table "shopping_items")
  | Some _ =>
      inr (order_by i_created_at ASC
             (filter (fun i => jsstring_eqb (i_list_id i) listId)
                     (shopping_items d)))
  end.

(** [SELECT * FROM shopping_items WHERE id = ?] (first row) *)
Definition select_item_where_id (id : jsstring) (d : SQLiteDatabase)
  : JsError + option ShoppingItemRow :=
  match find_table "shopping_items" d with
  | None => inl (no_such_table "shopping_items")
  | Some _ => inr (find (fun i => jsstring_eqb (i_id i) id) (shopping_items d))
  end.

(** [SELECT COUNT( * ) as count FROM shopping_items WHERE list_id = ?] *)
Definition select_count_items_where_list_id (listId : jsstring)
           (d : SQLiteDatabase) : JsError + Z :=
  match find_table "shopping_items" d with
  | None => inl (no_such_table "shopping_items")
  | Some _ =>
      inr (Z.of_nat (List.length (filter (fun i => jsstring_eqb (i_list_id i) listId)
                                    (shopping_items d))))
  end.

(** [INSERT INTO shopping_items
     (id, list_id, text, completed, created_at, updated_at)
     VALUES (?, ?, ?, ?, ?, ?)] *)
Definition insert_item (r : ShoppingItemRow) (d : SQLiteDatabase)
  : JsError + SQLiteDatabase :=
  match find_table "shopping_items" d with
  | None => inl (no_such_table "shopping_items")
  | Some t =>
      if negb (columns_known t (List.map fst (item_values r)))
      then inl (no_such_column "shopping_items")
      else if negb (row_ok t (item_values r))
      then inl (constraint_failed "shopping_items")
      else if existsb (fun i => jsstring_eqb (i_id i) (i_id r)) (shopping_items d)
      then inl (constraint_failed "UNIQUE shopping_items.id")
      else if negb (foreign_keys_ok d t (item_values r))
      then inl (constraint_failed "FOREIGN KEY")
      else inr (set_shopping_items (shopping_items d ++ [r]) d)
  end.

Definition update_items_where_id (upd : ShoppingItemRow -> ShoppingItemRow)
           (cols : list string) (id : jsstring) (d : SQLiteDatabase)
  : JsError + SQLiteDatabase :=
  match find_table "shopping_items" d with
  | None => inl (no_such_table "shopping_items")
  | Some t =>
      if negb (columns_known t cols)
      then inl (no_such_column "shopping_items")
      else
        let hit i := jsstring_eqb (i_id i) id in
        if forallb (fun i => row_ok t (item_values (upd i)))
                   (filter hit (shopping_items d))
        then inr (set_shopping_items
                    (List.map (fun i => if hit i then upd i else i)
                              (shopping_items d)) d)
        else inl (constraint_failed "shopping_items")
  end.

(** [UPDATE shopping_items SET text = ?, updated_at = ? WHERE id = ?] *)
Definition update_item_text (text : jsstring) (now : Z) (id : jsstring)
  : SQLiteDatabase -> JsError + SQLiteDatabase :=
  update_items_where_id
    (fun i => {| i_id := i_id i; i_list_id := i_list_id i; i_text := text;
                 i_completed := i_completed i; i_created_at := i_created_at i;
                 i_updated_at := now |})
    ["text"; "updated_at"; "id"]%string id.

(** [SET completed = ?, updated_at = ?] on one row. *)
Definition with_completed (completed : Z) (now : Z) (i : ShoppingItemRow)
  : ShoppingItemRow :=
  {| i_id := i_id i; i_list_id := i_list_id i; i_text := i_text i;
     i_completed := completed; i_created_at := i_created_at i;
     i_updated_at := now |}.

(** [UPDATE shopping_items SET completed = ?, updated_at = ? WHERE id = ?] *)
Definition update_item_completed (completed : Z) (now : Z) (id : jsstring)
  : SQLiteDatabase -> JsError + SQLiteDatabase :=
  update_items_where_id (with_completed completed now)
    ["completed"; "updated_at"; "id"]%string id.

(** [DELETE FROM shopping_items WHERE id = ?] *)
Definition delete_item_where_id (id : jsstring) (d : SQLiteDatabase)
  : JsError + SQLiteDatabase :=
  match find_table "shopping_items" d with
  | None => inl (no_such_table "shopping_items")
  | Some _ =>
      inr (set_shopping_items
             (filter (fun i => negb (jsstring_eqb (i_id i) id)) (shopping_items d)) d)
  end.

(** [DELETE FROM shopping_items WHERE list_id = ?] *)
Definition delete_items_where_list_id (listId : jsstring) (d : SQLiteDatabase)
  : JsError + SQLiteDatabase :=
  match find_table "shopping_items" d with
  | None => inl (no_such_table "shopping_items")
  | Some _ =>
      inr (set_shopping_items
             (filter (fun i => negb (jsstring_eqb (i_list_id i) listId))
                     (shopping_items d)) d)
  end.

(** *** Statements on [app_settings] *)

(** [SELECT * FROM app_settings WHERE id = 1] (first row) *)
Definition select_settings (d : SQLiteDatabase) : JsError + option AppSettingsRow :=
  match find_table "app_settings" d with
  | None => inl (no_such_table "app_settings")
  | Some _ => inr (find (fun r => Z.eqb (s_id r) 1) (app_settings d))
  end.

Definition update_settings_where_id_1 (upd : AppSettingsRow -> AppSettingsRow)
           (cols : list string) (d : SQLiteDatabase) : JsError + SQLiteDatabase :=
  match find_table "app_settings" d with
  | None => inl (no_such_table "app_settings")
  | Some t =>
      if negb (columns_known t cols)
      then inl (no_such_column "app_settings")
      else
        let hit r := Z.eqb (s_id r) 1 in
        if forallb (fun r => row_ok t (settings_values (upd r)))
                   (filter hit (app_settings d))
        then inr (set_app_settings
                    (List.map (fun r => if hit r then upd r else r)
                              (app_settings d)) d)
        else inl (constraint_failed "app_settings")
  end.

(** [UPDATE app_settings SET theme_id = ?, updated_at = ? WHERE id = 1] *)
Definition update_settings_theme (themeId : jsstring) (now : Z)
  : SQLiteDatabase -> JsError + SQLiteDatabase :=
  update_settings_where_id_1
    (fun r => {| s_id := s_id r; s_theme_id := themeId;
                 s_custom_colors := s_custom_colors r;
                 s_created_at := s_created_at r; s_updated_at := now |})
    ["theme_id"; "updated_at"; "id"]%string.

(** [UPDATE app_settings SET theme_id = ?, custom_colors = ?, updated_at = ?
     WHERE id = 1] *)
Definition update_settings_theme_colors (themeId : jsstring)
           (customColors : option jsstring) (now : Z)
  : SQLiteDatabase -> JsError + SQLiteDatabase :=
  update_settings_where_id_1
    (fun r => {| s_id := s_id r; s_theme_id := themeId;
                 s_custom_colors := customColors;
                 s_created_at := s_created_at r; s_updated_at := now |})
    ["theme_id"; "custom_colors"; "updated_at"; "id"]%string.

(** [INSERT INTO app_settings (id, theme_id, custom_colors, created_at, updated_at)
     VALUES (?, ?, ?, ?, ?)] *)
Definition insert_settings (r : AppSettingsRow) (d : SQLiteDatabase)
  : JsError + SQLiteDatabase :=
  match find_table "app_settings" d with
  | None => inl (no_such_table "app_settings")
  | Some t =>
      if negb (columns_known t (List.map fst (settings_values r)))
      then inl (no_such_column "app_settings")
      else if negb (row_ok t (settings_values r))
      then inl (constraint_failed "app_settings")
      else if existsb (fun r' => Z.eqb (s_id r') (s_id r)) (app_settings d)
      then inl (constraint_failed "UNIQUE app_settings.id")
      else inr (set_app_settings (app_settings d ++ [r]) d)
  end.

(** *** Data definition and [schema_version] *)

(** [CREATE TABLE IF NOT EXISTS t (...)] *)
Definition create_table_if_not_exists (t : TableDef) (d : SQLiteDatabase)
  : JsError + SQLiteDatabase :=
  match find_table (tbl_name t) d with
  | Some _ => inr d
  | None => inr (set_tables (tables d ++ [t]) d)
  end.

(** [CREATE INDEX IF NOT EXISTS ix ON t(...)] *)
Definition create_index_if_not_exists (ix : IndexDef) (d : SQLiteDatabase)
  : JsError + SQLiteDatabase :=
  if existsb (fun i => String.eqb (idx_name i) (idx_name ix)) (indexes d)
  then inr d
  else match find_table (idx_table ix) d with
       | None => inl (no_such_table (idx_table ix))
       | Some t =>
           if columns_known t (List.map fst (idx_columns ix))
           then inr (set_indexes (indexes d ++ [ix]) d)
           else inl (no_such_column (idx_table ix))
       end.

(** [ALTER TABLE shopping_items ADD COLUMN completed INTEGER NOT NULL DEFAULT 0]:
    the rows already present take the default. *)
Definition alter_items_add_completed (d : SQLiteDatabase) : JsError + SQLiteDatabase :=
  match find_table "shopping_items" d with
  | None => inl (no_such_table "shopping_items")
  | Some t =>
      if has_column "completed" t
      then inl (SQLiteError (js "duplicate column name: completed"))
      else
        let col := {| col_name := "completed"; col_type := INTEGER;
                      col_constraints := [NOT_NULL; DEFAULT (SqlInteger 0)] |} in
        let t' := {| tbl_name := tbl_name t;
                     tbl_columns := tbl_columns t ++ [col];
                     tbl_foreign_keys := tbl_foreign_keys t |} in
        let ts := List.map (fun u => if String.eqb (tbl_name u) "shopping_items"
                                     then t' else u) (tables d) in
        let rows := List.map
                      (fun i => {| i_id := i_id i; i_list_id := i_list_id i;
                                   i_text := i_text i; i_completed := 0;
                                   i_created_at := i_created_at i;
                                   i_updated_at := i_updated_at i |})
                      (shopping_items d) in
        inr (set_shopping_items rows (set_tables ts d))
  end.

(** [INSERT INTO schema_version (version, applied_at) VALUES (v, now)] *)
Definition insert_schema_version (v now : Z) (d : SQLiteDatabase)
  : JsError + SQLiteDatabase :=
  match find_table "schema_version" d with
  | None => inl (no_such_table "schema_version")
  | Some _ =>
      if existsb (fun r => Z.eqb (v_version r) v) (schema_version d)
      then inl (constraint_failed "UNIQUE schema_version.version")
      else inr (set_schema_version
                  (schema_version d ++ [{| v_version := v; v_applied_at := now |}]) d)
  end.

(** [SELECT version FROM schema_version ORDER BY version DESC LIMIT 1] *)
Definition select_latest_version (d : SQLiteDatabase) : JsError + option Z :=
  match find_table "schema_version" d with
  | None => inl (no_such_table "schema_version")
  | Some _ =>
      inr (match order_by v_version DESC (schema_version d) with
           | [] => None
           | r :: _ => Some (v_version r)
           end)
  end.

(** [DELETE FROM shopping_items] *)
Definition delete_all_items (d : SQLiteDatabase) : JsError + SQLiteDatabase :=
  match find_table "shopping_items" d with
  | None => inl (no_such_table "shopping_items")
  | Some _ => inr (set_shopping_items [] d)
  end.

(** [DELETE FROM shopping_lists]: every row is deleted, each with the
    foreign-key action of a single delete. *)
Definition delete_all_lists (d : SQLiteDatabase) : JsError + SQLiteDatabase :=
  fold_left (fun acc id => match acc with
                           | inl e => inl e
                           | inr d' => delete_list_where_id id d'
                           end)
            (List.map l_id (shopping_lists d))
            (match find_table "shopping_lists" d with
             | None => inl (no_such_table "shopping_lists")
             | Some _ => inr d
             end).

(* ================================================================= *)
(** ** The process state and asynchronous operations *)

(** The module-level variable [dbInstance] of database.service.ts. *)
Record World : Type := { dbInstance : option SQLiteDatabase }.

(** An async function: it runs on the process state and settles with a
    value or a thrown error. *)
Definition M (A : Type) : Type := World -> (JsError + A) * World.

Definition ret {A} (a : A) : M A := fun w => (inr a, w).

Definition throw {A} (e : JsError) : M A := fun w => (inl e, w).

Definition bind {A B} (m : M A) (k : A -> M B) : M B :=
  fun w => match m w with
           | (inl e, w') => (inl e, w')
           | (inr a, w') => k a w'
           end.

Definition try_catch {A} (body : M A) (handler : JsError -> M A) : M A :=
  fun w => match body w with
           | (inl e, w') => handler e w'
           | (inr a, w') => (inr a, w')
           end.

Declare Scope js_scope.
Delimit Scope js_scope with js.
Notation "x <- c ;; k" := (bind c (fun x => k))
  (at level 61, c at next level, right associativity) : js_scope.
Notation "c ;;; k" := (bind c (fun _ => k))
  (at level 61, right associativity) : js_scope.
Open Scope js_scope.

(** A synchronous call that may throw. *)
Definition lift {A} (r : JsError + A) : M A := fun w => (r, w).

(** [db.runAsync(sql, params)] on the open connection. *)
Definition runAsync (stmt : SQLiteDatabase -> JsError + SQLiteDatabase) : M unit :=
  fun w => match dbInstance w with
           | None => (inl (SQLiteError (js "database is closed")), w)
           | Some d =>
               match stmt d with
               | inl e => (inl e, w)
               | inr d' => (inr tt, {| dbInstance := Some d' |})
               end
           end.

(** [db.getFirstAsync(sql, params)] and [db.getAllAsync(sql, params)]. *)
Definition getFirstAsync {A} (q : SQLiteDatabase -> JsError + A) : M A :=
  fun w => match dbInstance w with
           | None => (inl (SQLiteError (js "database is closed")), w)
           | Some d => (q d, w)
           end.

Definition getAllAsync {A} (q : SQLiteDatabase -> JsError + A) : M A :=
  getFirstAsync q.

(** [db.execAsync(script)]: the statements of the script run one after
    the other in autocommit mode; the first failure stops the script and
    what ran before it stays applied. *)
Fixpoint execAsync (script : list (SQLiteDatabase -> JsError + SQLiteDatabase))
  : M unit :=
  match script with
  | [] => ret tt
  | stmt :: rest => runAsync stmt ;;; execAsync rest
  end.

(* ================================================================= *)
(** ** services/database.service.ts *)

Module DatabaseService.

Definition CURRENT_SCHEMA_VERSION : Z := 3.

Definition getDatabase : M (option SQLiteDatabase) :=
  fun w => (inr (dbInstance w), w).

Definition schema_version_table : TableDef :=
  {| tbl_name := "schema_version";
     tbl_columns :=
       [ {| col_name := "version"; col_type := INTEGER;
            col_constraints := [PRIMARY_KEY] |};
         {| col_name := "applied_at"; col_type := INTEGER;
            col_constraints := [NOT_NULL] |} ];
     tbl_foreign_keys := [] |}.

Definition shopping_lists_table : TableDef :=
  {| tbl_name := "shopping_lists";
     tbl_columns :=
       [ {| col_name := "id"; col_type := TEXT;
            col_constraints := [PRIMARY_KEY; NOT_NULL] |};
         {| col_name := "name"; col_type := TEXT;
            col_constraints := [NOT_NULL] |};
         {| col_name := "created_at"; col_type := INTEGER;
            col_constraints := [NOT_NULL] |};
         {| col_name := "updated_at"; col_type := INTEGER;
            col_constraints := [NOT_NULL] |} ];
     tbl_foreign_keys := [] |}.

Definition shopping_items_table : TableDef :=
  {| tbl_name := "shopping_items";
     tbl_columns :=
       [ {| col_name := "id"; col_type := TEXT;
            col_constraints := [PRIMARY_KEY; NOT_NULL] |};
         {| col_name := "list_id"; col_type := TEXT;
            col_constraints := [NOT_NULL] |};
         {| col_name := "text"; col_type := TEXT;
            col_constraints := [NOT_NULL] |};
         {| col_name := "created_at"; col_type := INTEGER;
            col_constraints := [NOT_NULL] |};
         {| col_name := "updated_at"; col_type := INTEGER;
            col_constraints := [NOT_NULL] |} ];
     tbl_foreign_keys :=
       [ {| fk_column := "list_id"; fk_table := "shopping_lists";
            fk_ref := "id"; fk_on_delete_cascade := true |} ] |}.

Definition idx_lists_created : IndexDef :=
  {| idx_name := "idx_lists_created"; idx_table := "shopping_lists";
     idx_columns := [("created_at", DESC)]%string |}.

Definition idx_items_list : IndexDef :=
  {| idx_name := "idx_items_list"; idx_table := "shopping_items";
     idx_columns := [("list_id", ASC); ("created_at", DESC)]%string |}.

Definition app_settings_table : TableDef :=
  {| tbl_name := "app_settings";
     tbl_columns :=
       [ {| col_name := "id"; col_type := INTEGER;
            col_constraints := [PRIMARY_KEY; CHECK_EQ 1] |};
         {| col_name := "theme_id"; col_type := TEXT;
            col_constraints := [NOT_NULL; DEFAULT (SqlText (js "default"))] |};
         {| col_name := "custom_colors"; col_type := TEXT;
            col_constraints := [] |};
         {| col_name := "created_at"; col_type := INTEGER;
            col_constraints := [NOT_NULL] |};
         {| col_name := "updated_at"; col_type := INTEGER;
            col_constraints := [NOT_NULL] |} ];
     tbl_foreign_keys := [] |}.

(** Migration V1: the two tables, their indexes, the version row.
    [now] is the [Date.now()] spliced into the script. *)
Definition runMigrationV1 (now : Z) : M unit :=
  execAsync
    [ create_table_if_not_exists shopping_lists_table;
      create_table_if_not_exists shopping_items_table;
      create_index_if_not_exists idx_lists_created;
      create_index_if_not_exists idx_items_list;
      insert_schema_version 1 now ].

(** Migration V2: the [completed] column. *)
Definition runMigrationV2 (now : Z) : M unit :=
  execAsync
    [ alter_items_add_completed;
      insert_schema_version 2 now ].

(** Migration V3: the settings table and its single row. The script
    reads the clock three times. *)
Definition runMigrationV3 (now1 now2 now3 : Z) : M unit :=
  execAsync
    [ create_table_if_not_exists app_settings_table;
      insert_settings {| s_id := 1; s_theme_id := js "default";
                         s_custom_colors := None;
                         s_created_at := now1; s_updated_at := now2 |};
      insert_schema_version 3 now3 ].

(** The clock readings of one run of the migrations. *)
Record Clock : Type := {
  at_v1 : Z; at_v2 : Z; at_v3_created : Z; at_v3_updated : Z; at_v3 : Z
}.

Definition runMigrations (clk : Clock) : M unit :=
  try_catch
    (execAsync [create_table_if_not_exists schema_version_table] ;;;
     result <- getFirstAsync select_latest_version ;;
     let currentVersion := match result with Some v => v | None => 0%Z end in
     (if (currentVersion <? 1)%Z then runMigrationV1 (at_v1 clk) else ret tt) ;;;
     (if (currentVersion <? 2)%Z then runMigrationV2 (at_v2 clk) else ret tt) ;;;
     (if (currentVersion <? 3)%Z
      then runMigrationV3 (at_v3_created clk) (at_v3_updated clk) (at_v3 clk)
      else ret tt))
    (fun error =>
       throw (DatabaseError (js "Database migration failed") (Some error))).

(** [SQLite.openDatabaseAsync(DB_NAME)] assigned to [dbInstance]:
    [file] is the content of the database file; a new connection has
    foreign keys off. *)
Definition openDatabaseAsync (file : SQLiteDatabase) : M unit :=
  fun _ => (inr tt, {| dbInstance := Some (set_foreign_keys false file) |}).

(** [PRAGMA foreign_keys = ON;] *)
Definition pragma_foreign_keys_on (d : SQLiteDatabase) : JsError + SQLiteDatabase :=
  inr (set_foreign_keys true d).

Definition initializeDatabase (file : SQLiteDatabase) (clk : Clock)
  : M SQLiteDatabase :=
  try_catch
    (existing <- getDatabase ;;
     match existing with
     | Some d => ret d
     | None =>
         openDatabaseAsync file ;;;
         execAsync [pragma_foreign_keys_on] ;;;
         runMigrations clk ;;;
         opened <- getDatabase ;;
         match opened with
         | Some d => ret d
         | None => throw (SQLiteError (js "database is closed"))
         end
     end)
    (fun error =>
       throw (DatabaseError (js "Failed to initialize database") (Some error))).

Definition closeDatabase : M unit :=
  fun w => match dbInstance w with
           | Some _ => (inr tt, {| dbInstance := None |})
           | None => (inr tt, w)
           end.

(** An empty database file. *)
Definition empty_file : SQLiteDatabase :=
  {| foreign_keys := false; tables := []; indexes := []; schema_version := [];
     shopping_lists := []; shopping_items := []; app_settings := [] |}.

(** [clearAllData]: both deletes in one script; every failure is
    wrapped. *)
Definition clearAllData : M unit :=
  try_catch
    (db <- getDatabase ;;
     match db with
     | None => throw (DatabaseError (js "Database not initialized") None)
     | Some _ => execAsync [delete_all_items; delete_all_lists]
     end)
    (fun error =>
       throw (DatabaseError (js "Failed to clear database") (Some error))).

End DatabaseService.

(** The schema as the data-model document of the repository writes it
    (specs/001-shopping-lists/data-model.md, "Database Schema"), for
    comparison with the one the migration creates. *)
Module DocumentedSchema.

Definition shopping_lists_table : TableDef :=
  {| tbl_name := "shopping_lists";
     tbl_columns :=
       [ {| col_name := "id"; col_type := TEXT;
            col_constraints := [PRIMARY_KEY; NOT_NULL] |};
         {| col_name := "name"; col_type := TEXT;
            col_constraints := [NOT_NULL; CHECK_LENGTH 1 100] |};
         {| col_name := "created_at"; col_type := INTEGER;
            col_constraints := [NOT_NULL] |};
         {| col_name := "updated_at"; col_type := INTEGER;
            col_constraints := [NOT_NULL] |} ];
     tbl_foreign_keys := [] |}.

Definition shopping_items_table : TableDef :=
  {| tbl_name := "shopping_items";
     tbl_columns :=
       [ {| col_name := "id"; col_type := TEXT;
            col_constraints := [PRIMARY_KEY; NOT_NULL] |};
         {| col_name := "list_id"; col_type := TEXT;
            col_constraints := [NOT_NULL] |};
         {| col_name := "text"; col_type := TEXT;
            col_constraints := [NOT_NULL; CHECK_LENGTH 1 500] |};
         {| col_name := "created_at"; col_type := INTEGER;
            col_constraints := [NOT_NULL] |};
         {| col_name := "updated_at"; col_type := INTEGER;
            col_constraints := [NOT_NULL] |} ];
     tbl_foreign_keys :=
       [ {| fk_column := "list_id"; fk_table := "shopping_lists";
            fk_ref := "id"; fk_on_delete_cascade := true |} ] |}.

End DocumentedSchema.

(* ================================================================= *)
(** ** Entities (types/) *)

Record ShoppingList : Type := {
  list_id : jsstring;
  list_name : jsstring;
  list_createdAt : Z;
  list_updatedAt : Z
}.

Record CreateShoppingListDto : Type := { create_list_name : jsstring }.
Record UpdateShoppingListDto : Type := { update_list_name_to : jsstring }.

Record ShoppingItem : Type := {
  item_id : jsstring;
  item_listId : jsstring;
  item_text : jsstring;
  item_completed : bool;
  item_createdAt : Z;
  item_updatedAt : Z
}.

Record CreateShoppingItemDto : Type := {
  create_item_listId : jsstring;
  create_item_text : jsstring
}.
Record UpdateShoppingItemDto : Type := { update_item_text_to : jsstring }.

Inductive ThemePresetId : Type :=
| theme_default | theme_cyberpunk | theme_steampunk
| theme_retro | theme_artdeco | theme_custom.

(** The string a [ThemePresetId] is at run time. *)
Definition theme_string (t : ThemePresetId) : jsstring :=
  match t with
  | theme_default => js "default"
  | theme_cyberpunk => js "cyberpunk"
  | theme_steampunk => js "steampunk"
  | theme_retro => js "retro"
  | theme_artdeco => js "artdeco"
  | theme_custom => js "custom"
  end.

Record CustomColors : Type := {
  completedColor : option jsstring;
  accentColor : option jsstring;
  textColor : option jsstring;
  backgroundColor : option jsstring;
  cardColor : option jsstring
}.

(** [themeId] is the stored text, cast without a check. *)
Record AppSettings : Type := {
  settings_id : Z;
  settings_themeId : jsstring;
  settings_customColors : option CustomColors;
  settings_createdAt : Z;
  settings_updatedAt : Z
}.

Record UpdateThemeDto : Type := { update_themeId : ThemePresetId }.
Record UpdateCustomColorsDto : Type := { update_customColors : CustomColors }.

(** [if (!db) throw new DatabaseError('Database not initialized')] *)
Definition require_database : M unit :=
  db <- DatabaseService.getDatabase ;;
  match db with
  | None => throw (DatabaseError (js "Database not initialized") None)
  | Some _ => ret tt
  end.

(* ================================================================= *)
(** ** services/shopping-lists.service.ts *)

Module ShoppingListsService.

Definition validateListName (name : jsstring) (allowDefault : bool)
  : JsError + jsstring :=
  let trimmed := trim name in
  if (List.length trimmed =? 0)%nat then
    if allowDefault then inr (js "Shopping List")
    else inl (ValidationError (js "List name cannot be empty") (js "name") name)
  else if (100 <? List.length trimmed)%nat then
    inl (ValidationError (js "List name cannot exceed 100 characters")
                         (js "name") name)
  else inr trimmed.

Definition of_row (row : ShoppingListRow) : ShoppingList :=
  {| list_id := l_id row; list_name := l_name row;
     list_createdAt := l_created_at row; list_updatedAt := l_updated_at row |}.

Definition getAll : M (list ShoppingList) :=
  try_catch
    (require_database ;;;
     rows <- getAllAsync select_lists_order_by_created_at_desc ;;
     ret (List.map of_row rows))
    (fun error =>
       if isDatabaseError error then throw error
       else throw (DatabaseError (js "Failed to retrieve shopping lists")
                                 (Some error))).

Definition getById (id : jsstring) : M (option ShoppingList) :=
  try_catch
    (require_database ;;;
     row <- getFirstAsync (select_list_where_id id) ;;
     match row with
     | None => ret None
     | Some row => ret (Some (of_row row))
     end)
    (fun error =>
       if isDatabaseError error then throw error
       else throw (DatabaseError (js "Failed to retrieve shopping list")
                                 (Some error))).

Definition create (dto : CreateShoppingListDto) (uuid : jsstring) (now : Z)
  : M ShoppingList :=
  try_catch
    (require_database ;;;
     name <- lift (validateListName (create_list_name dto) true) ;;
     let newList := {| list_id := uuid; list_name := name;
                       list_createdAt := now; list_updatedAt := now |} in
     runAsync (insert_list {| l_id := list_id newList;
                              l_name := list_name newList;
                              l_created_at := list_createdAt newList;
                              l_updated_at := list_updatedAt newList |}) ;;;
     ret newList)
    (fun error =>
       if isValidationError error then throw error
       else if isDatabaseError error then throw error
       else throw (DatabaseError (js "Failed to create shopping list")
                                 (Some error))).

Definition not_found (id : jsstring) : JsError :=
  NotFoundError (js "Shopping list not found: " ++ id) (js "ShoppingList") id.

Definition update (id : jsstring) (dto : UpdateShoppingListDto) (now : Z)
  : M ShoppingList :=
  try_catch
    (require_database ;;;
     name <- lift (validateListName (update_list_name_to dto) false) ;;
     existing <- getById id ;;
     match existing with
     | None => throw (not_found id)
     | Some existing =>
         runAsync (update_list_name name now id) ;;;
         ret {| list_id := list_id existing; list_name := name;
                list_createdAt := list_createdAt existing;
                list_updatedAt := now |}
     end)
    (fun error =>
       if isValidationError error || isNotFoundError error then throw error
       else if isDatabaseError error then throw error
       else throw (DatabaseError (js "Failed to update shopping list")
                                 (Some error))).

Definition deleteList (id : jsstring) : M unit :=
  try_catch
    (require_database ;;;
     existing <- getById id ;;
     match existing with
     | None => throw (not_found id)
     | Some _ => runAsync (delete_list_where_id id)
     end)
    (fun error =>
       if isNotFoundError error then throw error
       else if isDatabaseError error then throw error
       else throw (DatabaseError (js "Failed to delete shopping list")
                                 (Some error))).

Definition count : M Z :=
  try_catch
    (require_database ;;;
     getFirstAsync select_count_lists)
    (fun error =>
       if isDatabaseError error then throw error
       else throw (DatabaseError (js "Failed to count shopping lists")
                                 (Some error))).

End ShoppingListsService.

(* ================================================================= *)
(** ** services/shopping-items.service.ts *)

Module ShoppingItemsService.

Definition validateItemText (text : jsstring) : JsError + jsstring :=
  let trimmed := trim text in
  if (List.length trimmed =? 0)%nat then
    inl (ValidationError (js "Item text cannot be empty") (js "text") text)
  else if (500 <? List.length trimmed)%nat then
    inl (ValidationError (js "Item text cannot exceed 500 characters")
                         (js "text") text)
  else inr trimmed.

(** [Boolean(row.completed)] *)
Definition Boolean (z : Z) : bool := negb (Z.eqb z 0).

(** [completed ? 1 : 0] *)
Definition bit (b : bool) : Z := if b then 1%Z else 0%Z.

Definition of_row (row : ShoppingItemRow) : ShoppingItem :=
  {| item_id := i_id row; item_listId := i_list_id row;
     item_text := i_text row; item_completed := Boolean (i_completed row);
     item_createdAt := i_created_at row; item_updatedAt := i_updated_at row |}.

Definition getByListId (listId : jsstring) : M (list ShoppingItem) :=
  try_catch
    (require_database ;;;
     rows <- getAllAsync
               (select_items_where_list_id_order_by_created_at_asc listId) ;;
     ret (List.map of_row rows))
    (fun error =>
       if isDatabaseError error then throw error
       else throw (DatabaseError (js "Failed to retrieve shopping items")
                                 (Some error))).

Definition getById (id : jsstring) : M (option ShoppingItem) :=
  try_catch
    (require_database ;;;
     row <- getFirstAsync (select_item_where_id id) ;;
     match row with
     | None => ret None
     | Some row => ret (Some (of_row row))
     end)
    (fun error =>
       if isDatabaseError error then throw error
       else throw (DatabaseError (js "Failed to retrieve shopping item")
                                 (Some error))).

Definition create (dto : CreateShoppingItemDto) (uuid : jsstring) (now : Z)
  : M ShoppingItem :=
  try_catch
    (require_database ;;;
     validatedText <- lift (validateItemText (create_item_text dto)) ;;
     (* the COUNT query always yields a row, so [!listExists] is false *)
     listExists <- getFirstAsync
                     (select_count_lists_where_id (create_item_listId dto)) ;;
     if (listExists =? 0)%Z then
       throw (NotFoundError (js "Shopping list not found") (js "listId")
                            (create_item_listId dto))
     else
       let id := uuid in
       runAsync (insert_item {| i_id := id;
                                i_list_id := create_item_listId dto;
                                i_text := validatedText; i_completed := 0;
                                i_created_at := now; i_updated_at := now |}) ;;;
       ret {| item_id := id; item_listId := create_item_listId dto;
              item_text := validatedText; item_completed := false;
              item_createdAt := now; item_updatedAt := now |})
    (fun error =>
       if isValidationError error || isNotFoundError error then throw error
       else throw (DatabaseError (js "Failed to create shopping item")
                                 (Some error))).

Definition not_found (id : jsstring) : JsError :=
  NotFoundError (js "Shopping item not found") (js "id") id.

Definition update (id : jsstring) (dto : UpdateShoppingItemDto) (now : Z)
  : M ShoppingItem :=
  try_catch
    (require_database ;;;
     validatedText <- lift (validateItemText (update_item_text_to dto)) ;;
     existingItem <- getById id ;;
     match existingItem with
     | None => throw (not_found id)
     | Some existingItem =>
         runAsync (update_item_text validatedText now id) ;;;
         ret {| item_id := item_id existingItem;
                item_listId := item_listId existingItem;
                item_text := validatedText;
                item_completed := item_completed existingItem;
                item_createdAt := item_createdAt existingItem;
                item_updatedAt := now |}
     end)
    (fun error =>
       if isValidationError error || isNotFoundError error then throw error
       else throw (DatabaseError (js "Failed to update shopping item")
                                 (Some error))).

Definition copy (id : jsstring) (uuid : jsstring) (now : Z) : M ShoppingItem :=
  try_catch
    (require_database ;;;
     sourceItem <- getById id ;;
     match sourceItem with
     | None => throw (not_found id)
     | Some sourceItem =>
         let newId := uuid in
         runAsync (insert_item {| i_id := newId;
                                  i_list_id := item_listId sourceItem;
                                  i_text := item_text sourceItem;
                                  i_completed := bit (item_completed sourceItem);
                                  i_created_at := now; i_updated_at := now |}) ;;;
         ret {| item_id := newId; item_listId := item_listId sourceItem;
                item_text := item_text sourceItem;
                item_completed := item_completed sourceItem;
                item_createdAt := now; item_updatedAt := now |}
     end)
    (fun error =>
       if isNotFoundError error then throw error
       else throw (DatabaseError (js "Failed to copy shopping item")
                                 (Some error))).

Definition toggleComplete (id : jsstring) (now : Z) : M ShoppingItem :=
  try_catch
    (require_database ;;;
     existingItem <- getById id ;;
     match existingItem with
     | None => throw (not_found id)
     | Some existingItem =>
         let newCompleted := negb (item_completed existingItem) in
         runAsync (update_item_completed (bit newCompleted) now id) ;;;
         ret {| item_id := item_id existingItem;
                item_listId := item_listId existingItem;
                item_text := item_text existingItem;
                item_completed := newCompleted;
                item_createdAt := item_createdAt existingItem;
                item_updatedAt := now |}
     end)
    (fun error =>
       if isNotFoundError error then throw error
       else throw (DatabaseError (js "Failed to toggle item completion")
                                 (Some error))).

Definition deleteItem (id : jsstring) : M unit :=
  try_catch
    (require_database ;;;
     existingItem <- getById id ;;
     match existingItem with
     | None => throw (not_found id)
     | Some _ => runAsync (delete_item_where_id id)
     end)
    (fun error =>
       if isNotFoundError error then throw error
       else throw (DatabaseError (js "Failed to delete shopping item")
                                 (Some error))).

Definition countByListId (listId : jsstring) : M Z :=
  try_catch
    (require_database ;;;
     getFirstAsync (select_count_items_where_list_id listId))
    (fun error =>
       throw (DatabaseError (js "Failed to count shopping items") (Some error))).

Definition deleteByListId (listId : jsstring) : M Z :=
  try_catch
    (require_database ;;;
     countBefore <- countByListId listId ;;
     runAsync (delete_items_where_list_id listId) ;;;
     ret countBefore)
    (fun error =>
       throw (DatabaseError (js "Failed to delete shopping items") (Some error))).

End ShoppingItemsService.

(* ================================================================= *)
(** ** services/settings.service.ts *)

Module SettingsService.
Section WithJSON.

(** The two built-ins the service calls on the colour map. [JSON_parse]
    is [None] where [JSON.parse] throws. *)
Variable JSON_parse : jsstring -> option CustomColors.
Variable JSON_stringify : CustomColors -> jsstring.

Definition getSettings : M AppSettings :=
  try_catch
    (require_database ;;;
     result <- getFirstAsync select_settings ;;
     match result with
     | None =>
         throw (DatabaseError
                  (js "Settings not found. Database may not be initialized properly.")
                  None)
     | Some result =>
         customColors <-
           match s_custom_colors result with
           | Some (c :: text) =>          (* a non-empty string is truthy *)
               match JSON_parse (c :: text) with
               | Some colors => ret (Some colors)
               | None => throw (SyntaxError (js "Unexpected token"))
               end
           | _ => ret None
           end ;;
         ret {| settings_id := s_id result;
                settings_themeId := s_theme_id result;
                settings_customColors := customColors;
                settings_createdAt := s_created_at result;
                settings_updatedAt := s_updated_at result |}
     end)
    (fun error =>
       if isDatabaseError error then throw error
       else throw (DatabaseError (js "Failed to retrieve app settings")
                                 (Some error))).

(** [return getSettings()] is not awaited inside the [try], so what
    it throws passes the [catch] of the caller unwrapped. *)
Definition updateTheme (dto : UpdateThemeDto) (now : Z) : M AppSettings :=
  try_catch
    (require_database ;;;
     runAsync (update_settings_theme (theme_string (update_themeId dto)) now))
    (fun error =>
       throw (DatabaseError (js "Failed to update theme") (Some error))) ;;;
  getSettings.

Definition updateCustomColors (dto : UpdateCustomColorsDto) (now : Z)
  : M AppSettings :=
  try_catch
    (require_database ;;;
     let customColorsJson := JSON_stringify (update_customColors dto) in
     runAsync (update_settings_theme_colors (js "custom")
                                            (Some customColorsJson) now))
    (fun error =>
       throw (DatabaseError (js "Failed to update custom colors") (Some error))) ;;;
  getSettings.

Definition resetToDefault (now : Z) : M AppSettings :=
  try_catch
    (require_database ;;;
     runAsync (update_settings_theme_colors (js "default") None now))
    (fun error =>
       throw (DatabaseError (js "Failed to reset to default theme")
                            (Some error))) ;;;
  getSettings.

End WithJSON.
End SettingsService.

(* ================================================================= *)
(** ** React state of a hook that caches a list of entities *)

Module React.
Section Cache.

(** The entity the hook caches. *)
Variable E : Type.

(** The three [useState] cells of the hook; [items] is the cache. *)
Record State : Type := {
  items : list E;
  isLoading : bool;
  error : option JsError
}.

(** The body of a callback: state setters, awaited service calls, and
    how it settles. A setter with an updater function is applied to
    the state of the moment. *)
Inductive Hook (A : Type) : Type :=
| Return (a : A)
| Throw (e : JsError)
| SetItems (f : list E -> list E) (k : Hook A)
| SetIsLoading (b : bool) (k : Hook A)
| SetError (e : option JsError) (k : Hook A)
| Await (R : Type) (call : M R) (k : JsError + R -> Hook A).

Arguments Return {A} a.
Arguments Throw {A} e.
Arguments SetItems {A} f k.
Arguments SetIsLoading {A} b k.
Arguments SetError {A} e k.
Arguments Await {A R} call k.

Fixpoint try_ {A} (body : Hook A) (catch : JsError -> Hook A) : Hook A :=
  match body with
  | Return a => Return a
  | Throw e => catch e
  | SetItems f k => SetItems f (try_ k catch)
  | SetIsLoading b k => SetIsLoading b (try_ k catch)
  | SetError e k => SetError e (try_ k catch)
  | Await call k => Await call (fun r => try_ (k r) catch)
  end.

Fixpoint then_ {A B} (h : Hook A) (k : A -> Hook B) : Hook B :=
  match h with
  | Return a => k a
  | Throw e => Throw e
  | SetItems f h' => SetItems f (then_ h' k)
  | SetIsLoading b h' => SetIsLoading b (then_ h' k)
  | SetError e h' => SetError e (then_ h' k)
  | Await call c => Await call (fun r => then_ (c r) k)
  end.

(** [await call]: a rejection is thrown at the await. *)
Definition await {R} (call : M R) : Hook R :=
  Await call (fun r => match r with
                       | inl e => Throw e
                       | inr v => Return v
                       end).

Definition setItems (f : list E -> list E) : Hook unit :=
  SetItems f (Return tt).
Definition setIsLoading (b : bool) : Hook unit := SetIsLoading b (Return tt).
Definition setError (e : option JsError) : Hook unit := SetError e (Return tt).

(** *** Running a callback *)

(** What a run leaves behind: how the promise settled, the state and
    the store at the end, and the cache as it was each time a service
    call started, in order. *)
Record Run (A : Type) : Type := {
  outcome : JsError + A;
  final : State;
  world : World;
  calls : list (list E)
}.

Fixpoint run {A} (h : Hook A) (st : State) (w : World) : Run A :=
  match h with
  | Return a => {| outcome := inr a; final := st; world := w; calls := [] |}
  | Throw e => {| outcome := inl e; final := st; world := w; calls := [] |}
  | SetItems f k =>
      run k {| items := f (items st); isLoading := isLoading st;
               error := error st |} w
  | SetIsLoading b k =>
      run k {| items := items st; isLoading := b; error := error st |} w
  | SetError e k =>
      run k {| items := items st; isLoading := isLoading st; error := e |} w
  | Await call k =>
      let (r, w') := call w in
      let rest := run (k r) st w' in
      {| outcome := outcome rest; final := final rest; world := world rest;
         calls := items st :: calls rest |}
  end.

End Cache.

Arguments Return {E A} a.
Arguments Throw {E A} e.
Arguments SetItems {E A} f k.
Arguments SetIsLoading {E A} b k.
Arguments SetError {E A} e k.
Arguments Await {E A R} call k.
Arguments try_ {E A} body catch.
Arguments then_ {E A B} h k.
Arguments await {E R} call.
Arguments setItems {E} f.
Arguments setIsLoading {E} b.
Arguments setError {E} e.
Arguments run {E A} h st w.

Notation "x <~ c ;; k" := (then_ c (fun x => k))
  (at level 61, c at next level, right associativity).
Notation "c ~> k" := (then_ c (fun _ => k))
  (at level 61, right associativity).

End React.

(* ================================================================= *)
(** ** hooks/use-shopping-items.ts *)

Module UseShoppingItems.
Import React.

(** *** The callbacks

    [captured] is the [items] a callback closed over: the cache of the
    render that created it (the dependency list [[items]]). All
    errors of the services are [Error] objects, so
    [err instanceof Error ? err : new Error(...)] is [err]. *)

Definition fetchItems (listId : jsstring) : Hook ShoppingItem unit :=
  try_
    (setIsLoading true ~>
     setError None ~>
     fetchedItems <~ await (ShoppingItemsService.getByListId listId) ;;
     setItems (fun _ => fetchedItems))
    (fun err => setError (Some err)) ~>
  setIsLoading false.

Definition createItem (dto : CreateShoppingItemDto) (uuid : jsstring) (now : Z)
  : Hook ShoppingItem ShoppingItem :=
  try_
    (setError None ~>
     newItem <~ await (ShoppingItemsService.create dto uuid now) ;;
     setItems (fun prevItems => prevItems ++ [newItem]) ~>
     Return newItem)
    (fun err => setError (Some err) ~> Throw err).

Definition updateItem (captured : list ShoppingItem) (id : jsstring)
           (dto : UpdateShoppingItemDto) (clock : Z) (now : Z)
  : Hook ShoppingItem ShoppingItem :=
  try_
    (setError None ~>
     let previousItems := captured in
     setItems (fun prevItems =>
                 List.map (fun item =>
                             if jsstring_eqb (item_id item) id
                             then {| item_id := item_id item;
                                     item_listId := item_listId item;
                                     item_text := update_item_text_to dto;
                                     item_completed := item_completed item;
                                     item_createdAt := item_createdAt item;
                                     item_updatedAt := clock |}
                             else item)
                          prevItems) ~>
     try_
       (updatedItem <~ await (ShoppingItemsService.update id dto now) ;;
        setItems (fun prevItems =>
                    List.map (fun item =>
                                if jsstring_eqb (item_id item) id
                                then updatedItem else item)
                             prevItems) ~>
        Return updatedItem)
       (fun err => setItems (fun _ => previousItems) ~> Throw err))
    (fun err => setError (Some err) ~> Throw err).

(** [prevItems.findIndex(item => item.id === id)] *)
Fixpoint findIndex (id : jsstring) (l : list ShoppingItem) : option nat :=
  match l with
  | [] => None
  | item :: rest =>
      if jsstring_eqb (item_id item) id then Some 0
      else match findIndex id rest with
           | Some n => Some (S n)
           | None => None
           end
  end.

(** [newItems.splice(start, 0, x)] on a copy of the array. *)
Definition splice_insert (start : nat) (x : ShoppingItem)
           (l : list ShoppingItem) : list ShoppingItem :=
  firstn start l ++ x :: skipn start l.

Definition copyItem (id : jsstring) (uuid : jsstring) (now : Z)
  : Hook ShoppingItem ShoppingItem :=
  try_
    (setError None ~>
     copiedItem <~ await (ShoppingItemsService.copy id uuid now) ;;
     setItems (fun prevItems =>
                 match findIndex id prevItems with
                 | None => prevItems ++ [copiedItem]
                 | Some sourceIndex =>
                     splice_insert (sourceIndex + 1) copiedItem prevItems
                 end) ~>
     Return copiedItem)
    (fun err => setError (Some err) ~> Throw err).

Definition toggleComplete (captured : list ShoppingItem) (id : jsstring)
           (clock : Z) (now : Z) : Hook ShoppingItem ShoppingItem :=
  try_
    (setError None ~>
     let previousItems := captured in
     setItems (fun prevItems =>
                 List.map (fun item =>
                             if jsstring_eqb (item_id item) id
                             then {| item_id := item_id item;
                                     item_listId := item_listId item;
                                     item_text := item_text item;
                                     item_completed := negb (item_completed item);
                                     item_createdAt := item_createdAt item;
                                     item_updatedAt := clock |}
                             else item)
                          prevItems) ~>
     try_
       (updatedItem <~ await (ShoppingItemsService.toggleComplete id now) ;;
        setItems (fun prevItems =>
                    List.map (fun item =>
                                if jsstring_eqb (item_id item) id
                                then updatedItem else item)
                             prevItems) ~>
        Return updatedItem)
       (fun err => setItems (fun _ => previousItems) ~> Throw err))
    (fun err => setError (Some err) ~> Throw err).

Definition deleteItem (captured : list ShoppingItem) (id : jsstring)
  : Hook ShoppingItem unit :=
  try_
    (setError None ~>
     let previousItems := captured in
     setItems (fun prevItems =>
                 filter (fun item => negb (jsstring_eqb (item_id item) id))
                        prevItems) ~>
     try_
       (await (ShoppingItemsService.deleteItem id))
       (fun err => setItems (fun _ => previousItems) ~> Throw err))
    (fun err => setError (Some err) ~> Throw err).

Definition refresh (listId : jsstring) : Hook ShoppingItem unit := fetchItems listId.

(** *** The five mutating calls, as one family

    A mutation with the values the environment supplies to it, indexed
    by what it resolves to. [clock] is the [Date.now()] of the
    optimistic updater, [now] the one of the service. *)
Inductive Mutation : Type -> Type :=
| Create (dto : CreateShoppingItemDto) (uuid : jsstring) (now : Z)
  : Mutation ShoppingItem
| Update (id : jsstring) (dto : UpdateShoppingItemDto) (clock now : Z)
  : Mutation ShoppingItem
| Copy (id : jsstring) (uuid : jsstring) (now : Z) : Mutation ShoppingItem
| ToggleComplete (id : jsstring) (clock now : Z) : Mutation ShoppingItem
| Delete (id : jsstring) : Mutation unit.

(** The service call a mutation awaits. *)
Definition service {R} (m : Mutation R) : M R :=
  match m with
  | Create dto uuid now => ShoppingItemsService.create dto uuid now
  | Update id dto _ now => ShoppingItemsService.update id dto now
  | Copy id uuid now => ShoppingItemsService.copy id uuid now
  | ToggleComplete id _ now => ShoppingItemsService.toggleComplete id now
  | Delete id => ShoppingItemsService.deleteItem id
  end.

(** The callback of the hook for it. *)
Definition callback {R} (captured : list ShoppingItem) (m : Mutation R) : Hook ShoppingItem R :=
  match m with
  | Create dto uuid now => createItem dto uuid now
  | Update id dto clock now => updateItem captured id dto clock now
  | Copy id uuid now => copyItem id uuid now
  | ToggleComplete id clock now => toggleComplete captured id clock now
  | Delete id => deleteItem captured id
  end.

(** A call made from the render that shows [st]. *)
Definition call {R} (m : Mutation R) (st : State ShoppingItem) (w : World) : Run ShoppingItem R :=
  run (callback (items st) m) st w.

(** The cache a mutation leaves in place while its service call is
    in flight. *)
Definition cache_in_flight {R} (m : Mutation R) (cache : list ShoppingItem)
  : list ShoppingItem :=
  match m with
  | Create _ _ _ => cache
  | Copy _ _ _ => cache
  | Update id dto clock _ =>
      List.map (fun item =>
                  if jsstring_eqb (item_id item) id
                  then {| item_id := item_id item;
                          item_listId := item_listId item;
                          item_text := update_item_text_to dto;
                          item_completed := item_completed item;
                          item_createdAt := item_createdAt item;
                          item_updatedAt := clock |}
                  else item) cache
  | ToggleComplete id clock _ =>
      List.map (fun item =>
                  if jsstring_eqb (item_id item) id
                  then {| item_id := item_id item;
                          item_listId := item_listId item;
                          item_text := item_text item;
                          item_completed := negb (item_completed item);
                          item_createdAt := item_createdAt item;
                          item_updatedAt := clock |}
                  else item) cache
  | Delete id =>
      filter (fun item => negb (jsstring_eqb (item_id item) id)) cache
  end.

(** [x] placed right after the first entry with the id, or at the
    end when there is none. *)
Fixpoint insert_after (id : jsstring) (x : ShoppingItem)
         (l : list ShoppingItem) : list ShoppingItem :=
  match l with
  | [] => [x]
  | item :: rest =>
      if jsstring_eqb (item_id item) id then item :: x :: rest
      else item :: insert_after id x rest
  end.

(** The cache once the service call has resolved with [v]. *)
Definition cache_resolved {R} (m : Mutation R)
  : R -> list ShoppingItem -> list ShoppingItem :=
  match m in Mutation R return R -> list ShoppingItem -> list ShoppingItem with
  | Create _ _ _ => fun v cache => cache ++ [v]
  | Copy id _ _ => fun v cache => insert_after id v cache
  | Update id dto clock now => fun v cache =>
      List.map (fun item => if jsstring_eqb (item_id item) id then v else item)
               (cache_in_flight (Update id dto clock now) cache)
  | ToggleComplete id clock now => fun v cache =>
      List.map (fun item => if jsstring_eqb (item_id item) id then v else item)
               (cache_in_flight (ToggleComplete id clock now) cache)
  | Delete id => fun _ cache => cache_in_flight (Delete id) cache
  end.

End UseShoppingItems.

(* ================================================================= *)
(** ** hooks/use-shopping-lists.ts *)

Module UseShoppingLists.
Import React.

Definition fetchLists : Hook ShoppingList unit :=
  try_
    (setIsLoading true ~>
     setError None ~>
     fetchedLists <~ await ShoppingListsService.getAll ;;
     setItems (fun _ => fetchedLists))
    (fun err => setError (Some err)) ~>
  setIsLoading false.

Definition createList (dto : CreateShoppingListDto) (uuid : jsstring) (now : Z)
  : Hook ShoppingList ShoppingList :=
  try_
    (setError None ~>
     newList <~ await (ShoppingListsService.create dto uuid now) ;;
     setItems (fun prevLists => newList :: prevLists) ~>
     Return newList)
    (fun err => setError (Some err) ~> Throw err).

Definition deleteList (captured : list ShoppingList) (id : jsstring)
  : Hook ShoppingList unit :=
  try_
    (setError None ~>
     let previousLists := captured in
     setItems (fun prevLists =>
                 filter (fun list => negb (jsstring_eqb (list_id list) id))
                        prevLists) ~>
     try_
       (await (ShoppingListsService.deleteList id))
       (fun err => setItems (fun _ => previousLists) ~> Throw err))
    (fun err => setError (Some err) ~> Throw err).

Definition refresh : Hook ShoppingList unit := fetchLists.

(** *** The two mutating calls, as one family *)
Inductive Mutation : Type -> Type :=
| Create (dto : CreateShoppingListDto) (uuid : jsstring) (now : Z)
  : Mutation ShoppingList
| Delete (id : jsstring) : Mutation unit.

Definition service {R} (m : Mutation R) : M R :=
  match m with
  | Create dto uuid now => ShoppingListsService.create dto uuid now
  | Delete id => ShoppingListsService.deleteList id
  end.

Definition callback {R} (captured : list ShoppingList) (m : Mutation R)
  : Hook ShoppingList R :=
  match m with
  | Create dto uuid now => createList dto uuid now
  | Delete id => deleteList captured id
  end.

(** A call made from the render that shows [st]. *)
Definition call {R} (m : Mutation R) (st : State ShoppingList) (w : World)
  : Run ShoppingList R :=
  run (callback (items st) m) st w.

(** The cache while the service call is in flight. *)
Definition cache_in_flight {R} (m : Mutation R) (cache : list ShoppingList)
  : list ShoppingList :=
  match m with
  | Create _ _ _ => cache
  | Delete id =>
      filter (fun list => negb (jsstring_eqb (list_id list) id)) cache
  end.

(** The cache once the service call has resolved with [v]. *)
Definition cache_resolved {R} (m : Mutation R)
  : R -> list ShoppingList -> list ShoppingList :=
  match m in Mutation R return R -> list ShoppingList -> list ShoppingList with
  | Create _ _ _ => fun v cache => v :: cache
  | Delete id => fun _ cache => cache_in_flight (Delete id) cache
  end.

End UseShoppingLists.

(* ================================================================= *)
(** ** Sample states *)

Module Sample.

Definition clock : DatabaseService.Clock :=
  {| DatabaseService.at_v1 := 1000; DatabaseService.at_v2 := 1001;
     DatabaseService.at_v3_created := 1002;
     DatabaseService.at_v3_updated := 1002;
     DatabaseService.at_v3 := 1003 |}.

Definition closed : World := {| dbInstance := None |}.

(** First launch: an empty file, opened and migrated. *)
Definition launched : World :=
  snd (DatabaseService.initializeDatabase DatabaseService.empty_file clock closed).

Definition connection (w : World) : SQLiteDatabase :=
  match dbInstance w with
  | Some d => d
  | None => DatabaseService.empty_file
  end.

Definition groceries_id : jsstring := js "list-1".
Definition milk_id : jsstring := js "item-1".
Definition copy_id : jsstring := js "item-2".

(** The same file after migration V1 only. *)
Definition after_v1 : World :=
  snd ((DatabaseService.openDatabaseAsync DatabaseService.empty_file ;;;
        execAsync [DatabaseService.pragma_foreign_keys_on] ;;;
        execAsync [create_table_if_not_exists
                     DatabaseService.schema_version_table] ;;;
        DatabaseService.runMigrationV1 1000) closed).

Definition unnamed_list : ShoppingListRow :=
  {| l_id := js "list-0"; l_name := [];
     l_created_at := 1500; l_updated_at := 1500 |}.

Definition blank_item : ShoppingItemRow :=
  {| i_id := js "item-0"; i_list_id := js "list-0"; i_text := [];
     i_completed := 0; i_created_at := 1600; i_updated_at := 1600 |}.

(** One list, "Groceries". *)
Definition with_groceries : World :=
  snd (ShoppingListsService.create
         {| create_list_name := js "Groceries" |} groceries_id 2000 launched).

Definition milk : ShoppingItem :=
  {| item_id := milk_id; item_listId := groceries_id; item_text := js "Milk";
     item_completed := false; item_createdAt := 3000; item_updatedAt := 3000 |}.

(** "Milk" added to it. *)
Definition with_milk : World :=
  snd (ShoppingItemsService.create
         {| create_item_listId := groceries_id; create_item_text := js "Milk" |}
         milk_id 3000 with_groceries).

(** The text [{"accentColor":"#ff0000"}]. *)
Definition accent_json : jsstring :=
  js "{" ++ [34%N] ++ js "accentColor" ++ [34%N] ++ js ":"
     ++ [34%N] ++ js "#ff0000" ++ [34%N] ++ js "}".

Definition accent : CustomColors :=
  {| completedColor := None; accentColor := Some (js "#ff0000");
     textColor := None; backgroundColor := None; cardColor := None |}.

(** A parser and a printer that know this one colour map. *)
Definition parse (text : jsstring) : option CustomColors :=
  if jsstring_eqb text accent_json then Some accent else None.
Definition stringify (_ : CustomColors) : jsstring := accent_json.

(** The user has chosen custom colours. *)
Definition with_custom_colors : World :=
  snd (SettingsService.updateCustomColors parse stringify
         {| update_customColors := accent |} 4000 launched).

(** The cache of the screen that shows "Groceries" with "Milk". *)
Definition showing_milk : React.State ShoppingItem :=
  {| React.items := [milk]; React.isLoading := false;
     React.error := None |}.

(** The overview screen that shows "Groceries". *)
Definition groceries : ShoppingList :=
  {| list_id := groceries_id; list_name := js "Groceries";
     list_createdAt := 2000; list_updatedAt := 2000 |}.

Definition showing_groceries : React.State ShoppingList :=
  {| React.items := [groceries]; React.isLoading := false;
     React.error := None |}.

(** The same screen before anything was added. *)
Definition showing_nothing : React.State ShoppingItem :=
  {| React.items := []; React.isLoading := false;
     React.error := None |}.

Definition hardware_id : jsstring := js "list-2".
Definition eggs_id : jsstring := js "item-3".
Definition nails_id : jsstring := js "item-4".

(** A second list, "Hardware", created after "Groceries"; then "Nails"
    in it, and only then "Eggs" in "Groceries". *)
Definition stocked : World :=
  snd (ShoppingItemsService.create
         {| create_item_listId := groceries_id; create_item_text := js "Eggs" |}
         eggs_id 3600
         (snd (ShoppingItemsService.create
                 {| create_item_listId := hardware_id;
                    create_item_text := js "Nails" |}
                 nails_id 3500
                 (snd (ShoppingListsService.create
                         {| create_list_name := js "Hardware" |}
                         hardware_id 2500 with_milk))))).

End Sample.

(* ================================================================= *)
(** ** The migrated store *)

(** The item table once migration V2 has added its column. *)
Definition current_items_table : TableDef :=
  {| tbl_name := "shopping_items";
     tbl_columns :=
       tbl_columns DatabaseService.shopping_items_table
       ++ [ {| col_name := "completed"; col_type := INTEGER;
               col_constraints := [NOT_NULL; DEFAULT (SqlInteger 0)] |} ];
     tbl_foreign_keys := tbl_foreign_keys DatabaseService.shopping_items_table |}.

(** The catalog after the three migrations have run on an empty file. *)
Definition current_tables : list TableDef :=
  [ DatabaseService.schema_version_table;
    DatabaseService.shopping_lists_table;
    current_items_table;
    DatabaseService.app_settings_table ].

(** The services run on an initialized connection [d]: open, foreign
    keys on, schema at the current version. *)
Definition Ready (w : World) (d : SQLiteDatabase) : Prop :=
  dbInstance w = Some d /\ tables d = current_tables /\ foreign_keys d = true.

(** Every item row references a list row. *)
Definition references_ok (d : SQLiteDatabase) : Prop :=
  forall i, In i (shopping_items d) ->
            exists l, In l (shopping_lists d) /\ l_id l = i_list_id i.

Definition list_ids (d : SQLiteDatabase) : list jsstring :=
  List.map l_id (shopping_lists d).

Definition item_ids (d : SQLiteDatabase) : list jsstring :=
  List.map i_id (shopping_items d).

(** A name or text the validators reject. *)
Definition invalid_text (bound : nat) (s : jsstring) : Prop :=
  trim s = [] \/ (bound < List.length (trim s))%nat.

(** *** Soundness of a state *)

(** The connection is open and migrated, foreign keys are enforced and
    every item row references a list row. *)
Definition Sound (w : World) : Prop :=
  exists d : SQLiteDatabase, Ready w d /\ references_ok d.

Definition sound_db (d : SQLiteDatabase) : Prop :=
  tables d = current_tables /\ foreign_keys d = true /\ references_ok d.

(** An async computation that keeps [Sound]. *)
Definition preserves {A} (m : M A) : Prop :=
  forall w, Sound w -> Sound (snd (m w)).

(** A statement that keeps [sound_db] when it succeeds. *)
Definition statement_ok (stmt : SQLiteDatabase -> JsError + SQLiteDatabase) : Prop :=
  forall d d', sound_db d -> stmt d = inr d' -> sound_db d'.

(* ================================================================= *)
(** ** States the services reach *)

Definition list_row (l : ShoppingList) : ShoppingListRow :=
  {| l_id := list_id l; l_name := list_name l;
     l_created_at := list_createdAt l; l_updated_at := list_updatedAt l |}.

(** [SET text = ?, updated_at = ?] on one row. *)
Definition with_text (text : jsstring) (now : Z) (i : ShoppingItemRow)
  : ShoppingItemRow :=
  {| i_id := i_id i; i_list_id := i_list_id i; i_text := text;
     i_completed := i_completed i; i_created_at := i_created_at i;
     i_updated_at := now |}.

(** The item rows after an [UPDATE ... WHERE id = ?]. *)
Definition items_updated (upd : ShoppingItemRow -> ShoppingItemRow)
           (id : jsstring) (d : SQLiteDatabase) : SQLiteDatabase :=
  set_shopping_items
    (List.map (fun i => if jsstring_eqb (i_id i) id then upd i else i)
              (shopping_items d)) d.

(** The settings rows after an [UPDATE ... WHERE id = 1]. *)
Definition settings_updated (upd : AppSettingsRow -> AppSettingsRow)
           (d : SQLiteDatabase) : SQLiteDatabase :=
  set_app_settings
    (List.map (fun r => if Z.eqb (s_id r) 1 then upd r else r) (app_settings d)) d.

Definition settings_of (r : AppSettingsRow) (colors : option CustomColors)
  : AppSettings :=
  {| settings_id := s_id r; settings_themeId := s_theme_id r;
     settings_customColors := colors;
     settings_createdAt := s_created_at r; settings_updatedAt := s_updated_at r |}.

(** The process state after the first launch of the application, on an
    empty database file. *)
Definition first_launch (clk : DatabaseService.Clock) : World :=
  snd (DatabaseService.initializeDatabase DatabaseService.empty_file clk
         {| dbInstance := None |}).

(** A name or text as the validators return it: not empty, within the
    bound, with no white space at either end. *)
Definition valid_text (bound : nat) (s : jsstring) : Prop :=
  s <> [] /\ (List.length s <= bound)%nat /\ trim s = s.

(** What the services keep true of the store. *)
Record well_formed (d : SQLiteDatabase) : Prop := {
  wf_tables : tables d = current_tables;
  wf_foreign_keys : foreign_keys d = true;
  wf_references : references_ok d;
  wf_list_ids : NoDup (list_ids d);
  wf_item_ids : NoDup (item_ids d);
  wf_names : Forall (fun l => valid_text 100 (l_name l)) (shopping_lists d);
  wf_texts : Forall (fun i => valid_text 500 (i_text i)) (shopping_items d);
  wf_flags : Forall (fun i => i_completed i = 0%Z \/ i_completed i = 1%Z)
                    (shopping_items d);
  wf_settings : exists r, app_settings d = [r] /\ s_id r = 1%Z
}.

Definition WellFormed (w : World) : Prop :=
  exists d : SQLiteDatabase, dbInstance w = Some d /\ well_formed d.

(** One call of a function that writes, with the values the
    environment supplies to it. *)
Inductive Operation : Type :=
| ListCreate (dto : CreateShoppingListDto) (uuid : jsstring) (now : Z)
| ListUpdate (id : jsstring) (dto : UpdateShoppingListDto) (now : Z)
| ListDelete (id : jsstring)
| ItemCreate (dto : CreateShoppingItemDto) (uuid : jsstring) (now : Z)
| ItemUpdate (id : jsstring) (dto : UpdateShoppingItemDto) (now : Z)
| ItemCopy (id : jsstring) (uuid : jsstring) (now : Z)
| ItemToggle (id : jsstring) (now : Z)
| ItemDelete (id : jsstring)
| ItemDeleteByList (listId : jsstring)
| ThemeSelect (dto : UpdateThemeDto) (now : Z)
| ColorsSelect (dto : UpdateCustomColorsDto) (now : Z)
| ThemeReset (now : Z)
| ClearAllData.

Section Perform.
Variable JSON_parse : jsstring -> option CustomColors.
Variable JSON_stringify : CustomColors -> jsstring.

(** The process state after the call, whether it resolved or rejected. *)
Definition perform (op : Operation) (w : World) : World :=
  match op with
  | ListCreate dto uuid now => snd (ShoppingListsService.create dto uuid now w)
  | ListUpdate id dto now => snd (ShoppingListsService.update id dto now w)
  | ListDelete id => snd (ShoppingListsService.deleteList id w)
  | ItemCreate dto uuid now => snd (ShoppingItemsService.create dto uuid now w)
  | ItemUpdate id dto now => snd (ShoppingItemsService.update id dto now w)
  | ItemCopy id uuid now => snd (ShoppingItemsService.copy id uuid now w)
  | ItemToggle id now => snd (ShoppingItemsService.toggleComplete id now w)
  | ItemDelete id => snd (ShoppingItemsService.deleteItem id w)
  | ItemDeleteByList listId => snd (ShoppingItemsService.deleteByListId listId w)
  | ThemeSelect dto now => snd (SettingsService.updateTheme JSON_parse dto now w)
  | ColorsSelect dto now =>
      snd (SettingsService.updateCustomColors JSON_parse JSON_stringify dto now w)
  | ThemeReset now => snd (SettingsService.resetToDefault JSON_parse now w)
  | ClearAllData => snd (DatabaseService.clearAllData w)
  end.

(** The state after a sequence of calls. *)
Definition perform_all (ops : list Operation) (w : World) : World :=
  fold_left (fun w op => perform op w) ops w.

(** A state the application reaches: the first launch, then any calls. *)
Definition reached (clk : DatabaseService.Clock) (ops : list Operation) : World :=
  perform_all ops (first_launch clk).

End Perform.

(** An item as [update] and [toggleComplete] return it: the stored
    item with one field and [updatedAt] replaced. *)
Definition item_edited (text : jsstring) (now : Z) (item : ShoppingItem)
  : ShoppingItem :=
  {| item_id := item_id item; item_listId := item_listId item;
     item_text := text; item_completed := item_completed item;
     item_createdAt := item_createdAt item; item_updatedAt := now |}.

Definition item_toggled (now : Z) (item : ShoppingItem) : ShoppingItem :=
  {| item_id := item_id item; item_listId := item_listId item;
     item_text := item_text item; item_completed := negb (item_completed item);
     item_createdAt := item_createdAt item; item_updatedAt := now |}.

(** A listing with the item of an id replaced, each item in place. *)
Definition replace_item (id : jsstring) (f : ShoppingItem -> ShoppingItem)
           (l : list ShoppingItem) : list ShoppingItem :=
  List.map (fun item => if jsstring_eqb (item_id item) id then f item else item) l.

(** A listing without the item of an id. *)
Definition without_item (id : jsstring) (l : list ShoppingItem)
  : list ShoppingItem :=
  filter (fun item => negb (jsstring_eqb (item_id item) id)) l.

(** What a service throws when [getDatabase()] is [null]: the error
    of the guard, as thrown or as the cause of the error of the
    [catch]. *)
Definition not_initialized (e : JsError) : Prop :=
  e = DatabaseError (js "Database not initialized") None
  \/ exists message,
       e = DatabaseError message
             (Some (DatabaseError (js "Database not initialized") None)).

(** The call rejects with that error and the process state stays. *)
Definition refused {A} (call : M A) (w : World) : Prop :=
  exists e, call w = (inl e, w) /\ not_initialized e.

(** Two stores with the same schema: tables, indexes, applied
    migrations and the foreign-key setting of the connection. *)
Definition same_schema (d d' : SQLiteDatabase) : Prop :=
  tables d' = tables d /\ indexes d' = indexes d
  /\ schema_version d' = schema_version d
  /\ foreign_keys d' = foreign_keys d.

(** The connection is assigned. *)
Definition is_open (w : World) : Prop := exists d, dbInstance w = Some d.

(** The cache of the items hook is what the store lists for the list
    the hook is mounted on; the cache of the lists hook is what the
    store lists. *)
Definition shows_items (listId : jsstring) (st : React.State ShoppingItem)
           (w : World) : Prop :=
  ShoppingItemsService.getByListId listId w = (inr (React.items st), w).

Definition shows_lists (st : React.State ShoppingList) (w : World) : Prop :=
  ShoppingListsService.getAll w = (inr (React.items st), w).

(* ================================================================= *)
(** ** [generateUUID] of the two services *)

Module UUID.

(** [v.toString(16)] of a non-negative integer. *)
Definition hex_digit (v : N) : N :=
  nth (N.to_nat v) (js "0123456789abcdef") 0%N.

Fixpoint toString16_digits (fuel : nat) (v : N) : jsstring :=
  match fuel with
  | O => [hex_digit v]
  | S fuel' =>
      if (v <? 16)%N then [hex_digit v]
      else toString16_digits fuel' (v / 16) ++ [hex_digit (v mod 16)]
  end.

Definition toString16 (v : N) : jsstring := toString16_digits (N.to_nat v) v.

Definition template : jsstring := js "xxxxxxxx-xxxx-4xxx-yxxx-xxxxxxxxxxxx".

(** [template.replace(/[xy]/g, c => ...)]: the callback runs once for
    each 'x' or 'y', from left to right. [random k] is what
    [Math.random() * 16 | 0] gives in the call number [k]. *)
Fixpoint replace_xy (t : jsstring) (random : nat -> N) (k : nat) : jsstring :=
  match t with
  | [] => []
  | c :: rest =>
      if (c =? 120)%N then                                  (* 'x' *)
        let r := random k in
        toString16 r ++ replace_xy rest random (S k)
      else if (c =? 121)%N then                             (* 'y' *)
        let r := random k in
        toString16 (N.lor (N.land r 3) 8) ++ replace_xy rest random (S k)
      else c :: replace_xy rest random k
  end.

Definition generateUUID (random : nat -> N) : jsstring :=
  replace_xy template random 0.

(** A code unit that is a lower-case hexadecimal digit. *)
Definition is_hex (c : N) : Prop := In c (js "0123456789abcdef").

(** What a position of the template admits in a version-4 UUID. *)
Definition admits (t c : N) : Prop :=
  if (t =? 120)%N then is_hex c
  else if (t =? 121)%N then In c (js "89ab")
  else c = t.

End UUID.

(* ================================================================= *)
(** ** contexts/theme-context.tsx *)

Module ThemeContext.
Section WithJSON.
Variable JSON_parse : jsstring -> option CustomColors.
Variable JSON_stringify : CustomColors -> jsstring.

(** The three [useState] cells of [ThemeProvider]. [themeId] holds
    the text of the store after [loadSettings]. *)
Record State : Type := {
  themeId : jsstring;
  customColors : option CustomColors;
  isLoading : bool
}.

Definition initial : State :=
  {| themeId := js "default"; customColors := None; isLoading := true |}.

Definition setThemeId (v : jsstring) (st : State) : State :=
  {| themeId := v; customColors := customColors st; isLoading := isLoading st |}.
Definition setCustomColorsState (v : option CustomColors) (st : State) : State :=
  {| themeId := themeId st; customColors := v; isLoading := isLoading st |}.
Definition setIsLoading (v : bool) (st : State) : State :=
  {| themeId := themeId st; customColors := customColors st; isLoading := v |}.

(** A callback: how its promise settles, the state it leaves, the
    process state. *)
Definition Callback : Type := State -> World -> (JsError + unit) * State * World.

Definition loadSettings : Callback :=
  fun st w =>
    let st := setIsLoading true st in
    match SettingsService.getSettings JSON_parse w with
    | (inr settings, w') =>
        let st := setThemeId (settings_themeId settings) st in
        let st := setCustomColorsState (settings_customColors settings) st in
        (inr tt, setIsLoading false st, w')
    | (inl _, w') =>
        (* fallback to the default theme *)
        let st := setThemeId (js "default") st in
        let st := setCustomColorsState None st in
        (inr tt, setIsLoading false st, w')
    end.

Definition setTheme (newThemeId : ThemePresetId) (now : Z) : Callback :=
  fun st w =>
    match SettingsService.updateTheme JSON_parse
            {| update_themeId := newThemeId |} now w with
    | (inr _, w') =>
        let st := setThemeId (theme_string newThemeId) st in
        (inr tt,
         match newThemeId with
         | theme_custom => st
         | _ => setCustomColorsState None st
         end, w')
    | (inl error, w') => (inl error, st, w')
    end.

Definition setCustomColors (colors : CustomColors) (now : Z) : Callback :=
  fun st w =>
    match SettingsService.updateCustomColors JSON_parse JSON_stringify
            {| update_customColors := colors |} now w with
    | (inr _, w') =>
        let st := setThemeId (js "custom") st in
        (inr tt, setCustomColorsState (Some colors) st, w')
    | (inl error, w') => (inl error, st, w')
    end.

Definition resetTheme (now : Z) : Callback :=
  fun st w =>
    match SettingsService.resetToDefault JSON_parse now w with
    | (inr _, w') =>
        let st := setThemeId (js "default") st in
        (inr tt, setCustomColorsState None st, w')
    | (inl error, w') => (inl error, st, w')
    end.

(** The context holds what [getSettings] answers. *)
Definition agrees (st : State) (w : World) : Prop :=
  exists settings,
    SettingsService.getSettings JSON_parse w = (inr settings, w)
    /\ settings_themeId settings = themeId st
    /\ settings_customColors settings = customColors st.

End WithJSON.
End ThemeContext.

(** [String.prototype.isWellFormed]: no lone surrogate. SQLite keeps
    text as UTF-8, so only such a string is read back as the code
    units that were written. *)
Definition is_high_surrogate (c : N) : bool := (55296 <=? c)%N && (c <=? 56319)%N.
Definition is_low_surrogate (c : N) : bool := (56320 <=? c)%N && (c <=? 57343)%N.

Fixpoint isWellFormed (s : jsstring) : bool :=
  match s with
  | [] => true
  | c :: rest =>
      if is_high_surrogate c then
        match rest with
        | c' :: rest' => is_low_surrogate c' && isWellFormed rest'
        | [] => false
        end
      else if is_low_surrogate c then false
      else isWellFormed rest
  end.

(* ================================================================= *)
(** * Properties *)

Unset Implicit Arguments.

(** ** Strings *)

Lemma jsstring_eqb_refl (a : jsstring) : jsstring_eqb a a = true.
Proof.
  induction a as [|x a IH]; simpl; [reflexivity|].
  now rewrite N.eqb_refl, IH.
Qed.

Lemma jsstring_eqb_eq (a b : jsstring) : jsstring_eqb a b = true <-> a = b.
Proof.
  split.
  - revert b; induction a as [|x a IH]; intros [|y b] H; simpl in H;
      try discriminate; [reflexivity|].
    apply andb_true_iff in H as [Hx Hab].
    apply N.eqb_eq in Hx. f_equal; auto.
  - intros ->. apply jsstring_eqb_refl.
Qed.

Lemma jsstring_eqb_neq (a b : jsstring) : jsstring_eqb a b = false <-> a <> b.
Proof.
  split.
  - intros H Heq. apply jsstring_eqb_eq in Heq. congruence.
  - intros H. destruct (jsstring_eqb a b) eqn:E; [|reflexivity].
    apply jsstring_eqb_eq in E. contradiction.
Qed.

Lemma existsb_id_false {A} (proj : A -> jsstring) (id : jsstring) (l : list A) :
  ~ In id (List.map proj l) ->
  existsb (fun x => jsstring_eqb (proj x) id) l = false.
Proof.
  induction l as [|x l IH]; simpl; intros H; [reflexivity|].
  apply orb_false_iff; split.
  - apply jsstring_eqb_neq. intros E. apply H. now left.
  - apply IH. intros Hin. apply H. now right.
Qed.

Lemma existsb_id_true {A} (proj : A -> jsstring) (id : jsstring) (l : list A) :
  In id (List.map proj l) ->
  existsb (fun x => jsstring_eqb (proj x) id) l = true.
Proof.
  induction l as [|x l IH]; simpl; intros H; [contradiction|].
  destruct H as [H|H].
  - subst. now rewrite jsstring_eqb_refl.
  - rewrite (IH H). apply orb_true_r.
Qed.

(** [trim] leaves nothing exactly when the string is empty or made of
    white space only. *)
Lemma trimStart_nil (s : jsstring) :
  trimStart s = [] <-> forallb isWhiteSpace s = true.
Proof.
  induction s as [|c s IH]; simpl; [tauto|].
  destruct (isWhiteSpace c); simpl; [exact IH|].
  split; discriminate.
Qed.

Lemma trimStart_head (s : jsstring) (c : N) (t : jsstring) :
  trimStart s = c :: t -> isWhiteSpace c = false.
Proof.
  induction s as [|x s IH]; simpl; [discriminate|].
  destruct (isWhiteSpace x) eqn:E; [exact IH|].
  intros H. injection H as <- _. exact E.
Qed.

Lemma forallb_rev {A} (p : A -> bool) (l : list A) :
  forallb p (rev l) = forallb p l.
Proof.
  induction l as [|x l IH]; simpl; [reflexivity|].
  rewrite forallb_app, IH. simpl. rewrite andb_true_r. apply andb_comm.
Qed.

Lemma trim_nil (s : jsstring) :
  trim s = [] <-> forallb isWhiteSpace s = true.
Proof.
  unfold trim, trimEnd. split.
  - intros H.
    assert (H' : trimStart (rev (trimStart s)) = []).
    { apply (f_equal (@rev N)) in H. now rewrite rev_involutive in H. }
    apply trimStart_nil in H'. rewrite forallb_rev in H'.
    destruct (trimStart s) as [|c t] eqn:E.
    + now apply trimStart_nil.
    + apply trimStart_head in E. simpl in H'. now rewrite E in H'.
  - intros H. apply trimStart_nil in H. now rewrite H.
Qed.

(** ** The validators *)

Lemma validateListName_empty (name : jsstring) (allowDefault : bool) :
  trim name = [] ->
  ShoppingListsService.validateListName name allowDefault =
  if allowDefault then inr (js "Shopping List")
  else inl (ValidationError (js "List name cannot be empty") (js "name") name).
Proof.
  intros H. unfold ShoppingListsService.validateListName. now rewrite H.
Qed.

Lemma validateListName_strict_invalid (name : jsstring) :
  invalid_text 100 name ->
  exists message,
    ShoppingListsService.validateListName name false =
    inl (ValidationError message (js "name") name).
Proof.
  intros [H|H].
  - rewrite (validateListName_empty name false H). eauto.
  - unfold ShoppingListsService.validateListName.
    destruct (List.length (trim name)) as [|n] eqn:E; [lia|].
    simpl Nat.eqb. cbv iota.
    replace (100 <? S n)%nat with true by (symmetry; apply Nat.ltb_lt; lia).
    eauto.
Qed.

Lemma validateItemText_invalid (text : jsstring) :
  invalid_text 500 text ->
  exists message,
    ShoppingItemsService.validateItemText text =
    inl (ValidationError message (js "text") text).
Proof.
  unfold ShoppingItemsService.validateItemText.
  intros [H|H].
  - rewrite H. simpl. eauto.
  - destruct (List.length (trim text)) as [|n] eqn:E; [lia|].
    simpl Nat.eqb. cbv iota.
    replace (500 <? S n)%nat with true by (symmetry; apply Nat.ltb_lt; lia).
    eauto.
Qed.

(** A validator accepts exactly the texts that are not invalid. *)
Lemma validateItemText_valid (text : jsstring) :
  ~ invalid_text 500 text ->
  ShoppingItemsService.validateItemText text = inr (trim text).
Proof.
  unfold ShoppingItemsService.validateItemText, invalid_text. intros H.
  destruct (trim text) as [|c t] eqn:E; [tauto|].
  simpl Nat.eqb. cbv iota.
  destruct (500 <? List.length (c :: t))%nat eqn:L; [|reflexivity].
  apply Nat.ltb_lt in L. tauto.
Qed.

(** ** Running a service by hand *)

Ltac unfold_async :=
  cbv beta iota zeta delta
    [try_catch bind ret throw lift require_database
     DatabaseService.getDatabase runAsync getAllAsync getFirstAsync].

(** Resolve every read of the open connection [H : dbInstance w = Some d]. *)
Ltac with_db H := repeat (progress (rewrite ?H; cbv beta iota)).

Lemma find_table_current (d : SQLiteDatabase) (n : string) :
  tables d = current_tables ->
  find_table n d = find (fun t => String.eqb (tbl_name t) n) current_tables.
Proof. intros H. unfold find_table. now rewrite H. Qed.

(** The current schema puts no condition on the text of a list row. *)
Lemma insert_list_current (d : SQLiteDatabase) (r : ShoppingListRow) :
  tables d = current_tables ->
  insert_list r d =
  if existsb (fun l => jsstring_eqb (l_id l) (l_id r)) (shopping_lists d)
  then inl (constraint_failed "UNIQUE shopping_lists.id")
  else inr (set_shopping_lists (shopping_lists d ++ [r]) d).
Proof.
  intros H. unfold insert_list. rewrite (find_table_current d _ H).
  reflexivity.
Qed.

(** ** Collections: lenient create, strict update *)

(** C1. With the name empty after trimming, [create] succeeds with the
    default name 'Shopping List' and stores that row, while [update]
    with the same input throws the ValidationError on field 'name' and
    leaves the store as it was. *)
Theorem collection_create_lenient_update_strict :
  forall (w : World) (d : SQLiteDatabase) (name id uuid : jsstring) (now : Z),
    Ready w d ->
    trim name = [] ->
    ~ In uuid (list_ids d) ->
    ShoppingListsService.create {| create_list_name := name |} uuid now w =
      (inr {| list_id := uuid; list_name := js "Shopping List";
              list_createdAt := now; list_updatedAt := now |},
       {| dbInstance :=
            Some (set_shopping_lists
                    (shopping_lists d
                     ++ [{| l_id := uuid; l_name := js "Shopping List";
                            l_created_at := now; l_updated_at := now |}]) d) |})
    /\ ShoppingListsService.update id {| update_list_name_to := name |} now w =
      (inl (ValidationError (js "List name cannot be empty") (js "name") name), w).
Proof.
  intros w d name id uuid now (Hdb & Htab & _) Hempty Hfresh. split.
  - unfold ShoppingListsService.create. unfold_async.
    with_db Hdb. cbn [create_list_name].
    rewrite (validateListName_empty name true Hempty). with_db Hdb.
    rewrite (insert_list_current _ _ Htab).
    cbn [l_id list_id].
    rewrite (existsb_id_false l_id uuid _ Hfresh). reflexivity.
  - unfold ShoppingListsService.update. unfold_async.
    with_db Hdb. cbn [update_list_name_to].
    rewrite (validateListName_empty name false Hempty). reflexivity.
Qed.

(** ** Records: strict create *)

(** C6. With the text empty after trimming, [create] of an item throws
    the ValidationError on field 'text', whatever the list id, and the
    store is unchanged: no row is inserted and nothing is substituted. *)
Theorem record_create_rejects_empty_text :
  forall (w : World) (d : SQLiteDatabase) (listId text uuid : jsstring) (now : Z),
    dbInstance w = Some d ->
    trim text = [] ->
    ShoppingItemsService.create
      {| create_item_listId := listId; create_item_text := text |} uuid now w =
    (inl (ValidationError (js "Item text cannot be empty") (js "text") text), w).
Proof.
  intros w d listId text uuid now Hdb Hempty.
  unfold ShoppingItemsService.create. unfold_async. with_db Hdb.
  cbn [create_item_text].
  unfold ShoppingItemsService.validateItemText. rewrite Hempty.
  reflexivity.
Qed.

(** ** Validation comes before the existence check *)

Lemma list_update_invalid (w : World) (d : SQLiteDatabase)
      (id name : jsstring) (now : Z) :
  dbInstance w = Some d ->
  invalid_text 100 name ->
  exists message,
    ShoppingListsService.update id {| update_list_name_to := name |} now w =
    (inl (ValidationError message (js "name") name), w).
Proof.
  intros Hdb Hbad.
  destruct (validateListName_strict_invalid name Hbad) as [message Hv].
  exists message.
  unfold ShoppingListsService.update. unfold_async. with_db Hdb.
  cbn [update_list_name_to]. rewrite Hv. reflexivity.
Qed.

Lemma item_update_invalid (w : World) (d : SQLiteDatabase)
      (id text : jsstring) (now : Z) :
  dbInstance w = Some d ->
  invalid_text 500 text ->
  exists message,
    ShoppingItemsService.update id {| update_item_text_to := text |} now w =
    (inl (ValidationError message (js "text") text), w).
Proof.
  intros Hdb Hbad.
  destruct (validateItemText_invalid text Hbad) as [message Hv].
  exists message.
  unfold ShoppingItemsService.update. unfold_async. with_db Hdb.
  cbn [update_item_text_to]. rewrite Hv. reflexivity.
Qed.

Lemma item_create_invalid (w : World) (d : SQLiteDatabase)
      (listId text uuid : jsstring) (now : Z) :
  dbInstance w = Some d ->
  invalid_text 500 text ->
  exists message,
    ShoppingItemsService.create
      {| create_item_listId := listId; create_item_text := text |} uuid now w =
    (inl (ValidationError message (js "text") text), w).
Proof.
  intros Hdb Hbad.
  destruct (validateItemText_invalid text Hbad) as [message Hv].
  exists message.
  unfold ShoppingItemsService.create. unfold_async. with_db Hdb.
  cbn [create_item_text]. rewrite Hv. reflexivity.
Qed.

(** C10. When the input is invalid and the id resolves to no row, the
    three operations throw the ValidationError of the field, not a
    NotFoundError, and leave the store unchanged: [update] of a list,
    [update] of an item, and [create] of an item whose list is absent. *)
Theorem validation_precedes_existence :
  forall (w : World) (d : SQLiteDatabase) (id name text uuid : jsstring) (now : Z),
    dbInstance w = Some d ->
    invalid_text 100 name ->
    invalid_text 500 text ->
    ~ In id (list_ids d) ->
    ~ In id (item_ids d) ->
    (exists message,
        ShoppingListsService.update id {| update_list_name_to := name |} now w =
        (inl (ValidationError message (js "name") name), w))
    /\ (exists message,
        ShoppingItemsService.update id {| update_item_text_to := text |} now w =
        (inl (ValidationError message (js "text") text), w))
    /\ (exists message,
        ShoppingItemsService.create
          {| create_item_listId := id; create_item_text := text |} uuid now w =
        (inl (ValidationError message (js "text") text), w)).
Proof.
  intros w d id name text uuid now Hdb Hname Htext _ _.
  repeat split.
  - exact (list_update_invalid w d id name now Hdb Hname).
  - exact (item_update_invalid w d id text now Hdb Htext).
  - exact (item_create_invalid w d id text uuid now Hdb Htext).
Qed.

(** ** Item statements on the current schema *)

Lemma row_ok_item_current (i : ShoppingItemRow) :
  row_ok current_items_table (item_values i) = true.
Proof. reflexivity. Qed.

Lemma insert_item_current (d : SQLiteDatabase) (r : ShoppingItemRow) :
  tables d = current_tables ->
  foreign_keys d = true ->
  insert_item r d =
  if existsb (fun i => jsstring_eqb (i_id i) (i_id r)) (shopping_items d)
  then inl (constraint_failed "UNIQUE shopping_items.id")
  else if existsb (fun l => jsstring_eqb (l_id l) (i_list_id r)) (shopping_lists d)
  then inr (set_shopping_items (shopping_items d ++ [r]) d)
  else inl (constraint_failed "FOREIGN KEY").
Proof.
  intros Ht Hfk. unfold insert_item. rewrite (find_table_current d _ Ht).
  change (find _ current_tables) with (Some current_items_table).
  cbv beta iota.
  change (columns_known current_items_table (List.map fst (item_values r)))
    with true.
  rewrite row_ok_item_current. cbv [negb].
  destruct (existsb _ (shopping_items d)); [reflexivity|].
  unfold foreign_keys_ok. rewrite Hfk. cbn.
  rewrite andb_true_r.
  now destruct (existsb _ (shopping_lists d)).
Qed.

Lemma update_items_current (d : SQLiteDatabase)
      (upd : ShoppingItemRow -> ShoppingItemRow) (cols : list string)
      (id : jsstring) :
  tables d = current_tables ->
  columns_known current_items_table cols = true ->
  update_items_where_id upd cols id d =
  inr (set_shopping_items
         (List.map (fun i => if jsstring_eqb (i_id i) id then upd i else i)
                   (shopping_items d)) d).
Proof.
  intros Ht Hcols. unfold update_items_where_id.
  rewrite (find_table_current d _ Ht).
  change (find _ current_tables) with (Some current_items_table).
  cbv beta iota zeta. rewrite Hcols. cbv [negb].
  replace (forallb _ _) with true; [reflexivity|].
  symmetry. apply forallb_forall. intros i _. apply row_ok_item_current.
Qed.

Lemma find_map_update (upd : ShoppingItemRow -> ShoppingItemRow)
      (id id' : jsstring) (l : list ShoppingItemRow) :
  (forall i, i_id (upd i) = i_id i) ->
  find (fun i => jsstring_eqb (i_id i) id')
       (List.map (fun i => if jsstring_eqb (i_id i) id then upd i else i) l) =
  option_map (fun i => if jsstring_eqb (i_id i) id then upd i else i)
             (find (fun i => jsstring_eqb (i_id i) id') l).
Proof.
  intros Hid. induction l as [|x l IH]; simpl; [reflexivity|].
  destruct (jsstring_eqb (i_id x) id) eqn:E.
  - rewrite Hid. destruct (jsstring_eqb (i_id x) id'); simpl; [now rewrite E|exact IH].
  - destruct (jsstring_eqb (i_id x) id'); simpl; [now rewrite E|exact IH].
Qed.

Lemma find_some_id {A} (proj : A -> jsstring) (id : jsstring) (l : list A) (x : A) :
  find (fun y => jsstring_eqb (proj y) id) l = Some x ->
  proj x = id /\ In id (List.map proj l).
Proof.
  intros H. apply find_some in H as [Hin Heq].
  apply jsstring_eqb_eq in Heq. split; [exact Heq|].
  rewrite <- Heq. now apply in_map.
Qed.

Lemma find_app_fresh {A} (proj : A -> jsstring) (id : jsstring) (l : list A) (x : A) :
  ~ In id (List.map proj l) -> proj x = id ->
  find (fun y => jsstring_eqb (proj y) id) (l ++ [x]) = Some x.
Proof.
  intros Hfresh Hx. induction l as [|y l IH]; simpl.
  - now rewrite Hx, jsstring_eqb_refl.
  - destruct (jsstring_eqb (proj y) id) eqn:E.
    + apply jsstring_eqb_eq in E. exfalso. apply Hfresh. now left.
    + apply IH. intros Hin. apply Hfresh. now right.
Qed.


(** [getById] reads the first row with the id. *)
Lemma item_getById_ready (w : World) (d : SQLiteDatabase) (id : jsstring) :
  dbInstance w = Some d ->
  tables d = current_tables ->
  ShoppingItemsService.getById id w =
  (inr (option_map ShoppingItemsService.of_row
          (find (fun i => jsstring_eqb (i_id i) id) (shopping_items d))), w).
Proof.
  intros Hdb Ht. unfold ShoppingItemsService.getById. unfold_async.
  with_db Hdb. unfold select_item_where_id.
  rewrite (find_table_current d _ Ht).
  change (find _ current_tables) with (Some current_items_table).
  cbv beta iota.
  now destruct (find _ (shopping_items d)).
Qed.

Lemma Boolean_bit (b : bool) :
  ShoppingItemsService.Boolean (ShoppingItemsService.bit b) = b.
Proof. now destruct b. Qed.

(** ** Records: copy *)


(** When the generated id is already taken, the primary key refuses
    the row: [copy] throws a DatabaseError and the store is unchanged,
    so a copy that succeeds never carries the id of a stored item. *)
Lemma copy_id_collision (w : World) (d : SQLiteDatabase)
      (id uuid : jsstring) (now : Z) (R : ShoppingItem) :
  Ready w d ->
  In uuid (item_ids d) ->
  ShoppingItemsService.getById id w = (inr (Some R), w) ->
  ShoppingItemsService.copy id uuid now w =
  (inl (DatabaseError (js "Failed to copy shopping item")
                      (Some (constraint_failed "UNIQUE shopping_items.id"))), w).
Proof.
  intros (Hdb & Ht & Hfk) Htaken Hget.
  unfold ShoppingItemsService.copy. unfold_async. with_db Hdb.
  rewrite Hget. with_db Hdb.
  rewrite (insert_item_current d _ Ht Hfk). cbn [i_id].
  rewrite (existsb_id_true i_id uuid _ Htaken). reflexivity.
Qed.

(** ** Records: completion toggle *)

(** One call on a stored row: the returned item and the new store. *)
Lemma toggleComplete_found (w : World) (d : SQLiteDatabase) (id : jsstring)
      (now : Z) (row : ShoppingItemRow) :
  Ready w d ->
  find (fun i => jsstring_eqb (i_id i) id) (shopping_items d) = Some row ->
  let flag := negb (ShoppingItemsService.Boolean (i_completed row)) in
  let upd := with_completed (ShoppingItemsService.bit flag) now in
  ShoppingItemsService.toggleComplete id now w =
  (inr (ShoppingItemsService.of_row (upd row)),
   {| dbInstance :=
        Some (set_shopping_items
                (List.map (fun i => if jsstring_eqb (i_id i) id then upd i else i)
                          (shopping_items d)) d) |}).
Proof.
  intros (Hdb & Ht & Hfk) Hrow flag upd.
  unfold ShoppingItemsService.toggleComplete. unfold_async. with_db Hdb.
  rewrite (item_getById_ready w d id Hdb Ht), Hrow. cbn [option_map].
  with_db Hdb.
  unfold update_item_completed.
  rewrite (update_items_current d _ ["completed"; "updated_at"; "id"]%string
                                id Ht eq_refl).
  cbn [ShoppingItemsService.of_row item_id item_listId item_text
       item_completed item_createdAt item_updatedAt].
  unfold ShoppingItemsService.of_row at 1. unfold upd, with_completed.
  cbn [i_id i_list_id i_text i_completed i_created_at i_updated_at].
  fold flag. rewrite Boolean_bit. reflexivity.
Qed.

(** C8. Two calls of [toggleComplete] in a row on a stored item both
    succeed; the first returns the flag negated, the second returns it
    as it was at the start, and that is what [getById] then reads. *)
Theorem toggleComplete_twice_restores_flag :
  forall (w : World) (d : SQLiteDatabase) (id : jsstring) (now1 now2 : Z)
         (R : ShoppingItem),
    Ready w d ->
    ShoppingItemsService.getById id w = (inr (Some R), w) ->
    exists (R1 R2 : ShoppingItem) (w1 w2 : World),
      ShoppingItemsService.toggleComplete id now1 w = (inr R1, w1)
      /\ item_completed R1 = negb (item_completed R)
      /\ ShoppingItemsService.toggleComplete id now2 w1 = (inr R2, w2)
      /\ item_completed R2 = item_completed R
      /\ ShoppingItemsService.getById id w2 = (inr (Some R2), w2).
Proof.
  intros w d id now1 now2 R HR Hget.
  pose proof HR as (Hdb & Ht & Hfk).
  pose proof (item_getById_ready w d id Hdb Ht) as Hfind.
  rewrite Hget in Hfind.
  destruct (find _ (shopping_items d)) as [row|] eqn:Hrow;
    simpl in Hfind; [|discriminate].
  assert (R = ShoppingItemsService.of_row row) by congruence. subst R.
  destruct (find_some_id i_id id _ row Hrow) as [Hid _].
  pose proof (toggleComplete_found w d id now1 row HR Hrow) as H1.
  cbv zeta in H1.
  set (upd1 := with_completed _ now1) in H1.
  set (d1 := set_shopping_items _ d) in H1.
  assert (HR1 : Ready {| dbInstance := Some d1 |} d1) by (repeat split; assumption).
  assert (Hrow1 : find (fun i => jsstring_eqb (i_id i) id) (shopping_items d1)
                  = Some (upd1 row)).
  { cbn [d1 shopping_items set_shopping_items].
    rewrite (find_map_update upd1 id id) by reflexivity.
    rewrite Hrow. cbn [option_map]. now rewrite Hid, jsstring_eqb_refl. }
  pose proof (toggleComplete_found _ d1 id now2 (upd1 row) HR1 Hrow1) as H2.
  cbv zeta in H2.
  set (upd2 := with_completed _ now2) in H2.
  set (d2 := set_shopping_items _ d1) in H2.
  exists (ShoppingItemsService.of_row (upd1 row)),
         (ShoppingItemsService.of_row (upd2 (upd1 row))),
         {| dbInstance := Some d1 |}, {| dbInstance := Some d2 |}.
  repeat apply conj.
  - exact H1.
  - cbn. now rewrite Boolean_bit.
  - exact H2.
  - cbn. rewrite !Boolean_bit. apply negb_involutive.
  - rewrite (item_getById_ready {| dbInstance := Some d2 |} d2 id eq_refl Ht).
    cbn [d2 shopping_items set_shopping_items].
    rewrite (find_map_update upd2 id id) by reflexivity.
    rewrite Hrow1. cbn [option_map].
    change (i_id (upd1 row)) with (i_id row).
    now rewrite Hid, jsstring_eqb_refl.
Qed.

(** ** Query order *)

Section OrderByFacts.
Variable A : Type.
Variable key : A -> Z.
Variable dir : Direction.

Local Abbreviation in_order := (in_order key dir).

Lemma before_in_order (x y : A) : before key dir x y = true -> in_order x y.
Proof. unfold before, in_order. destruct dir; intros H; lia. Qed.

Lemma not_before_in_order (x y : A) : before key dir x y = false -> in_order y x.
Proof. unfold before, in_order. destruct dir; intros H; lia. Qed.

Lemma in_order_trans (x y z : A) : in_order x y -> in_order y z -> in_order x z.
Proof. unfold in_order. destruct dir; lia. Qed.

Lemma insert_sorted_perm (x : A) (l : list A) :
  Permutation (insert_sorted key dir x l) (x :: l).
Proof.
  induction l as [|y l IH]; simpl; [apply Permutation_refl|].
  destruct (before key dir x y); [apply Permutation_refl|].
  eapply perm_trans; [apply perm_skip, IH|apply perm_swap].
Qed.

Lemma order_by_perm (l : list A) : Permutation (order_by key dir l) l.
Proof.
  induction l as [|x l IH]; simpl; [constructor|].
  eapply perm_trans; [apply insert_sorted_perm|now apply perm_skip].
Qed.

Lemma insert_sorted_sorted (x : A) (l : list A) :
  StronglySorted in_order l -> StronglySorted in_order (insert_sorted key dir x l).
Proof.
  induction 1 as [|y l Hl IH Hy]; simpl.
  - repeat constructor.
  - destruct (before key dir x y) eqn:E.
    + constructor; [now constructor|].
      apply before_in_order in E. constructor; [exact E|].
      eapply Forall_impl; [|exact Hy].
      intros z Hz. exact (in_order_trans _ _ _ E Hz).
    + constructor; [exact IH|].
      apply not_before_in_order in E.
      eapply Permutation_Forall.
      * apply Permutation_sym, insert_sorted_perm.
      * now constructor.
Qed.

Lemma order_by_sorted (l : list A) : StronglySorted in_order (order_by key dir l).
Proof.
  induction l as [|x l IH]; simpl; [constructor|].
  now apply insert_sorted_sorted.
Qed.
End OrderByFacts.

Lemma StronglySorted_map {A B} (f : A -> B) (R : B -> B -> Prop) (l : list A) :
  StronglySorted (fun x y => R (f x) (f y)) l -> StronglySorted R (List.map f l).
Proof.
  induction 1 as [|x l Hl IH Hx]; simpl; constructor; [exact IH|].
  apply Forall_map. exact Hx.
Qed.

(** C9. On an initialized store [getAll] returns all the lists, newest
    first (creation time descending), and [getByListId] returns the
    items of the given list, oldest first (creation time ascending).
    What is returned is, entry by entry, what is stored: [rows] are
    the stored list rows in the order returned, each entity with the
    id, name and timestamps of its row; [irows] are the stored item
    rows of the list, each entity with the id, list, text, flag and
    timestamps of its row. *)
Theorem listing_orders_are_opposite :
  forall (w : World) (d : SQLiteDatabase) (listId : jsstring),
    Ready w d ->
    exists (rows : list ShoppingListRow) (irows : list ShoppingItemRow)
           (lists : list ShoppingList) (its : list ShoppingItem),
      ShoppingListsService.getAll w = (inr lists, w)
      /\ Permutation rows (shopping_lists d)
      /\ Forall2 (fun row l =>
                    list_id l = l_id row /\ list_name l = l_name row
                    /\ list_createdAt l = l_created_at row
                    /\ list_updatedAt l = l_updated_at row) rows lists
      /\ StronglySorted
           (fun a b => (list_createdAt b <= list_createdAt a)%Z) lists
      /\ ShoppingItemsService.getByListId listId w = (inr its, w)
      /\ Permutation irows
           (filter (fun i => jsstring_eqb (i_list_id i) listId)
                   (shopping_items d))
      /\ Forall (fun row => In row (shopping_items d) /\ i_list_id row = listId)
                irows
      /\ Forall2 (fun row i =>
                    item_id i = i_id row /\ item_listId i = i_list_id row
                    /\ item_text i = i_text row
                    /\ (item_completed i = true <-> i_completed row <> 0%Z)
                    /\ item_createdAt i = i_created_at row
                    /\ item_updatedAt i = i_updated_at row) irows its
      /\ StronglySorted
           (fun a b => (item_createdAt a <= item_createdAt b)%Z) its.
Proof.
  intros w d listId (Hdb & Ht & _).
  exists (order_by l_created_at DESC (shopping_lists d)),
         (order_by i_created_at ASC
            (filter (fun i => jsstring_eqb (i_list_id i) listId)
                    (shopping_items d))).
  eexists _, _. repeat apply conj.
  - unfold ShoppingListsService.getAll. unfold_async. with_db Hdb.
    unfold select_lists_order_by_created_at_desc.
    rewrite (find_table_current d _ Ht).
    change (find _ current_tables)
      with (Some DatabaseService.shopping_lists_table).
    reflexivity.
  - apply order_by_perm.
  - induction (order_by l_created_at DESC (shopping_lists d)) as [|row rows IH];
      simpl; constructor; [now repeat split|exact IH].
  - apply StronglySorted_map.
    exact (order_by_sorted _ l_created_at DESC (shopping_lists d)).
  - unfold ShoppingItemsService.getByListId. unfold_async. with_db Hdb.
    unfold select_items_where_list_id_order_by_created_at_asc.
    rewrite (find_table_current d _ Ht).
    change (find _ current_tables) with (Some current_items_table).
    reflexivity.
  - apply order_by_perm.
  - apply Forall_forall. intros row Hrow.
    apply (Permutation_in row (order_by_perm _ i_created_at ASC _)) in Hrow.
    apply filter_In in Hrow as [Hin Hlist].
    split; [exact Hin|now apply jsstring_eqb_eq].
  - induction (order_by i_created_at ASC _) as [|row rows IH];
      simpl; constructor; [|exact IH].
    split; [reflexivity|]. split; [reflexivity|]. split; [reflexivity|].
    split; [|split; reflexivity].
    cbn [ShoppingItemsService.of_row item_completed].
    unfold ShoppingItemsService.Boolean.
    destruct (Z.eqb_spec (i_completed row) 0) as [E|E]; simpl.
    + split; [discriminate|contradiction].
    + split; [intros _; exact E|reflexivity].
  - apply StronglySorted_map.
    exact (order_by_sorted _ i_created_at ASC _).
Qed.

(** ** The item cache *)

Lemma splice_is_insert_after (id : jsstring) (x : ShoppingItem)
      (l : list ShoppingItem) :
  match UseShoppingItems.findIndex id l with
  | None => l ++ [x]
  | Some sourceIndex => UseShoppingItems.splice_insert (sourceIndex + 1) x l
  end = UseShoppingItems.insert_after id x l.
Proof.
  induction l as [|item rest IH]; simpl; [reflexivity|].
  destruct (jsstring_eqb (item_id item) id); [reflexivity|].
  destruct (UseShoppingItems.findIndex id rest) as [n|]; simpl.
  - unfold UseShoppingItems.splice_insert in *. simpl. now rewrite <- IH.
  - now rewrite <- IH.
Qed.

Ltac run_callback :=
  cbv beta iota zeta delta
    [UseShoppingItems.call UseShoppingItems.callback UseShoppingItems.service
     React.run React.try_ React.then_
     React.await React.setItems
     React.setError React.setIsLoading
     UseShoppingItems.createItem UseShoppingItems.updateItem
     UseShoppingItems.copyItem UseShoppingItems.toggleComplete
     UseShoppingItems.deleteItem
     UseShoppingItems.cache_in_flight UseShoppingItems.cache_resolved
     React.items React.isLoading React.error
     React.outcome React.final React.world
     React.calls].

(** What a mutating call does, for each way its service call settles:
    the cache seen when the service call starts, the cache at the end,
    and how the promise of the callback settles. *)
Lemma call_settles {R} (m : UseShoppingItems.Mutation R)
      (st : React.State ShoppingItem) (w : World) :
  UseShoppingItems.call m st w =
  match UseShoppingItems.service m w with
  | (inr v, w') =>
      {| React.outcome := inr v;
         React.final :=
           {| React.items :=
                UseShoppingItems.cache_resolved m v (React.items st);
              React.isLoading := React.isLoading st;
              React.error := None |};
         React.world := w';
         React.calls :=
           [UseShoppingItems.cache_in_flight m (React.items st)] |}
  | (inl e, w') =>
      {| React.outcome := inl e;
         React.final :=
           {| React.items := React.items st;
              React.isLoading := React.isLoading st;
              React.error := Some e |};
         React.world := w';
         React.calls :=
           [UseShoppingItems.cache_in_flight m (React.items st)] |}
  end.
Proof.
  destruct m; run_callback.
  - destruct (ShoppingItemsService.create dto uuid now w) as [[e|v] w'];
      reflexivity.
  - destruct (ShoppingItemsService.update id dto now w) as [[e|v] w'];
      reflexivity.
  - destruct (ShoppingItemsService.copy id uuid now w) as [[e|v] w'];
      [reflexivity|].
    cbv beta iota. now rewrite splice_is_insert_after.
  - destruct (ShoppingItemsService.toggleComplete id now w) as [[e|v] w'];
      reflexivity.
  - destruct (ShoppingItemsService.deleteItem id w) as [[e|[]] w'];
      reflexivity.
Qed.

Ltac run_list_callback :=
  cbv beta iota zeta delta
    [UseShoppingLists.call UseShoppingLists.callback UseShoppingLists.service
     React.run React.try_ React.then_ React.await React.setItems
     React.setError React.setIsLoading
     UseShoppingLists.createList UseShoppingLists.deleteList
     UseShoppingLists.cache_in_flight UseShoppingLists.cache_resolved
     React.items React.isLoading React.error
     React.outcome React.final React.world React.calls].

(** The same for the two mutating calls of the list hook. *)
Lemma list_call_settles {R} (m : UseShoppingLists.Mutation R)
      (st : React.State ShoppingList) (w : World) :
  UseShoppingLists.call m st w =
  match UseShoppingLists.service m w with
  | (inr v, w') =>
      {| React.outcome := inr v;
         React.final :=
           {| React.items :=
                UseShoppingLists.cache_resolved m v (React.items st);
              React.isLoading := React.isLoading st;
              React.error := None |};
         React.world := w';
         React.calls :=
           [UseShoppingLists.cache_in_flight m (React.items st)] |}
  | (inl e, w') =>
      {| React.outcome := inl e;
         React.final :=
           {| React.items := React.items st;
              React.isLoading := React.isLoading st;
              React.error := Some e |};
         React.world := w';
         React.calls :=
           [UseShoppingLists.cache_in_flight m (React.items st)] |}
  end.
Proof.
  destruct m; run_list_callback.
  - destruct (ShoppingListsService.create dto uuid now w) as [[e|v] w'];
      reflexivity.
  - destruct (ShoppingListsService.deleteList id w) as [[e|[]] w'];
      reflexivity.
Qed.

(** C5. When the service call of a mutation rejects, the promise of the
    callback rejects with that same error, the error is recorded, and
    the cache at the end is the cache of before the call; this holds
    for the five mutations of the item hook and the two of the list
    hook. *)
Theorem rollback_is_exact_and_rethrows :
  (forall (R : Type) (m : UseShoppingItems.Mutation R)
          (st : React.State ShoppingItem) (w : World) (e : JsError),
      fst (UseShoppingItems.service m w) = inl e ->
      let r := UseShoppingItems.call m st w in
      React.outcome r = inl e
      /\ React.items (React.final r) = React.items st
      /\ React.error (React.final r) = Some e
      /\ React.world r = snd (UseShoppingItems.service m w))
  /\ (forall (R : Type) (m : UseShoppingLists.Mutation R)
             (st : React.State ShoppingList) (w : World) (e : JsError),
         fst (UseShoppingLists.service m w) = inl e ->
         let r := UseShoppingLists.call m st w in
         React.outcome r = inl e
         /\ React.items (React.final r) = React.items st
         /\ React.error (React.final r) = Some e
         /\ React.world r = snd (UseShoppingLists.service m w)).
Proof.
  split; intros R m st w e He r; subst r.
  - rewrite call_settles.
    destruct (UseShoppingItems.service m w) as [[e'|v] w']; simpl in He.
    + injection He as ->. repeat split.
    + discriminate.
  - rewrite list_call_settles.
    destruct (UseShoppingLists.service m w) as [[e'|v] w']; simpl in He.
    + injection He as ->. repeat split.
    + discriminate.
Qed.

(** C2, on the code. [update], [toggleComplete] and [delete] change
    the cache first: when the service call starts the cache already
    holds the edited text, the flipped flag, or lacks the deleted
    entry, and when the call resolves the entry with the id is
    replaced by the returned item. [create] and [copy], which the
    source also documents as optimistic updates, call the service
    first: the cache is untouched when the call starts, and the
    returned entity is put in only after the call has resolved (an item
    at the end for create and after its source for copy, a list at the
    front). *)
Theorem cache_changes_around_service_call :
  (forall (R : Type) (m : UseShoppingItems.Mutation R)
          (st : React.State ShoppingItem) (w : World),
      let r := UseShoppingItems.call m st w in
      let cache := React.items st in
      React.calls r = [UseShoppingItems.cache_in_flight m cache]
      /\ (forall dto uuid now,
             UseShoppingItems.cache_in_flight
               (UseShoppingItems.Create dto uuid now) cache = cache)
      /\ (forall id uuid now,
             UseShoppingItems.cache_in_flight
               (UseShoppingItems.Copy id uuid now) cache = cache)
      /\ (forall v : R,
             fst (UseShoppingItems.service m w) = inr v ->
             React.outcome r = inr v
             /\ React.items (React.final r) =
                UseShoppingItems.cache_resolved m v cache))
  /\ (forall (R : Type) (m : UseShoppingLists.Mutation R)
             (st : React.State ShoppingList) (w : World),
         let r := UseShoppingLists.call m st w in
         let cache := React.items st in
         React.calls r = [UseShoppingLists.cache_in_flight m cache]
         /\ (forall dto uuid now,
                UseShoppingLists.cache_in_flight
                  (UseShoppingLists.Create dto uuid now) cache = cache)
         /\ (forall v : R,
                fst (UseShoppingLists.service m w) = inr v ->
                React.outcome r = inr v
                /\ React.items (React.final r) =
                   UseShoppingLists.cache_resolved m v cache)).
Proof.
  split; intros R m st w r cache; subst r cache.
  - rewrite call_settles.
    destruct (UseShoppingItems.service m w) as [[e|v] w']; simpl;
      (split; [reflexivity|]); (split; [reflexivity|]); (split; [reflexivity|]);
      intros v' Hv; [discriminate|].
    injection Hv as ->. now split.
  - rewrite list_call_settles.
    destruct (UseShoppingLists.service m w) as [[e|v] w']; simpl;
      (split; [reflexivity|]); (split; [reflexivity|]);
      intros v' Hv; [discriminate|].
    injection Hv as ->. now split.
Qed.

(** C2 does not hold for [createItem]. Creating "Milk" from an empty
    screen: when [create] of the service starts the cache is still
    empty, with no optimistic entry in it; the item enters the cache
    only after the service has returned it. *)
Lemma createItem_calls_service_before_cache :
  let m := UseShoppingItems.Create
             {| create_item_listId := Sample.groceries_id;
                create_item_text := js " Milk " |} Sample.milk_id 3000 in
  let r := UseShoppingItems.call m Sample.showing_nothing Sample.with_groceries in
  React.outcome r = inr Sample.milk
  /\ React.calls r = [[]]
  /\ React.items (React.final r) = [Sample.milk]
  /\ ~ (exists optimistic : ShoppingItem,
           In [optimistic] (React.calls r)).
Proof.
  cbv zeta. repeat apply conj; try (vm_compute; reflexivity).
  intros [optimistic H]. vm_compute in H.
  destruct H as [H|[]]. discriminate.
Qed.

(** ** Migration V1 *)

(** C3, on the code. The tables migration V1 creates carry NOT NULL on
    their text columns and nothing else: after V1 the store takes a
    list row with an empty name, every list row and item row passes
    the column checks, and the two indexes exist. The tables of the
    data-model document, with their CHECK on the length, refuse the
    same rows. *)
Theorem migration_v1_has_no_length_check :
  (exists d1 : SQLiteDatabase,
      dbInstance Sample.after_v1 = Some d1
      /\ find_table "shopping_lists" d1 = Some DatabaseService.shopping_lists_table
      /\ find_table "shopping_items" d1 = Some DatabaseService.shopping_items_table
      /\ indexes d1 = [DatabaseService.idx_lists_created;
                       DatabaseService.idx_items_list]
      /\ insert_list Sample.unnamed_list d1 =
         inr (set_shopping_lists [Sample.unnamed_list] d1))
  /\ (forall r : ShoppingListRow,
         row_ok DatabaseService.shopping_lists_table (list_values r) = true)
  /\ (forall r : ShoppingItemRow,
         row_ok DatabaseService.shopping_items_table (item_values r) = true)
  /\ row_ok DocumentedSchema.shopping_lists_table
            (list_values Sample.unnamed_list) = false
  /\ row_ok DocumentedSchema.shopping_items_table
            (item_values Sample.blank_item) = false.
Proof.
  repeat apply conj; try reflexivity.
  eexists. repeat apply conj; reflexivity.
Qed.

(** ** Settings *)

Lemma row_ok_settings_current (r : AppSettingsRow) :
  s_id r = 1%Z ->
  row_ok DatabaseService.app_settings_table (settings_values r) = true.
Proof.
  intros H. unfold row_ok. cbn. rewrite H.
  now destruct (s_custom_colors r).
Qed.

Lemma update_settings_current (d : SQLiteDatabase)
      (upd : AppSettingsRow -> AppSettingsRow) (cols : list string) :
  tables d = current_tables ->
  columns_known DatabaseService.app_settings_table cols = true ->
  (forall r, s_id (upd r) = s_id r) ->
  update_settings_where_id_1 upd cols d =
  inr (set_app_settings
         (List.map (fun r => if Z.eqb (s_id r) 1 then upd r else r)
                   (app_settings d)) d).
Proof.
  intros Ht Hcols Hid. unfold update_settings_where_id_1.
  rewrite (find_table_current d _ Ht).
  change (find _ current_tables) with (Some DatabaseService.app_settings_table).
  cbv beta iota zeta. rewrite Hcols. cbv [negb].
  replace (forallb _ _) with true; [reflexivity|].
  symmetry. apply forallb_forall. intros r Hr.
  apply filter_In in Hr as [_ Hr]. apply Z.eqb_eq in Hr.
  apply row_ok_settings_current. now rewrite Hid.
Qed.

Section SettingsFacts.
Variable JSON_parse : jsstring -> option CustomColors.

Lemma getSettings_reads_only (w : World) :
  snd (SettingsService.getSettings JSON_parse w) = w.
Proof.
  unfold SettingsService.getSettings. unfold_async.
  destruct (dbInstance w) as [d|] eqn:Hdb; with_db Hdb; [|reflexivity].
  destruct (select_settings d) as [e|[row|]];
    [now destruct e| |reflexivity].
  destruct (s_custom_colors row) as [[|c text]|]; try reflexivity.
  destruct (JSON_parse (c :: text)); reflexivity.
Qed.

(** [updateTheme] writes [theme_id] and [updated_at] of the settings
    row; the stored colour map stays as it was, whichever theme is
    selected. *)
Lemma updateTheme_keeps_custom_colors (w : World) (d : SQLiteDatabase)
      (dto : UpdateThemeDto) (now : Z) :
  Ready w d ->
  exists d' : SQLiteDatabase,
    snd (SettingsService.updateTheme JSON_parse dto now w)
    = {| dbInstance := Some d' |}
    /\ List.map s_custom_colors (app_settings d')
       = List.map s_custom_colors (app_settings d)
    /\ (forall r, In r (app_settings d') -> s_id r = 1%Z ->
                  s_theme_id r = theme_string (update_themeId dto)).
Proof.
  intros (Hdb & Ht & _).
  set (upd := fun r : AppSettingsRow =>
                {| s_id := s_id r;
                   s_theme_id := theme_string (update_themeId dto);
                   s_custom_colors := s_custom_colors r;
                   s_created_at := s_created_at r; s_updated_at := now |}).
  exists (set_app_settings
            (List.map (fun r => if Z.eqb (s_id r) 1 then upd r else r)
                      (app_settings d)) d).
  repeat apply conj.
  - unfold SettingsService.updateTheme.
    cbv beta iota zeta delta [bind try_catch require_database ret throw
                              DatabaseService.getDatabase runAsync].
    with_db Hdb. unfold update_settings_theme. fold upd.
    rewrite (update_settings_current
               d upd ["theme_id"; "updated_at"; "id"]%string
               Ht eq_refl (fun r => eq_refl)).
    cbv beta iota.
    match goal with
    | |- context [SettingsService.getSettings JSON_parse ?w'] =>
        pose proof (getSettings_reads_only w') as Hro;
        destruct (SettingsService.getSettings JSON_parse w') as [[e|v] w'']
    end; simpl in Hro; now subst.
  - cbn [app_settings set_app_settings]. rewrite map_map.
    apply map_ext. intros r. now destruct (Z.eqb (s_id r) 1).
  - cbn [app_settings set_app_settings]. intros r Hr Hid.
    apply in_map_iff in Hr as (r0 & Hr0 & _).
    destruct (Z.eqb (s_id r0) 1) eqn:E.
    + now subst r.
    + subst r. apply Z.eqb_neq in E. contradiction.
Qed.
End SettingsFacts.

(** C4, on the code. The user has custom colours stored and selects the
    preset 'cyberpunk': [updateTheme] returns and leaves a settings row
    with that theme and the colour map still in place, where
    [resetToDefault] on the same state stores NULL. *)
Theorem updateTheme_leaves_override_map :
  let w := Sample.with_custom_colors in
  let selected := SettingsService.updateTheme Sample.parse
                    {| update_themeId := theme_cyberpunk |} 5000 w in
  let reset := SettingsService.resetToDefault Sample.parse 5000 w in
  List.map s_custom_colors (app_settings (Sample.connection w))
    = [Some Sample.accent_json]
  /\ fst selected =
     inr {| settings_id := 1; settings_themeId := js "cyberpunk";
            settings_customColors := Some Sample.accent;
            settings_createdAt := 1002; settings_updatedAt := 5000 |}
  /\ app_settings (Sample.connection (snd selected)) =
     [{| s_id := 1; s_theme_id := js "cyberpunk";
         s_custom_colors := Some Sample.accent_json;
         s_created_at := 1002; s_updated_at := 5000 |}]
  /\ app_settings (Sample.connection (snd reset)) =
     [{| s_id := 1; s_theme_id := js "default";
         s_custom_colors := None;
         s_created_at := 1002; s_updated_at := 5000 |}].
Proof. cbv zeta. repeat apply conj; vm_compute; reflexivity. Qed.

(** ** The properties at the sample states *)

Lemma collection_create_lenient_update_strict_witness :
  let w := Sample.with_groceries in
  let blank := js "   " in
  Ready w (Sample.connection w)
  /\ trim blank = []
  /\ fst (ShoppingListsService.create {| create_list_name := blank |}
            (js "list-2") 5000 w)
     = inr {| list_id := js "list-2"; list_name := js "Shopping List";
              list_createdAt := 5000; list_updatedAt := 5000 |}
  /\ ShoppingListsService.update Sample.groceries_id
       {| update_list_name_to := blank |} 5000 w
     = (inl (ValidationError (js "List name cannot be empty") (js "name") blank), w).
Proof.
  cbv zeta.
  assert (HR : Ready Sample.with_groceries
                     (Sample.connection Sample.with_groceries))
    by (split; [|split]; vm_compute; reflexivity).
  assert (Hblank : trim (js "   ") = []) by reflexivity.
  assert (Hfresh : ~ In (js "list-2")
                        (list_ids (Sample.connection Sample.with_groceries)))
    by (vm_compute; intros [H|[]]; discriminate).
  destruct (collection_create_lenient_update_strict
              Sample.with_groceries (Sample.connection Sample.with_groceries)
              (js "   ") Sample.groceries_id (js "list-2") 5000
              HR Hblank Hfresh) as [Hcreate Hupdate].
  split; [exact HR|]. split; [exact Hblank|].
  split; [now rewrite Hcreate|exact Hupdate].
Defined.

Lemma record_create_rejects_empty_text_witness :
  let w := Sample.with_groceries in
  dbInstance w = Some (Sample.connection w)
  /\ trim (js "  ") = []
  /\ ShoppingItemsService.create
       {| create_item_listId := Sample.groceries_id;
          create_item_text := js "  " |} Sample.milk_id 3000 w
     = (inl (ValidationError (js "Item text cannot be empty") (js "text")
                             (js "  ")), w).
Proof.
  cbv zeta.
  assert (Hdb : dbInstance Sample.with_groceries
                = Some (Sample.connection Sample.with_groceries))
    by reflexivity.
  assert (Hblank : trim (js "  ") = []) by reflexivity.
  split; [exact Hdb|]. split; [exact Hblank|].
  exact (record_create_rejects_empty_text
           Sample.with_groceries (Sample.connection Sample.with_groceries)
           Sample.groceries_id (js "  ") Sample.milk_id 3000 Hdb Hblank).
Defined.

Lemma validation_precedes_existence_witness :
  let w := Sample.with_groceries in
  let missing := js "no-such-id" in
  invalid_text 100 (js " ") /\ invalid_text 500 (js " ")
  /\ ~ In missing (list_ids (Sample.connection w))
  /\ ~ In missing (item_ids (Sample.connection w))
  /\ (exists message,
         ShoppingListsService.update missing
           {| update_list_name_to := js " " |} 5000 w
         = (inl (ValidationError message (js "name") (js " ")), w)).
Proof.
  cbv zeta.
  assert (Hbad : forall bound, invalid_text bound (js " "))
    by (intros bound; left; reflexivity).
  assert (Hl : ~ In (js "no-such-id")
                    (list_ids (Sample.connection Sample.with_groceries)))
    by (vm_compute; intros [H|[]]; discriminate).
  assert (Hi : ~ In (js "no-such-id")
                    (item_ids (Sample.connection Sample.with_groceries)))
    by (vm_compute; intros []).
  split; [exact (Hbad 100%nat)|]. split; [exact (Hbad 500%nat)|].
  split; [exact Hl|]. split; [exact Hi|].
  exact (proj1 (validation_precedes_existence
                  Sample.with_groceries (Sample.connection Sample.with_groceries)
                  (js "no-such-id") (js " ") (js " ") Sample.milk_id 5000
                  eq_refl (Hbad 100%nat) (Hbad 500%nat) Hl Hi)).
Defined.


Lemma toggleComplete_twice_restores_flag_witness :
  let w := Sample.with_milk in
  Ready w (Sample.connection w)
  /\ ShoppingItemsService.getById Sample.milk_id w = (inr (Some Sample.milk), w)
  /\ exists (R1 R2 : ShoppingItem) (w1 w2 : World),
      ShoppingItemsService.toggleComplete Sample.milk_id 4000 w = (inr R1, w1)
      /\ item_completed R1 = true
      /\ ShoppingItemsService.toggleComplete Sample.milk_id 5000 w1 = (inr R2, w2)
      /\ item_completed R2 = false.
Proof.
  cbv zeta.
  assert (HR : Ready Sample.with_milk (Sample.connection Sample.with_milk))
    by (split; [|split]; vm_compute; reflexivity).
  assert (Hget : ShoppingItemsService.getById Sample.milk_id Sample.with_milk
                 = (inr (Some Sample.milk), Sample.with_milk))
    by (vm_compute; reflexivity).
  destruct (toggleComplete_twice_restores_flag
              Sample.with_milk (Sample.connection Sample.with_milk)
              Sample.milk_id 4000 5000 Sample.milk HR Hget)
    as (R1 & R2 & w1 & w2 & H1 & Hc1 & H2 & Hc2 & _).
  split; [exact HR|]. split; [exact Hget|].
  exists R1, R2, w1, w2.
  split; [exact H1|]. split; [exact Hc1|]. split; [exact H2|exact Hc2].
Defined.

Lemma listing_orders_are_opposite_witness :
  let w := Sample.stocked in
  Ready w (Sample.connection w)
  /\ List.map l_id (shopping_lists (Sample.connection w))
     = [Sample.groceries_id; Sample.hardware_id]
  /\ List.map i_id (shopping_items (Sample.connection w))
     = [Sample.milk_id; Sample.nails_id; Sample.eggs_id]
  /\ exists (lists : list ShoppingList) (its : list ShoppingItem),
      ShoppingListsService.getAll w = (inr lists, w)
      /\ List.map list_id lists = [Sample.hardware_id; Sample.groceries_id]
      /\ List.map list_name lists = [js "Hardware"; js "Groceries"]
      /\ List.map list_createdAt lists = [2500; 2000]%Z
      /\ ShoppingItemsService.getByListId Sample.groceries_id w = (inr its, w)
      /\ List.map item_id its = [Sample.milk_id; Sample.eggs_id]
      /\ List.map item_text its = [js "Milk"; js "Eggs"]
      /\ List.map item_createdAt its = [3000; 3600]%Z
      /\ StronglySorted
           (fun a b => (list_createdAt b <= list_createdAt a)%Z) lists
      /\ StronglySorted
           (fun a b => (item_createdAt a <= item_createdAt b)%Z) its.
Proof.
  cbv zeta.
  assert (HR : Ready Sample.stocked (Sample.connection Sample.stocked))
    by (split; [|split]; vm_compute; reflexivity).
  destruct (listing_orders_are_opposite
              Sample.stocked (Sample.connection Sample.stocked)
              Sample.groceries_id HR)
    as (rows & irows & lists & its & Hall & _ & _ & Hdesc & Hitems & _ & _ & _
        & Hasc).
  split; [exact HR|].
  split; [vm_compute; reflexivity|]. split; [vm_compute; reflexivity|].
  exists lists, its.
  assert (Hlists : lists = match fst (ShoppingListsService.getAll Sample.stocked)
                           with inr l => l | inl _ => [] end)
    by (rewrite Hall; reflexivity).
  assert (Hits : its = match fst (ShoppingItemsService.getByListId
                                    Sample.groceries_id Sample.stocked)
                       with inr l => l | inl _ => [] end)
    by (rewrite Hitems; reflexivity).
  split; [exact Hall|].
  split; [rewrite Hlists; vm_compute; reflexivity|].
  split; [rewrite Hlists; vm_compute; reflexivity|].
  split; [rewrite Hlists; vm_compute; reflexivity|].
  split; [exact Hitems|].
  split; [rewrite Hits; vm_compute; reflexivity|].
  split; [rewrite Hits; vm_compute; reflexivity|].
  split; [rewrite Hits; vm_compute; reflexivity|].
  split; [exact Hdesc|exact Hasc].
Defined.

Lemma rollback_is_exact_and_rethrows_witness :
  let blank := {| update_item_text_to := js "  " |} in
  let rejected := ValidationError (js "Item text cannot be empty") (js "text")
                                  (js "  ") in
  let closed := DatabaseError (js "Database not initialized") None in
  let untoggled := DatabaseError (js "Failed to toggle item completion")
                                 (Some closed) in
  let undeleted := DatabaseError (js "Failed to delete shopping item")
                                 (Some closed) in
  let edit := UseShoppingItems.call
                (UseShoppingItems.Update Sample.milk_id blank 4000 4001)
                Sample.showing_milk Sample.with_milk in
  let toggle := UseShoppingItems.call
                  (UseShoppingItems.ToggleComplete Sample.milk_id 4000 4001)
                  Sample.showing_milk Sample.closed in
  let remove := UseShoppingItems.call (UseShoppingItems.Delete Sample.milk_id)
                  Sample.showing_milk Sample.closed in
  let drop := UseShoppingLists.call (UseShoppingLists.Delete Sample.groceries_id)
                Sample.showing_groceries Sample.closed in
  (fst (ShoppingItemsService.update Sample.milk_id blank 4001 Sample.with_milk)
   = inl rejected
   /\ React.calls edit
      = [[{| item_id := Sample.milk_id; item_listId := Sample.groceries_id;
             item_text := js "  "; item_completed := false;
             item_createdAt := 3000; item_updatedAt := 4000 |}]]
   /\ React.outcome edit = inl rejected
   /\ React.items (React.final edit) = [Sample.milk]
   /\ React.error (React.final edit) = Some rejected)
  /\ (fst (ShoppingItemsService.toggleComplete Sample.milk_id 4001 Sample.closed)
      = inl untoggled
      /\ React.calls toggle
         = [[{| item_id := Sample.milk_id; item_listId := Sample.groceries_id;
                item_text := js "Milk"; item_completed := true;
                item_createdAt := 3000; item_updatedAt := 4000 |}]]
      /\ React.outcome toggle = inl untoggled
      /\ React.items (React.final toggle) = [Sample.milk])
  /\ (fst (ShoppingItemsService.deleteItem Sample.milk_id Sample.closed)
      = inl undeleted
      /\ React.calls remove = [[]]
      /\ React.outcome remove = inl undeleted
      /\ React.items (React.final remove) = [Sample.milk])
  /\ (fst (ShoppingListsService.deleteList Sample.groceries_id Sample.closed)
      = inl closed
      /\ React.calls drop = [[]]
      /\ React.outcome drop = inl closed
      /\ React.items (React.final drop) = [Sample.groceries]).
Proof.
  cbv zeta.
  assert (Hedit : fst (UseShoppingItems.service
                         (UseShoppingItems.Update Sample.milk_id
                            {| update_item_text_to := js "  " |} 4000 4001)
                         Sample.with_milk)
                  = inl (ValidationError (js "Item text cannot be empty")
                                         (js "text") (js "  ")))
    by (vm_compute; reflexivity).
  assert (Htoggle : fst (UseShoppingItems.service
                           (UseShoppingItems.ToggleComplete Sample.milk_id
                              4000 4001)
                           Sample.closed)
                    = inl (DatabaseError (js "Failed to toggle item completion")
                             (Some (DatabaseError (js "Database not initialized")
                                                  None))))
    by (vm_compute; reflexivity).
  assert (Hremove : fst (UseShoppingItems.service
                           (UseShoppingItems.Delete Sample.milk_id)
                           Sample.closed)
                    = inl (DatabaseError (js "Failed to delete shopping item")
                             (Some (DatabaseError (js "Database not initialized")
                                                  None))))
    by (vm_compute; reflexivity).
  assert (Hdrop : fst (UseShoppingLists.service
                         (UseShoppingLists.Delete Sample.groceries_id)
                         Sample.closed)
                  = inl (DatabaseError (js "Database not initialized") None))
    by (vm_compute; reflexivity).
  destruct (proj1 rollback_is_exact_and_rethrows ShoppingItem
              (UseShoppingItems.Update Sample.milk_id
                 {| update_item_text_to := js "  " |} 4000 4001)
              Sample.showing_milk Sample.with_milk _ Hedit)
    as (Hout1 & Hitems1 & Herr1 & _).
  destruct (proj1 rollback_is_exact_and_rethrows ShoppingItem
              (UseShoppingItems.ToggleComplete Sample.milk_id 4000 4001)
              Sample.showing_milk Sample.closed _ Htoggle)
    as (Hout2 & Hitems2 & _).
  destruct (proj1 rollback_is_exact_and_rethrows unit
              (UseShoppingItems.Delete Sample.milk_id)
              Sample.showing_milk Sample.closed _ Hremove)
    as (Hout3 & Hitems3 & _).
  destruct (proj2 rollback_is_exact_and_rethrows unit
              (UseShoppingLists.Delete Sample.groceries_id)
              Sample.showing_groceries Sample.closed _ Hdrop)
    as (Hout4 & Hitems4 & _).
  split; [|split; [|split]].
  - split; [exact Hedit|]. split; [vm_compute; reflexivity|].
    split; [exact Hout1|]. split; [exact Hitems1|exact Herr1].
  - split; [exact Htoggle|]. split; [vm_compute; reflexivity|].
    split; [exact Hout2|exact Hitems2].
  - split; [exact Hremove|]. split; [vm_compute; reflexivity|].
    split; [exact Hout3|exact Hitems3].
  - split; [exact Hdrop|]. split; [vm_compute; reflexivity|].
    split; [exact Hout4|exact Hitems4].
Defined.

Lemma cache_changes_around_service_call_witness :
  let m := UseShoppingItems.ToggleComplete Sample.milk_id 4000 4001 in
  let r := UseShoppingItems.call m Sample.showing_milk Sample.with_milk in
  let toggled := {| item_id := Sample.milk_id; item_listId := Sample.groceries_id;
                    item_text := js "Milk"; item_completed := true;
                    item_createdAt := 3000; item_updatedAt := 4000 |} in
  let returned := {| item_id := Sample.milk_id; item_listId := Sample.groceries_id;
                     item_text := js "Milk"; item_completed := true;
                     item_createdAt := 3000; item_updatedAt := 4001 |} in
  fst (UseShoppingItems.service m Sample.with_milk) = inr returned
  /\ React.calls r = [[toggled]]
  /\ React.items (React.final r) = [returned].
Proof.
  cbv zeta.
  destruct (proj1 cache_changes_around_service_call
              ShoppingItem
              (UseShoppingItems.ToggleComplete Sample.milk_id 4000 4001)
              Sample.showing_milk Sample.with_milk)
    as (Hcalls & _ & _ & Hok).
  assert (Hsvc : fst (UseShoppingItems.service
                        (UseShoppingItems.ToggleComplete Sample.milk_id 4000 4001)
                        Sample.with_milk)
                 = inr {| item_id := Sample.milk_id;
                          item_listId := Sample.groceries_id;
                          item_text := js "Milk"; item_completed := true;
                          item_createdAt := 3000; item_updatedAt := 4001 |})
    by (vm_compute; reflexivity).
  destruct (Hok _ Hsvc) as [_ Hfinal].
  repeat apply conj.
  - exact Hsvc.
  - rewrite Hcalls. vm_compute. reflexivity.
  - rewrite Hfinal. vm_compute. reflexivity.
Defined.

(** ** Reachable states

    The conditions the theorems above put on the store hold when the
    application starts and are kept by every service and by every
    callback of the hook. *)

Lemma Sound_iff (w : World) :
  Sound w <-> exists d, dbInstance w = Some d /\ sound_db d.
Proof.
  unfold Sound, Ready, sound_db. split; intros (d & H); exists d; tauto.
Qed.

Lemma preserves_ret {A} (a : A) : preserves (ret a).
Proof. intros w H. exact H. Qed.

Lemma preserves_throw {A} (e : JsError) : preserves (@throw A e).
Proof. intros w H. exact H. Qed.

Lemma preserves_lift {A} (r : JsError + A) : preserves (lift r).
Proof. intros w H. exact H. Qed.

Lemma preserves_bind {A B} (m : M A) (k : A -> M B) :
  preserves m -> (forall a, preserves (k a)) -> preserves (bind m k).
Proof.
  intros Hm Hk w H. unfold bind. specialize (Hm w H).
  destruct (m w) as [[e|a] w']; simpl in *; [exact Hm|].
  exact (Hk a w' Hm).
Qed.

Lemma preserves_try_catch {A} (body : M A) (handler : JsError -> M A) :
  preserves body -> (forall e, preserves (handler e)) ->
  preserves (try_catch body handler).
Proof.
  intros Hb Hh w H. unfold try_catch. specialize (Hb w H).
  destruct (body w) as [[e|a] w']; simpl in *; [|exact Hb].
  exact (Hh e w' Hb).
Qed.

Lemma preserves_getFirstAsync {A} (q : SQLiteDatabase -> JsError + A) :
  preserves (getFirstAsync q).
Proof. intros w H. unfold getFirstAsync. now destruct (dbInstance w). Qed.

Lemma preserves_runAsync (stmt : SQLiteDatabase -> JsError + SQLiteDatabase) :
  statement_ok stmt -> preserves (runAsync stmt).
Proof.
  intros Hs w H. unfold runAsync.
  destruct (dbInstance w) as [d|] eqn:Hdb; [|exact H].
  destruct (stmt d) as [e|d'] eqn:E; [exact H|]. simpl.
  apply Sound_iff in H as (d0 & Hd0 & Hsound).
  apply Sound_iff. exists d'. split; [reflexivity|].
  apply (Hs d d'); [congruence|exact E].
Qed.

Lemma preserves_require_database : preserves require_database.
Proof.
  apply preserves_bind.
  - intros w H. exact H.
  - intros [d|]; [apply preserves_ret|apply preserves_throw].
Qed.

Lemma preserves_if {A} (b : bool) (m1 m2 : M A) :
  preserves m1 -> preserves m2 -> preserves (if b then m1 else m2).
Proof. now destruct b. Qed.

(** *** The statements *)

Lemma references_ok_same_ids (d d' : SQLiteDatabase) :
  references_ok d ->
  (forall i, In i (shopping_items d') ->
             exists i0, In i0 (shopping_items d) /\ i_list_id i0 = i_list_id i) ->
  (forall l, In l (shopping_lists d) ->
             exists l', In l' (shopping_lists d') /\ l_id l' = l_id l) ->
  references_ok d'.
Proof.
  intros Hrefs Hitems Hlists i Hi.
  destruct (Hitems i Hi) as (i0 & Hi0 & Heq).
  destruct (Hrefs i0 Hi0) as (l & Hl & Hid).
  destruct (Hlists l Hl) as (l' & Hl' & Hid').
  exists l'. split; [exact Hl'|congruence].
Qed.

Lemma insert_list_ok (r : ShoppingListRow) : statement_ok (insert_list r).
Proof.
  intros d d' (Ht & Hfk & Hrefs) H.
  rewrite (insert_list_current d r Ht) in H.
  destruct (existsb _ _); [discriminate|]. injection H as <-.
  repeat split; try assumption.
  apply (references_ok_same_ids d); [exact Hrefs| |].
  - intros i Hi. now exists i.
  - intros l Hl. exists l. split; [|reflexivity].
    cbn. apply in_or_app. now left.
Qed.

Lemma update_list_name_ok (name : jsstring) (now : Z) (id : jsstring) :
  statement_ok (update_list_name name now id).
Proof.
  intros d d' (Ht & Hfk & Hrefs) H. unfold update_list_name in H.
  destruct (find_table _ d); [|discriminate].
  cbv zeta in H. destruct (negb _); [discriminate|].
  destruct (forallb _ _); [|discriminate]. injection H as <-.
  repeat split; try assumption.
  apply (references_ok_same_ids d); [exact Hrefs| |].
  - intros i Hi. now exists i.
  - intros l Hl. cbn [shopping_lists set_shopping_lists].
    eexists. split; [apply in_map; exact Hl|].
    now destruct (jsstring_eqb (l_id l) id).
Qed.

(** With the foreign key of the current schema, deleting a list deletes
    its items. *)
Lemma delete_list_current (id : jsstring) (d : SQLiteDatabase) :
  tables d = current_tables ->
  foreign_keys d = true ->
  delete_list_where_id id d =
  inr (if existsb (fun l => jsstring_eqb (l_id l) id) (shopping_lists d)
       then set_shopping_items
              (filter (fun i => negb (jsstring_eqb (i_list_id i) id))
                      (shopping_items d))
              (set_shopping_lists
                 (filter (fun l => negb (jsstring_eqb (l_id l) id))
                         (shopping_lists d)) d)
       else set_shopping_lists
              (filter (fun l => negb (jsstring_eqb (l_id l) id))
                      (shopping_lists d)) d).
Proof.
  intros Ht Hfk. unfold delete_list_where_id, items_fk_to_lists.
  rewrite !(find_table_current d _ Ht).
  change (find (fun t => String.eqb (tbl_name t) "shopping_lists") current_tables)
    with (Some DatabaseService.shopping_lists_table).
  change (find (fun t => String.eqb (tbl_name t) "shopping_items") current_tables)
    with (Some current_items_table).
  cbv beta iota zeta. rewrite Hfk.
  now destruct (existsb _ (shopping_lists d)).
Qed.

Lemma delete_list_ok (id : jsstring) : statement_ok (delete_list_where_id id).
Proof.
  intros d d' (Ht & Hfk & Hrefs) H.
  rewrite (delete_list_current id d Ht Hfk) in H. injection H as <-.
  destruct (existsb _ (shopping_lists d)) eqn:E.
  - repeat split; try assumption.
    intros i Hi. cbn in Hi. apply filter_In in Hi as [Hi Hne].
    destruct (Hrefs i Hi) as (l & Hl & Hid).
    exists l. split; [|exact Hid]. cbn. apply filter_In. split; [exact Hl|].
    now rewrite Hid.
  - repeat split; try assumption.
    intros i Hi. cbn in Hi.
    destruct (Hrefs i Hi) as (l & Hl & Hid).
    exists l. split; [|exact Hid]. cbn. apply filter_In. split; [exact Hl|].
    apply negb_true_iff, jsstring_eqb_neq. intros Heq.
    assert (In id (List.map l_id (shopping_lists d)))
      by (rewrite <- Heq; now apply in_map).
    rewrite (existsb_id_true l_id id _ H) in E. discriminate.
Qed.

Lemma existsb_id_In {A} (proj : A -> jsstring) (id : jsstring) (l : list A) :
  existsb (fun x => jsstring_eqb (proj x) id) l = true ->
  exists x, In x l /\ proj x = id.
Proof.
  intros H. apply existsb_exists in H as (x & Hx & Heq).
  apply jsstring_eqb_eq in Heq. now exists x.
Qed.

Lemma insert_item_ok (r : ShoppingItemRow) : statement_ok (insert_item r).
Proof.
  intros d d' (Ht & Hfk & Hrefs) H.
  rewrite (insert_item_current d r Ht Hfk) in H.
  destruct (existsb _ (shopping_items d)); [discriminate|].
  destruct (existsb _ (shopping_lists d)) eqn:E; [|discriminate].
  injection H as <-. repeat split; try assumption.
  intros i Hi. cbn in Hi. apply in_app_or in Hi as [Hi|[<-|[]]].
  - exact (Hrefs i Hi).
  - exact (existsb_id_In l_id _ _ E).
Qed.

Lemma update_items_ok (upd : ShoppingItemRow -> ShoppingItemRow)
      (cols : list string) (id : jsstring) :
  (forall i, i_list_id (upd i) = i_list_id i) ->
  statement_ok (update_items_where_id upd cols id).
Proof.
  intros Hupd d d' (Ht & Hfk & Hrefs) H. unfold update_items_where_id in H.
  destruct (find_table _ d); [|discriminate].
  destruct (negb _); [discriminate|]. cbv zeta in H.
  destruct (forallb _ _); [|discriminate]. injection H as <-.
  repeat split; try assumption.
  apply (references_ok_same_ids d); [exact Hrefs| |].
  - intros i Hi. cbn in Hi. apply in_map_iff in Hi as (i0 & <- & Hi0).
    exists i0. split; [exact Hi0|].
    destruct (jsstring_eqb (i_id i0) id); [now rewrite Hupd|reflexivity].
  - intros l Hl. now exists l.
Qed.

Lemma delete_items_ok (p : ShoppingItemRow -> bool) (d : SQLiteDatabase) :
  sound_db d -> sound_db (set_shopping_items (filter p (shopping_items d)) d).
Proof.
  intros (Ht & Hfk & Hrefs). repeat split; try assumption.
  intros i Hi. cbn in Hi. apply filter_In in Hi as [Hi _].
  exact (Hrefs i Hi).
Qed.

Lemma delete_item_ok (id : jsstring) : statement_ok (delete_item_where_id id).
Proof.
  intros d d' Hd H. unfold delete_item_where_id in H.
  destruct (find_table _ d); [|discriminate]. injection H as <-.
  now apply delete_items_ok.
Qed.

Lemma delete_items_where_list_id_ok (listId : jsstring) :
  statement_ok (delete_items_where_list_id listId).
Proof.
  intros d d' Hd H. unfold delete_items_where_list_id in H.
  destruct (find_table _ d); [|discriminate]. injection H as <-.
  now apply delete_items_ok.
Qed.

Lemma update_settings_ok (upd : AppSettingsRow -> AppSettingsRow)
      (cols : list string) :
  statement_ok (update_settings_where_id_1 upd cols).
Proof.
  intros d d' (Ht & Hfk & Hrefs) H. unfold update_settings_where_id_1 in H.
  destruct (find_table _ d); [|discriminate].
  destruct (negb _); [discriminate|]. cbv zeta in H.
  destruct (forallb _ _); [|discriminate]. injection H as <-.
  repeat split; assumption.
Qed.

(** *** The services *)

Ltac preserve_step :=
  match goal with
  | |- preserves (try_catch _ _) => apply preserves_try_catch
  | |- preserves (bind _ _) => apply preserves_bind
  | |- preserves require_database => apply preserves_require_database
  | |- preserves (ret _) => apply preserves_ret
  | |- preserves (throw _) => apply preserves_throw
  | |- preserves (lift _) => apply preserves_lift
  | |- preserves (getFirstAsync _) => apply preserves_getFirstAsync
  | |- preserves (getAllAsync _) => apply preserves_getFirstAsync
  | |- preserves (runAsync _) => apply preserves_runAsync
  | |- preserves (if ?b then _ else _) => destruct b
  | |- preserves (match ?x with _ => _ end) => destruct x
  | |- forall _, _ => intro
  end.

Ltac preserve := repeat preserve_step.

Lemma list_getById_preserves (id : jsstring) :
  preserves (ShoppingListsService.getById id).
Proof. unfold ShoppingListsService.getById. preserve. Qed.

Lemma item_getById_preserves (id : jsstring) :
  preserves (ShoppingItemsService.getById id).
Proof. unfold ShoppingItemsService.getById. preserve. Qed.

Lemma list_create_preserves (dto : CreateShoppingListDto) (uuid : jsstring) (now : Z) :
  preserves (ShoppingListsService.create dto uuid now).
Proof.
  unfold ShoppingListsService.create. preserve. apply insert_list_ok.
Qed.

Lemma list_update_preserves (id : jsstring) (dto : UpdateShoppingListDto) (now : Z) :
  preserves (ShoppingListsService.update id dto now).
Proof.
  unfold ShoppingListsService.update. preserve;
    try apply list_getById_preserves. apply update_list_name_ok.
Qed.

Lemma list_delete_preserves (id : jsstring) :
  preserves (ShoppingListsService.deleteList id).
Proof.
  unfold ShoppingListsService.deleteList. preserve;
    try apply list_getById_preserves. apply delete_list_ok.
Qed.

Lemma item_create_preserves (dto : CreateShoppingItemDto) (uuid : jsstring) (now : Z) :
  preserves (ShoppingItemsService.create dto uuid now).
Proof.
  unfold ShoppingItemsService.create. preserve. apply insert_item_ok.
Qed.

Lemma item_update_preserves (id : jsstring) (dto : UpdateShoppingItemDto) (now : Z) :
  preserves (ShoppingItemsService.update id dto now).
Proof.
  unfold ShoppingItemsService.update. preserve;
    try apply item_getById_preserves.
  apply update_items_ok. reflexivity.
Qed.

Lemma item_copy_preserves (id uuid : jsstring) (now : Z) :
  preserves (ShoppingItemsService.copy id uuid now).
Proof.
  unfold ShoppingItemsService.copy. preserve;
    try apply item_getById_preserves. apply insert_item_ok.
Qed.

Lemma item_toggle_preserves (id : jsstring) (now : Z) :
  preserves (ShoppingItemsService.toggleComplete id now).
Proof.
  unfold ShoppingItemsService.toggleComplete. preserve;
    try apply item_getById_preserves.
  apply update_items_ok. reflexivity.
Qed.

Lemma item_delete_preserves (id : jsstring) :
  preserves (ShoppingItemsService.deleteItem id).
Proof.
  unfold ShoppingItemsService.deleteItem. preserve;
    try apply item_getById_preserves. apply delete_item_ok.
Qed.

Lemma item_deleteByListId_preserves (listId : jsstring) :
  preserves (ShoppingItemsService.deleteByListId listId).
Proof.
  unfold ShoppingItemsService.deleteByListId,
    ShoppingItemsService.countByListId.
  preserve. apply delete_items_where_list_id_ok.
Qed.

Lemma settings_preserve (parse : jsstring -> option CustomColors)
      (stringify : CustomColors -> jsstring) (now : Z) :
  (forall dto, preserves (SettingsService.updateTheme parse dto now))
  /\ (forall dto, preserves (SettingsService.updateCustomColors parse stringify dto now))
  /\ preserves (SettingsService.resetToDefault parse now).
Proof.
  assert (Hget : preserves (SettingsService.getSettings parse)).
  { intros w H. now rewrite getSettings_reads_only. }
  repeat split; intros;
    unfold SettingsService.updateTheme, SettingsService.updateCustomColors,
      SettingsService.resetToDefault;
    apply preserves_bind; try (intros; exact Hget);
    preserve; apply update_settings_ok.
Qed.

(** The first launch reaches a sound state: the migrations succeed on
    an empty file, whatever the clock shows. *)
Lemma first_launch_is_sound (clk : DatabaseService.Clock) :
  let r := DatabaseService.initializeDatabase
             DatabaseService.empty_file clk Sample.closed in
  exists d : SQLiteDatabase,
    r = (inr d, {| dbInstance := Some d |})
    /\ Ready (snd r) d
    /\ shopping_lists d = [] /\ shopping_items d = []
    /\ List.map v_version (schema_version d) = [1; 2; 3]%Z
    /\ Sound (snd r).
Proof.
  cbv zeta. eexists. split; [reflexivity|].
  repeat apply conj; try reflexivity.
  eexists. repeat apply conj; try reflexivity.
  intros i [].
Qed.

(** Every mutating callback of the two hooks leaves the store sound. *)
Lemma list_call_preserves {R} (m : UseShoppingLists.Mutation R)
      (st : React.State ShoppingList) (w : World) :
  Sound w -> Sound (React.world (UseShoppingLists.call m st w)).
Proof.
  intros H. rewrite list_call_settles.
  assert (Hs : Sound (snd (UseShoppingLists.service m w))).
  { destruct m; simpl.
    - now apply list_create_preserves.
    - now apply list_delete_preserves. }
  now destruct (UseShoppingLists.service m w) as [[e|v] w'].
Qed.

(** The same for the item hook. *)
Lemma call_preserves {R} (m : UseShoppingItems.Mutation R)
      (st : React.State ShoppingItem) (w : World) :
  Sound w -> Sound (React.world (UseShoppingItems.call m st w)).
Proof.
  intros H. rewrite call_settles.
  assert (Hs : Sound (snd (UseShoppingItems.service m w))).
  { destruct m; simpl.
    - now apply item_create_preserves.
    - now apply item_update_preserves.
    - now apply item_copy_preserves.
    - now apply item_toggle_preserves.
    - now apply item_delete_preserves. }
  now destruct (UseShoppingItems.service m w) as [[e|v] w'].
Qed.

(** ** Valid input, absent row

    With a valid name or text the same operations do reach the
    existence check, and an id that resolves to nothing gives the
    NotFoundError. *)

Lemma validateListName_valid (name : jsstring) (allowDefault : bool) :
  ~ invalid_text 100 name ->
  ShoppingListsService.validateListName name allowDefault = inr (trim name).
Proof.
  unfold ShoppingListsService.validateListName, invalid_text. intros H.
  destruct (trim name) as [|c t] eqn:E; [tauto|].
  simpl Nat.eqb. cbv iota.
  destruct (100 <? List.length (c :: t))%nat eqn:L; [|reflexivity].
  apply Nat.ltb_lt in L. tauto.
Qed.

Lemma find_none_id {A} (proj : A -> jsstring) (id : jsstring) (l : list A) :
  ~ In id (List.map proj l) ->
  find (fun x => jsstring_eqb (proj x) id) l = None.
Proof.
  induction l as [|x l IH]; simpl; intros H; [reflexivity|].
  destruct (jsstring_eqb (proj x) id) eqn:E.
  - apply jsstring_eqb_eq in E. exfalso. apply H. now left.
  - apply IH. intros Hin. apply H. now right.
Qed.

Lemma list_getById_ready (w : World) (d : SQLiteDatabase) (id : jsstring) :
  dbInstance w = Some d ->
  tables d = current_tables ->
  ShoppingListsService.getById id w =
  (inr (option_map ShoppingListsService.of_row
          (find (fun l => jsstring_eqb (l_id l) id) (shopping_lists d))), w).
Proof.
  intros Hdb Ht. unfold ShoppingListsService.getById. unfold_async.
  with_db Hdb. unfold select_list_where_id.
  rewrite (find_table_current d _ Ht).
  change (find _ current_tables)
    with (Some DatabaseService.shopping_lists_table).
  cbv beta iota.
  now destruct (find _ (shopping_lists d)).
Qed.

Lemma list_update_absent (w : World) (d : SQLiteDatabase)
      (id name : jsstring) (now : Z) :
  Ready w d ->
  ~ invalid_text 100 name ->
  ~ In id (list_ids d) ->
  ShoppingListsService.update id {| update_list_name_to := name |} now w =
  (inl (ShoppingListsService.not_found id), w).
Proof.
  intros (Hdb & Ht & _) Hvalid Habsent.
  unfold ShoppingListsService.update. unfold_async. with_db Hdb.
  cbn [update_list_name_to].
  rewrite (validateListName_valid name false Hvalid). cbv beta iota.
  rewrite (list_getById_ready w d id Hdb Ht).
  rewrite (find_none_id l_id id _ Habsent). reflexivity.
Qed.

Lemma item_update_absent (w : World) (d : SQLiteDatabase)
      (id text : jsstring) (now : Z) :
  Ready w d ->
  ~ invalid_text 500 text ->
  ~ In id (item_ids d) ->
  ShoppingItemsService.update id {| update_item_text_to := text |} now w =
  (inl (ShoppingItemsService.not_found id), w).
Proof.
  intros (Hdb & Ht & _) Hvalid Habsent.
  unfold ShoppingItemsService.update. unfold_async. with_db Hdb.
  cbn [update_item_text_to].
  rewrite (validateItemText_valid text Hvalid). cbv beta iota.
  rewrite (item_getById_ready w d id Hdb Ht).
  rewrite (find_none_id i_id id _ Habsent). reflexivity.
Qed.

Lemma filter_none_id {A} (proj : A -> jsstring) (id : jsstring) (l : list A) :
  ~ In id (List.map proj l) ->
  filter (fun x => jsstring_eqb (proj x) id) l = [].
Proof.
  induction l as [|x l IH]; simpl; intros H; [reflexivity|].
  destruct (jsstring_eqb (proj x) id) eqn:E.
  - apply jsstring_eqb_eq in E. exfalso. apply H. now left.
  - apply IH. intros Hin. apply H. now right.
Qed.

Lemma item_create_absent_list (w : World) (d : SQLiteDatabase)
      (listId text uuid : jsstring) (now : Z) :
  Ready w d ->
  ~ invalid_text 500 text ->
  ~ In listId (list_ids d) ->
  ShoppingItemsService.create
    {| create_item_listId := listId; create_item_text := text |} uuid now w =
  (inl (NotFoundError (js "Shopping list not found") (js "listId") listId), w).
Proof.
  intros (Hdb & Ht & _) Hvalid Habsent.
  unfold ShoppingItemsService.create. unfold_async. with_db Hdb.
  cbn [create_item_text create_item_listId].
  rewrite (validateItemText_valid text Hvalid). with_db Hdb.
  unfold select_count_lists_where_id.
  rewrite (find_table_current d _ Ht).
  change (find _ current_tables)
    with (Some DatabaseService.shopping_lists_table).
  cbv beta iota.
  rewrite (filter_none_id l_id listId _ Habsent). reflexivity.
Qed.

(** ** A callback from an older render

    The rollback writes back the cache the callback closed over. It is
    the cache of before the call when the callback comes from the
    current render, as [call] takes it. *)
Lemma rollback_restores_captured (captured : list ShoppingItem)
      (id : jsstring) (dto : UpdateShoppingItemDto) (clock now : Z)
      (st : React.State ShoppingItem) (w : World) (e : JsError) :
  fst (ShoppingItemsService.update id dto now w) = inl e ->
  React.items
    (React.final
       (React.run
          (UseShoppingItems.updateItem captured id dto clock now) st w))
  = captured.
Proof.
  intros He. run_callback.
  destruct (ShoppingItemsService.update id dto now w) as [[e'|v] w'];
    [reflexivity|discriminate].
Qed.

(* ================================================================= *)
(** * The services on an initialized store

    What each service function returns and leaves behind when the
    connection is open and migrated, case by case. The properties
    further down are read off these equations. *)

Lemma validateListName_throws (name : jsstring) (allowDefault : bool) (e : JsError) :
  ShoppingListsService.validateListName name allowDefault = inl e ->
  isValidationError e = true.
Proof.
  unfold ShoppingListsService.validateListName.
  destruct (List.length (trim name) =? 0)%nat.
  - destruct allowDefault; [discriminate|]. now intros [= <-].
  - destruct (100 <? List.length (trim name))%nat; [|discriminate].
    now intros [= <-].
Qed.

Lemma validateItemText_throws (text : jsstring) (e : JsError) :
  ShoppingItemsService.validateItemText text = inl e ->
  isValidationError e = true.
Proof.
  unfold ShoppingItemsService.validateItemText.
  destruct (List.length (trim text) =? 0)%nat; [now intros [= <-]|].
  destruct (500 <? List.length (trim text))%nat; [|discriminate].
  now intros [= <-].
Qed.

Lemma list_getAll_ready (w : World) (d : SQLiteDatabase) :
  Ready w d ->
  ShoppingListsService.getAll w =
  (inr (List.map ShoppingListsService.of_row
          (order_by l_created_at DESC (shopping_lists d))), w).
Proof.
  intros (Hdb & Ht & _).
  unfold ShoppingListsService.getAll. unfold_async. with_db Hdb.
  unfold select_lists_order_by_created_at_desc.
  rewrite (find_table_current d _ Ht).
  change (find _ current_tables)
    with (Some DatabaseService.shopping_lists_table).
  reflexivity.
Qed.

Lemma list_count_ready (w : World) (d : SQLiteDatabase) :
  Ready w d ->
  ShoppingListsService.count w =
  (inr (Z.of_nat (List.length (shopping_lists d))), w).
Proof.
  intros (Hdb & Ht & _).
  unfold ShoppingListsService.count. unfold_async. with_db Hdb.
  unfold select_count_lists.
  rewrite (find_table_current d _ Ht).
  change (find _ current_tables)
    with (Some DatabaseService.shopping_lists_table).
  reflexivity.
Qed.

Lemma list_create_ready (w : World) (d : SQLiteDatabase)
      (dto : CreateShoppingListDto) (uuid : jsstring) (now : Z) :
  Ready w d ->
  ShoppingListsService.create dto uuid now w =
  match ShoppingListsService.validateListName (create_list_name dto) true with
  | inl e => (inl e, w)
  | inr name =>
      let newList := {| list_id := uuid; list_name := name;
                        list_createdAt := now; list_updatedAt := now |} in
      if existsb (fun l => jsstring_eqb (l_id l) uuid) (shopping_lists d)
      then (inl (DatabaseError (js "Failed to create shopping list")
                   (Some (constraint_failed "UNIQUE shopping_lists.id"))), w)
      else (inr newList,
            {| dbInstance :=
                 Some (set_shopping_lists
                         (shopping_lists d ++ [list_row newList]) d) |})
  end.
Proof.
  intros (Hdb & Ht & _).
  unfold ShoppingListsService.create. unfold_async. with_db Hdb.
  destruct (ShoppingListsService.validateListName _ true) as [e|name] eqn:Hv.
  - now rewrite (validateListName_throws _ _ _ Hv).
  - with_db Hdb. rewrite (insert_list_current d _ Ht). cbn [l_id list_id].
    now destruct (existsb _ (shopping_lists d)).
Qed.

Lemma update_list_name_current (d : SQLiteDatabase) (name : jsstring)
      (now : Z) (id : jsstring) :
  tables d = current_tables ->
  update_list_name name now id d =
  inr (set_shopping_lists
         (List.map (fun l => if jsstring_eqb (l_id l) id
                             then {| l_id := l_id l; l_name := name;
                                     l_created_at := l_created_at l;
                                     l_updated_at := now |}
                             else l)
                   (shopping_lists d)) d).
Proof.
  intros Ht. unfold update_list_name. rewrite (find_table_current d _ Ht).
  change (find _ current_tables)
    with (Some DatabaseService.shopping_lists_table).
  cbv beta iota zeta.
  change (columns_known _ _) with true. cbv [negb].
  replace (forallb _ _) with true; [reflexivity|].
  symmetry. apply forallb_forall. intros l _. reflexivity.
Qed.

Lemma list_update_ready (w : World) (d : SQLiteDatabase) (id : jsstring)
      (dto : UpdateShoppingListDto) (now : Z) :
  Ready w d ->
  ShoppingListsService.update id dto now w =
  match ShoppingListsService.validateListName (update_list_name_to dto) false with
  | inl e => (inl e, w)
  | inr name =>
      match find (fun l => jsstring_eqb (l_id l) id) (shopping_lists d) with
      | None => (inl (ShoppingListsService.not_found id), w)
      | Some row =>
          (inr {| list_id := l_id row; list_name := name;
                  list_createdAt := l_created_at row; list_updatedAt := now |},
           {| dbInstance :=
                Some (set_shopping_lists
                        (List.map (fun l => if jsstring_eqb (l_id l) id
                                            then {| l_id := l_id l; l_name := name;
                                                    l_created_at := l_created_at l;
                                                    l_updated_at := now |}
                                            else l)
                                  (shopping_lists d)) d) |})
      end
  end.
Proof.
  intros (Hdb & Ht & _).
  unfold ShoppingListsService.update. unfold_async. with_db Hdb.
  destruct (ShoppingListsService.validateListName _ false) as [e|name] eqn:Hv.
  - now rewrite (validateListName_throws _ _ _ Hv).
  - cbv beta iota. rewrite (list_getById_ready w d id Hdb Ht).
    destruct (find _ (shopping_lists d)) as [row|]; cbn [option_map];
      [|reflexivity].
    with_db Hdb. rewrite (update_list_name_current d name now id Ht).
    reflexivity.
Qed.

Lemma list_delete_ready (w : World) (d : SQLiteDatabase) (id : jsstring) :
  Ready w d ->
  ShoppingListsService.deleteList id w =
  match find (fun l => jsstring_eqb (l_id l) id) (shopping_lists d) with
  | None => (inl (ShoppingListsService.not_found id), w)
  | Some _ =>
      (inr tt,
       {| dbInstance :=
            Some (set_shopping_items
                    (filter (fun i => negb (jsstring_eqb (i_list_id i) id))
                            (shopping_items d))
                    (set_shopping_lists
                       (filter (fun l => negb (jsstring_eqb (l_id l) id))
                               (shopping_lists d)) d)) |})
  end.
Proof.
  intros (Hdb & Ht & Hfk).
  unfold ShoppingListsService.deleteList. unfold_async. with_db Hdb.
  rewrite (list_getById_ready w d id Hdb Ht).
  destruct (find _ (shopping_lists d)) as [row|] eqn:Hrow; cbn [option_map];
    [|reflexivity].
  with_db Hdb. rewrite (delete_list_current id d Ht Hfk).
  destruct (find_some_id l_id id _ row Hrow) as [_ Hin].
  now rewrite (existsb_id_true l_id id _ Hin).
Qed.

Lemma item_getByListId_ready (w : World) (d : SQLiteDatabase) (listId : jsstring) :
  Ready w d ->
  ShoppingItemsService.getByListId listId w =
  (inr (List.map ShoppingItemsService.of_row
          (order_by i_created_at ASC
             (filter (fun i => jsstring_eqb (i_list_id i) listId)
                     (shopping_items d)))), w).
Proof.
  intros (Hdb & Ht & _).
  unfold ShoppingItemsService.getByListId. unfold_async. with_db Hdb.
  unfold select_items_where_list_id_order_by_created_at_asc.
  rewrite (find_table_current d _ Ht).
  change (find _ current_tables) with (Some current_items_table).
  reflexivity.
Qed.

Lemma item_countByListId_ready (w : World) (d : SQLiteDatabase) (listId : jsstring) :
  Ready w d ->
  ShoppingItemsService.countByListId listId w =
  (inr (Z.of_nat (List.length
                    (filter (fun i => jsstring_eqb (i_list_id i) listId)
                            (shopping_items d)))), w).
Proof.
  intros (Hdb & Ht & _).
  unfold ShoppingItemsService.countByListId. unfold_async. with_db Hdb.
  unfold select_count_items_where_list_id.
  rewrite (find_table_current d _ Ht).
  change (find _ current_tables) with (Some current_items_table).
  reflexivity.
Qed.

Lemma item_create_ready (w : World) (d : SQLiteDatabase)
      (dto : CreateShoppingItemDto) (uuid : jsstring) (now : Z) :
  Ready w d ->
  ShoppingItemsService.create dto uuid now w =
  match ShoppingItemsService.validateItemText (create_item_text dto) with
  | inl e => (inl e, w)
  | inr text =>
      if existsb (fun l => jsstring_eqb (l_id l) (create_item_listId dto))
                 (shopping_lists d)
      then
        if existsb (fun i => jsstring_eqb (i_id i) uuid) (shopping_items d)
        then (inl (DatabaseError (js "Failed to create shopping item")
                     (Some (constraint_failed "UNIQUE shopping_items.id"))), w)
        else (inr {| item_id := uuid; item_listId := create_item_listId dto;
                     item_text := text; item_completed := false;
                     item_createdAt := now; item_updatedAt := now |},
              {| dbInstance :=
                   Some (set_shopping_items
                           (shopping_items d
                            ++ [{| i_id := uuid;
                                   i_list_id := create_item_listId dto;
                                   i_text := text; i_completed := 0;
                                   i_created_at := now; i_updated_at := now |}])
                           d) |})
      else (inl (NotFoundError (js "Shopping list not found") (js "listId")
                               (create_item_listId dto)), w)
  end.
Proof.
  intros (Hdb & Ht & Hfk).
  unfold ShoppingItemsService.create. unfold_async. with_db Hdb.
  destruct (ShoppingItemsService.validateItemText _) as [e|text] eqn:Hv.
  - now rewrite (validateItemText_throws _ _ Hv).
  - with_db Hdb. unfold select_count_lists_where_id.
    rewrite (find_table_current d _ Ht).
    change (find _ current_tables)
      with (Some DatabaseService.shopping_lists_table).
    cbv beta iota.
    destruct (existsb _ (shopping_lists d)) eqn:Hex.
    + assert (Hcount : (Z.of_nat (List.length
                (filter (fun l => jsstring_eqb (l_id l) (create_item_listId dto))
                        (shopping_lists d))) =? 0)%Z = false).
      { apply Z.eqb_neq. apply existsb_exists in Hex as (l & Hl & Hid).
        assert (In l (filter (fun l => jsstring_eqb (l_id l) (create_item_listId dto))
                             (shopping_lists d)))
          by (apply filter_In; tauto).
        destruct (filter _ (shopping_lists d)); [contradiction|].
        cbn [List.length]. lia. }
      rewrite Hcount. with_db Hdb.
      rewrite (insert_item_current d _ Ht Hfk). cbn [i_id i_list_id].
      rewrite Hex. now destruct (existsb _ (shopping_items d)).
    + assert (Hnone : filter (fun l => jsstring_eqb (l_id l) (create_item_listId dto))
                             (shopping_lists d) = []).
      { destruct (filter _ (shopping_lists d)) as [|l rest] eqn:Hf; [reflexivity|].
        assert (Hl : In l (l :: rest)) by now left.
        rewrite <- Hf in Hl. apply filter_In in Hl as [Hl Hid].
        assert (existsb (fun l => jsstring_eqb (l_id l) (create_item_listId dto))
                        (shopping_lists d) = true)
          by (apply existsb_exists; eauto).
        congruence. }
      rewrite Hnone. reflexivity.
Qed.

Lemma item_update_ready (w : World) (d : SQLiteDatabase) (id : jsstring)
      (dto : UpdateShoppingItemDto) (now : Z) :
  Ready w d ->
  ShoppingItemsService.update id dto now w =
  match ShoppingItemsService.validateItemText (update_item_text_to dto) with
  | inl e => (inl e, w)
  | inr text =>
      match find (fun i => jsstring_eqb (i_id i) id) (shopping_items d) with
      | None => (inl (ShoppingItemsService.not_found id), w)
      | Some row =>
          (inr (ShoppingItemsService.of_row (with_text text now row)),
           {| dbInstance := Some (items_updated (with_text text now) id d) |})
      end
  end.
Proof.
  intros (Hdb & Ht & _).
  unfold ShoppingItemsService.update. unfold_async. with_db Hdb.
  destruct (ShoppingItemsService.validateItemText _) as [e|text] eqn:Hv.
  - now rewrite (validateItemText_throws _ _ Hv).
  - cbv beta iota. rewrite (item_getById_ready w d id Hdb Ht).
    destruct (find _ (shopping_items d)) as [row|]; cbn [option_map];
      [|reflexivity].
    with_db Hdb. unfold update_item_text.
    rewrite (update_items_current d _ ["text"; "updated_at"; "id"]%string
                                  id Ht eq_refl).
    reflexivity.
Qed.

Lemma item_copy_ready (w : World) (d : SQLiteDatabase) (id uuid : jsstring)
      (now : Z) :
  Ready w d ->
  ShoppingItemsService.copy id uuid now w =
  match find (fun i => jsstring_eqb (i_id i) id) (shopping_items d) with
  | None => (inl (ShoppingItemsService.not_found id), w)
  | Some row =>
      let copied :=
        {| i_id := uuid; i_list_id := i_list_id row; i_text := i_text row;
           i_completed := ShoppingItemsService.bit
                            (ShoppingItemsService.Boolean (i_completed row));
           i_created_at := now; i_updated_at := now |} in
      if existsb (fun i => jsstring_eqb (i_id i) uuid) (shopping_items d)
      then (inl (DatabaseError (js "Failed to copy shopping item")
                   (Some (constraint_failed "UNIQUE shopping_items.id"))), w)
      else if existsb (fun l => jsstring_eqb (l_id l) (i_list_id row))
                      (shopping_lists d)
      then (inr (ShoppingItemsService.of_row copied),
            {| dbInstance :=
                 Some (set_shopping_items (shopping_items d ++ [copied]) d) |})
      else (inl (DatabaseError (js "Failed to copy shopping item")
                   (Some (constraint_failed "FOREIGN KEY"))), w)
  end.
Proof.
  intros (Hdb & Ht & Hfk).
  unfold ShoppingItemsService.copy. unfold_async. with_db Hdb.
  rewrite (item_getById_ready w d id Hdb Ht).
  destruct (find _ (shopping_items d)) as [row|]; cbn [option_map];
    [|reflexivity].
  with_db Hdb. rewrite (insert_item_current d _ Ht Hfk).
  cbn [i_id i_list_id ShoppingItemsService.of_row item_listId].
  destruct (existsb _ (shopping_items d)); [reflexivity|].
  destruct (existsb _ (shopping_lists d)); [|reflexivity].
  cbv beta iota. unfold ShoppingItemsService.of_row. cbn.
  now rewrite Boolean_bit.
Qed.

Lemma item_toggle_ready (w : World) (d : SQLiteDatabase) (id : jsstring)
      (now : Z) :
  Ready w d ->
  ShoppingItemsService.toggleComplete id now w =
  match find (fun i => jsstring_eqb (i_id i) id) (shopping_items d) with
  | None => (inl (ShoppingItemsService.not_found id), w)
  | Some row =>
      let upd := with_completed
                   (ShoppingItemsService.bit
                      (negb (ShoppingItemsService.Boolean (i_completed row))))
                   now in
      (inr (ShoppingItemsService.of_row (upd row)),
       {| dbInstance := Some (items_updated upd id d) |})
  end.
Proof.
  intros HR. pose proof HR as (Hdb & Ht & _).
  destruct (find _ (shopping_items d)) as [row|] eqn:Hrow.
  - exact (toggleComplete_found w d id now row HR Hrow).
  - unfold ShoppingItemsService.toggleComplete. unfold_async. with_db Hdb.
    rewrite (item_getById_ready w d id Hdb Ht), Hrow. reflexivity.
Qed.

Lemma item_delete_ready (w : World) (d : SQLiteDatabase) (id : jsstring) :
  Ready w d ->
  ShoppingItemsService.deleteItem id w =
  match find (fun i => jsstring_eqb (i_id i) id) (shopping_items d) with
  | None => (inl (ShoppingItemsService.not_found id), w)
  | Some _ =>
      (inr tt,
       {| dbInstance :=
            Some (set_shopping_items
                    (filter (fun i => negb (jsstring_eqb (i_id i) id))
                            (shopping_items d)) d) |})
  end.
Proof.
  intros (Hdb & Ht & _).
  unfold ShoppingItemsService.deleteItem. unfold_async. with_db Hdb.
  rewrite (item_getById_ready w d id Hdb Ht).
  destruct (find _ (shopping_items d)) as [row|]; cbn [option_map];
    [|reflexivity].
  with_db Hdb. unfold delete_item_where_id.
  rewrite (find_table_current d _ Ht).
  change (find _ current_tables) with (Some current_items_table).
  reflexivity.
Qed.

Lemma item_deleteByListId_ready (w : World) (d : SQLiteDatabase)
      (listId : jsstring) :
  Ready w d ->
  ShoppingItemsService.deleteByListId listId w =
  (inr (Z.of_nat (List.length
                    (filter (fun i => jsstring_eqb (i_list_id i) listId)
                            (shopping_items d)))),
   {| dbInstance :=
        Some (set_shopping_items
                (filter (fun i => negb (jsstring_eqb (i_list_id i) listId))
                        (shopping_items d)) d) |}).
Proof.
  intros HR. pose proof HR as (Hdb & Ht & _).
  unfold ShoppingItemsService.deleteByListId.
  cbv beta iota zeta delta [try_catch bind ret throw require_database
                            DatabaseService.getDatabase runAsync].
  with_db Hdb. rewrite (item_countByListId_ready w d listId HR).
  with_db Hdb. unfold delete_items_where_list_id.
  rewrite (find_table_current d _ Ht).
  change (find _ current_tables) with (Some current_items_table).
  reflexivity.
Qed.

(* ================================================================= *)
(** * Trimming and validation *)

Lemma trimStart_suffix (s : jsstring) :
  exists p, s = p ++ trimStart s /\ forallb isWhiteSpace p = true.
Proof.
  induction s as [|c s (p & Hp & Hws)]; simpl.
  - now exists [].
  - destruct (isWhiteSpace c) eqn:E.
    + exists (c :: p). simpl. rewrite E, Hws. split; [now f_equal|reflexivity].
    + now exists [].
Qed.

Lemma trimStart_fixed (c : N) (s : jsstring) :
  isWhiteSpace c = false -> trimStart (c :: s) = c :: s.
Proof. intros H. simpl. now rewrite H. Qed.

Lemma trimStart_idempotent (s : jsstring) : trimStart (trimStart s) = trimStart s.
Proof.
  destruct (trimStart s) as [|c t] eqn:E; [reflexivity|].
  apply trimStart_fixed. exact (trimStart_head s c t E).
Qed.

(** A trimmed string starts and ends with a character that is not
    white space, so trimming it again changes nothing. *)
Lemma trim_idempotent (s : jsstring) : trim (trim s) = trim s.
Proof.
  unfold trim, trimEnd.
  set (a := trimStart s). set (b := trimStart (rev a)).
  assert (Hb : trimStart b = b) by apply trimStart_idempotent.
  assert (Hstart : trimStart (rev b) = rev b).
  { destruct b as [|x b0] eqn:Eb; [reflexivity|].
    destruct (trimStart_suffix (rev a)) as (p & Hp & _). fold b in Hp.
    destruct a as [|c a'] eqn:Ea.
    - simpl in Hp. destruct p; discriminate.
    - assert (Hc : isWhiteSpace c = false)
        by exact (trimStart_head s c a' Ea).
      assert (Hne : x :: b0 <> []) by discriminate.
      destruct (exists_last Hne) as (b' & y & Hy).
      simpl in Hp. rewrite Eb, Hy, app_assoc in Hp.
      apply app_inj_tail in Hp as [_ <-].
      rewrite Hy, rev_app_distr. simpl. now rewrite Hc. }
  rewrite Hstart, rev_involutive, Hb. reflexivity.
Qed.

Lemma trim_length (s : jsstring) : (List.length (trim s) <= List.length s)%nat.
Proof.
  assert (H : forall t, (List.length (trimStart t) <= List.length t)%nat).
  { induction t as [|c t IH]; simpl; [lia|].
    destruct (isWhiteSpace c); simpl; lia. }
  unfold trim, trimEnd. rewrite length_rev.
  eapply Nat.le_trans; [apply H|]. rewrite length_rev. apply H.
Qed.

Lemma default_name_valid : valid_text 100 (js "Shopping List").
Proof.
  split; [|split].
  - vm_compute. discriminate.
  - vm_compute. lia.
  - reflexivity.
Qed.

(** What a validator returns is a valid text. *)
Lemma validateListName_returns_valid (name : jsstring) (allowDefault : bool)
      (r : jsstring) :
  ShoppingListsService.validateListName name allowDefault = inr r ->
  valid_text 100 r.
Proof.
  unfold ShoppingListsService.validateListName.
  destruct (trim name) as [|c t] eqn:E; simpl Nat.eqb; cbv iota.
  - destruct allowDefault; [|discriminate].
    intros [= <-]. apply default_name_valid.
  - destruct (100 <? List.length (c :: t))%nat eqn:L; [discriminate|].
    intros [= <-]. apply Nat.ltb_ge in L.
    repeat split; [discriminate|exact L|].
    rewrite <- E. apply trim_idempotent.
Qed.

Lemma validateItemText_returns_valid (text r : jsstring) :
  ShoppingItemsService.validateItemText text = inr r -> valid_text 500 r.
Proof.
  unfold ShoppingItemsService.validateItemText.
  destruct (trim text) as [|c t] eqn:E; simpl Nat.eqb; cbv iota;
    [discriminate|].
  destruct (500 <? List.length (c :: t))%nat eqn:L; [discriminate|].
  intros [= <-]. apply Nat.ltb_ge in L.
  repeat split; [discriminate|exact L|].
  rewrite <- E. apply trim_idempotent.
Qed.

(* ================================================================= *)
(** * What the services keep true *)

Lemma existsb_id_fresh {A} (proj : A -> jsstring) (id : jsstring) (l : list A) :
  existsb (fun x => jsstring_eqb (proj x) id) l = false ->
  ~ In id (List.map proj l).
Proof.
  intros H Hin. now rewrite (existsb_id_true proj id l Hin) in H.
Qed.

Lemma NoDup_map_filter {A B} (f : A -> B) (p : A -> bool) (l : list A) :
  NoDup (List.map f l) -> NoDup (List.map f (filter p l)).
Proof.
  induction l as [|x l IH]; simpl; intros H; [constructor|].
  inversion H as [|? ? Hx Hl]; subst.
  destruct (p x); simpl; [|now apply IH].
  constructor; [|now apply IH].
  intros Hin. apply Hx. apply in_map_iff in Hin as (y & Hy & Hin).
  apply filter_In in Hin as [Hin _]. rewrite <- Hy. now apply in_map.
Qed.

Lemma NoDup_map_snoc {A B} (f : A -> B) (l : list A) (x : A) :
  NoDup (List.map f l) -> ~ In (f x) (List.map f l) ->
  NoDup (List.map f (l ++ [x])).
Proof.
  intros Hl Hx. rewrite map_app. simpl.
  apply NoDup_app; [exact Hl|repeat constructor; intros []|].
  intros y Hy [<-|[]]. contradiction.
Qed.

Lemma map_id_update {A} (proj : A -> jsstring) (upd : A -> A) (id : jsstring)
      (l : list A) :
  (forall x, proj (upd x) = proj x) ->
  List.map proj (List.map (fun x => if jsstring_eqb (proj x) id then upd x else x) l)
  = List.map proj l.
Proof.
  intros H. rewrite map_map. apply map_ext. intros x.
  now destruct (jsstring_eqb (proj x) id).
Qed.

(** The rows of the two tables may change to any rows that meet the
    conditions; the rest of the store is as before. *)
Lemma well_formed_rows (d d' : SQLiteDatabase) :
  well_formed d ->
  tables d' = tables d ->
  foreign_keys d' = foreign_keys d ->
  app_settings d' = app_settings d ->
  references_ok d' ->
  NoDup (list_ids d') ->
  NoDup (item_ids d') ->
  Forall (fun l => valid_text 100 (l_name l)) (shopping_lists d') ->
  Forall (fun i => valid_text 500 (i_text i)) (shopping_items d') ->
  Forall (fun i => i_completed i = 0%Z \/ i_completed i = 1%Z) (shopping_items d') ->
  well_formed d'.
Proof.
  intros [Ht Hfk _ _ _ _ _ _ Hs] Ht' Hfk' Hs' Hrefs Hl Hi Hn Hx Hf.
  constructor; try assumption; try congruence.
  rewrite Hs'. exact Hs.
Qed.

Lemma well_formed_ready (w : World) (d : SQLiteDatabase) :
  dbInstance w = Some d -> well_formed d -> Ready w d.
Proof. intros Hdb [Ht Hfk _ _ _ _ _ _ _]. now repeat split. Qed.

Lemma bit_flag (b : bool) :
  ShoppingItemsService.bit b = 0%Z \/ ShoppingItemsService.bit b = 1%Z.
Proof. destruct b; auto. Qed.

Ltac wf_start w d Hdb Hwf HR :=
  intros (d & Hdb & Hwf);
  pose proof (well_formed_ready w d Hdb Hwf) as HR.

Ltac wf_done d Hdb Hwf := exists d; split; [exact Hdb|exact Hwf].

Ltac wf_changed d Hwf :=
  eexists; split; [reflexivity|];
  apply (well_formed_rows d); [exact Hwf|reflexivity|reflexivity|reflexivity|..];
  unfold list_ids, item_ids, items_updated;
  cbn [shopping_lists shopping_items set_shopping_lists set_shopping_items].

Lemma list_create_well_formed (w : World) (dto : CreateShoppingListDto)
      (uuid : jsstring) (now : Z) :
  WellFormed w -> WellFormed (snd (ShoppingListsService.create dto uuid now w)).
Proof.
  wf_start w d Hdb Hwf HR. rewrite (list_create_ready w d dto uuid now HR).
  destruct (ShoppingListsService.validateListName _ true) as [e|name] eqn:Hv;
    [wf_done d Hdb Hwf|].
  cbv zeta. destruct (existsb _ (shopping_lists d)) eqn:Hex;
    [wf_done d Hdb Hwf|].
  pose proof Hwf as [Ht Hfk Hrefs Hl Hi Hn Hx Hf Hs].
  wf_changed d Hwf.
  - intros i Hin. destruct (Hrefs i Hin) as (l & Hl' & Hid).
    exists l. split; [apply in_or_app; now left|exact Hid].
  - apply NoDup_map_snoc; [exact Hl|].
    exact (existsb_id_fresh l_id uuid _ Hex).
  - exact Hi.
  - apply Forall_app. split; [exact Hn|]. constructor; [|constructor].
    exact (validateListName_returns_valid _ _ _ Hv).
  - exact Hx.
  - exact Hf.
Qed.

Lemma Forall_map_update {A} (P : A -> Prop) (hit : A -> bool) (upd : A -> A)
      (l : list A) :
  Forall P l -> (forall x, In x l -> hit x = true -> P (upd x)) ->
  Forall P (List.map (fun x => if hit x then upd x else x) l).
Proof.
  intros Hl Hupd. apply Forall_forall. intros y Hy.
  apply in_map_iff in Hy as (x & <- & Hx).
  destruct (hit x) eqn:E; [now apply Hupd|].
  rewrite Forall_forall in Hl. now apply Hl.
Qed.

Lemma Forall_filter {A} (P : A -> Prop) (p : A -> bool) (l : list A) :
  Forall P l -> Forall P (filter p l).
Proof.
  intros H. apply Forall_forall. intros x Hx.
  apply filter_In in Hx as [Hx _]. rewrite Forall_forall in H. now apply H.
Qed.

Lemma list_update_well_formed (w : World) (id : jsstring)
      (dto : UpdateShoppingListDto) (now : Z) :
  WellFormed w -> WellFormed (snd (ShoppingListsService.update id dto now w)).
Proof.
  wf_start w d Hdb Hwf HR. rewrite (list_update_ready w d id dto now HR).
  destruct (ShoppingListsService.validateListName _ false) as [e|name] eqn:Hv;
    [wf_done d Hdb Hwf|].
  destruct (find _ (shopping_lists d)) as [row|]; [|wf_done d Hdb Hwf].
  pose proof Hwf as [Ht Hfk Hrefs Hl Hi Hn Hx Hf Hs].
  wf_changed d Hwf.
  - intros i Hin. destruct (Hrefs i Hin) as (l & Hl' & Hid).
    eexists. split; [apply in_map; exact Hl'|].
    now destruct (jsstring_eqb (l_id l) id).
  - rewrite (map_id_update l_id
               (fun l => {| l_id := l_id l; l_name := name;
                            l_created_at := l_created_at l;
                            l_updated_at := now |}) id);
      [exact Hl|reflexivity].
  - exact Hi.
  - apply (Forall_map_update
             (fun l => valid_text 100 (l_name l))
             (fun l => jsstring_eqb (l_id l) id)
             (fun l => {| l_id := l_id l; l_name := name;
                          l_created_at := l_created_at l;
                          l_updated_at := now |}));
      [exact Hn|]. intros l _ _.
    exact (validateListName_returns_valid _ _ _ Hv).
  - exact Hx.
  - exact Hf.
Qed.

Lemma list_delete_well_formed (w : World) (id : jsstring) :
  WellFormed w -> WellFormed (snd (ShoppingListsService.deleteList id w)).
Proof.
  wf_start w d Hdb Hwf HR. rewrite (list_delete_ready w d id HR).
  destruct (find _ (shopping_lists d)) as [row|]; [|wf_done d Hdb Hwf].
  pose proof Hwf as [Ht Hfk Hrefs Hl Hi Hn Hx Hf Hs].
  wf_changed d Hwf.
  - intros i Hin. apply filter_In in Hin as [Hin Hne].
    destruct (Hrefs i Hin) as (l & Hl' & Hid).
    exists l. split; [|exact Hid]. apply filter_In. split; [exact Hl'|].
    now rewrite Hid.
  - now apply NoDup_map_filter.
  - now apply NoDup_map_filter.
  - now apply Forall_filter.
  - now apply Forall_filter.
  - now apply Forall_filter.
Qed.

Lemma item_append_well_formed (d : SQLiteDatabase) (r : ShoppingItemRow) :
  well_formed d ->
  existsb (fun l => jsstring_eqb (l_id l) (i_list_id r)) (shopping_lists d) = true ->
  existsb (fun i => jsstring_eqb (i_id i) (i_id r)) (shopping_items d) = false ->
  valid_text 500 (i_text r) ->
  i_completed r = 0%Z \/ i_completed r = 1%Z ->
  well_formed (set_shopping_items (shopping_items d ++ [r]) d).
Proof.
  intros Hwf Hparent Hfresh Htext Hflag.
  pose proof Hwf as [Ht Hfk Hrefs Hl Hi Hn Hx Hf Hs].
  apply (well_formed_rows d); [exact Hwf|reflexivity|reflexivity|reflexivity|..];
    unfold list_ids, item_ids;
    cbn [shopping_lists shopping_items set_shopping_items].
  - intros i Hin. apply in_app_or in Hin as [Hin|[<-|[]]].
    + exact (Hrefs i Hin).
    + exact (existsb_id_In l_id _ _ Hparent).
  - exact Hl.
  - apply NoDup_map_snoc; [exact Hi|].
    exact (existsb_id_fresh i_id (i_id r) _ Hfresh).
  - exact Hn.
  - apply Forall_app. split; [exact Hx|]. constructor; [exact Htext|constructor].
  - apply Forall_app. split; [exact Hf|]. constructor; [exact Hflag|constructor].
Qed.

Lemma item_create_well_formed (w : World) (dto : CreateShoppingItemDto)
      (uuid : jsstring) (now : Z) :
  WellFormed w -> WellFormed (snd (ShoppingItemsService.create dto uuid now w)).
Proof.
  wf_start w d Hdb Hwf HR. rewrite (item_create_ready w d dto uuid now HR).
  destruct (ShoppingItemsService.validateItemText _) as [e|text] eqn:Hv;
    [wf_done d Hdb Hwf|].
  destruct (existsb _ (shopping_lists d)) eqn:Hparent; [|wf_done d Hdb Hwf].
  destruct (existsb _ (shopping_items d)) eqn:Hfresh; [wf_done d Hdb Hwf|].
  eexists. split; [reflexivity|].
  apply item_append_well_formed; cbn; try assumption.
  - exact (validateItemText_returns_valid _ _ Hv).
  - now left.
Qed.

Lemma item_copy_well_formed (w : World) (id uuid : jsstring) (now : Z) :
  WellFormed w -> WellFormed (snd (ShoppingItemsService.copy id uuid now w)).
Proof.
  wf_start w d Hdb Hwf HR. rewrite (item_copy_ready w d id uuid now HR).
  destruct (find _ (shopping_items d)) as [row|] eqn:Hrow; [|wf_done d Hdb Hwf].
  cbv zeta.
  destruct (existsb _ (shopping_items d)) eqn:Hfresh; [wf_done d Hdb Hwf|].
  destruct (existsb _ (shopping_lists d)) eqn:Hparent; [|wf_done d Hdb Hwf].
  eexists. split; [reflexivity|].
  apply item_append_well_formed; cbn; try assumption.
  - apply find_some in Hrow as [Hin _].
    pose proof (wf_texts Hwf) as Hx. rewrite Forall_forall in Hx.
    exact (Hx row Hin).
  - apply bit_flag.
Qed.

Lemma items_updated_well_formed (d : SQLiteDatabase)
      (upd : ShoppingItemRow -> ShoppingItemRow) (id : jsstring) :
  well_formed d ->
  (forall i, i_id (upd i) = i_id i) ->
  (forall i, i_list_id (upd i) = i_list_id i) ->
  (forall i, In i (shopping_items d) -> valid_text 500 (i_text (upd i))) ->
  (forall i, i_completed i = 0%Z \/ i_completed i = 1%Z ->
             i_completed (upd i) = 0%Z \/ i_completed (upd i) = 1%Z) ->
  well_formed (items_updated upd id d).
Proof.
  intros Hwf Hid Hlist Htext Hflag.
  pose proof Hwf as [Ht Hfk Hrefs Hl Hi Hn Hx Hf Hs].
  apply (well_formed_rows d); [exact Hwf|reflexivity|reflexivity|reflexivity|..];
    unfold list_ids, item_ids, items_updated;
    cbn [shopping_lists shopping_items set_shopping_items].
  - intros i Hin. apply in_map_iff in Hin as (i0 & <- & Hin).
    destruct (Hrefs i0 Hin) as (l & Hl' & Heq).
    exists l. split; [exact Hl'|].
    destruct (jsstring_eqb (i_id i0) id); [now rewrite Hlist|exact Heq].
  - exact Hl.
  - rewrite (map_id_update i_id); [exact Hi|exact Hid].
  - exact Hn.
  - apply Forall_map_update; [exact Hx|]. intros i Hin _. now apply Htext.
  - apply Forall_map_update; [exact Hf|]. intros i Hin _. apply Hflag.
    rewrite Forall_forall in Hf. now apply Hf.
Qed.

Lemma item_update_well_formed (w : World) (id : jsstring)
      (dto : UpdateShoppingItemDto) (now : Z) :
  WellFormed w -> WellFormed (snd (ShoppingItemsService.update id dto now w)).
Proof.
  wf_start w d Hdb Hwf HR. rewrite (item_update_ready w d id dto now HR).
  destruct (ShoppingItemsService.validateItemText _) as [e|text] eqn:Hv;
    [wf_done d Hdb Hwf|].
  destruct (find _ (shopping_items d)) as [row|]; [|wf_done d Hdb Hwf].
  eexists. split; [reflexivity|].
  apply items_updated_well_formed; try assumption; try reflexivity.
  - intros i _. exact (validateItemText_returns_valid _ _ Hv).
  - intros i H. exact H.
Qed.

Lemma item_toggle_well_formed (w : World) (id : jsstring) (now : Z) :
  WellFormed w -> WellFormed (snd (ShoppingItemsService.toggleComplete id now w)).
Proof.
  wf_start w d Hdb Hwf HR. rewrite (item_toggle_ready w d id now HR).
  destruct (find _ (shopping_items d)) as [row|]; [|wf_done d Hdb Hwf].
  eexists. split; [reflexivity|].
  apply items_updated_well_formed; try assumption; try reflexivity.
  - intros i Hin. pose proof (wf_texts Hwf) as Hx.
    rewrite Forall_forall in Hx. exact (Hx i Hin).
  - intros i _. apply bit_flag.
Qed.

Lemma items_filtered_well_formed (d : SQLiteDatabase) (p : ShoppingItemRow -> bool) :
  well_formed d ->
  well_formed (set_shopping_items (filter p (shopping_items d)) d).
Proof.
  intros Hwf. pose proof Hwf as [Ht Hfk Hrefs Hl Hi Hn Hx Hf Hs].
  apply (well_formed_rows d); [exact Hwf|reflexivity|reflexivity|reflexivity|..];
    unfold list_ids, item_ids;
    cbn [shopping_lists shopping_items set_shopping_items].
  - intros i Hin. apply filter_In in Hin as [Hin _]. exact (Hrefs i Hin).
  - exact Hl.
  - now apply NoDup_map_filter.
  - exact Hn.
  - now apply Forall_filter.
  - now apply Forall_filter.
Qed.

Lemma item_delete_well_formed (w : World) (id : jsstring) :
  WellFormed w -> WellFormed (snd (ShoppingItemsService.deleteItem id w)).
Proof.
  wf_start w d Hdb Hwf HR. rewrite (item_delete_ready w d id HR).
  destruct (find _ (shopping_items d)) as [row|]; [|wf_done d Hdb Hwf].
  eexists. split; [reflexivity|]. now apply items_filtered_well_formed.
Qed.

Lemma item_deleteByListId_well_formed (w : World) (listId : jsstring) :
  WellFormed w -> WellFormed (snd (ShoppingItemsService.deleteByListId listId w)).
Proof.
  wf_start w d Hdb Hwf HR. rewrite (item_deleteByListId_ready w d listId HR).
  eexists. split; [reflexivity|]. now apply items_filtered_well_formed.
Qed.

(** *** Settings *)

Section SettingsEquations.
Variable JSON_parse : jsstring -> option CustomColors.
Variable JSON_stringify : CustomColors -> jsstring.

Lemma getSettings_ready (w : World) (d : SQLiteDatabase) :
  Ready w d ->
  SettingsService.getSettings JSON_parse w =
  match find (fun r => Z.eqb (s_id r) 1) (app_settings d) with
  | None =>
      (inl (DatabaseError
              (js "Settings not found. Database may not be initialized properly.")
              None), w)
  | Some r =>
      match s_custom_colors r with
      | Some (c :: text) =>
          match JSON_parse (c :: text) with
          | Some colors => (inr (settings_of r (Some colors)), w)
          | None =>
              (inl (DatabaseError (js "Failed to retrieve app settings")
                      (Some (SyntaxError (js "Unexpected token")))), w)
          end
      | _ => (inr (settings_of r None), w)
      end
  end.
Proof.
  intros (Hdb & Ht & _).
  unfold SettingsService.getSettings. unfold_async. with_db Hdb.
  unfold select_settings. rewrite (find_table_current d _ Ht).
  change (find _ current_tables) with (Some DatabaseService.app_settings_table).
  cbv beta iota.
  destruct (find _ (app_settings d)) as [r|]; [|reflexivity].
  destruct (s_custom_colors r) as [[|c text]|]; try reflexivity.
  destruct (JSON_parse (c :: text)); reflexivity.
Qed.

Lemma settings_write (w : World) (d : SQLiteDatabase)
      (upd : AppSettingsRow -> AppSettingsRow) (cols : list string)
      (message : jsstring) :
  Ready w d ->
  columns_known DatabaseService.app_settings_table cols = true ->
  (forall r, s_id (upd r) = s_id r) ->
  (try_catch
     (require_database ;;; runAsync (update_settings_where_id_1 upd cols))
     (fun error => throw (DatabaseError message (Some error))) ;;;
   SettingsService.getSettings JSON_parse) w
  = SettingsService.getSettings JSON_parse
      {| dbInstance := Some (settings_updated upd d) |}.
Proof.
  intros (Hdb & Ht & _) Hcols Hid.
  cbv beta iota zeta delta [bind try_catch require_database ret throw
                            DatabaseService.getDatabase runAsync].
  with_db Hdb. rewrite (update_settings_current d upd cols Ht Hcols Hid).
  reflexivity.
Qed.

Lemma updateTheme_ready (w : World) (d : SQLiteDatabase) (dto : UpdateThemeDto)
      (now : Z) :
  Ready w d ->
  SettingsService.updateTheme JSON_parse dto now w =
  SettingsService.getSettings JSON_parse
    {| dbInstance :=
         Some (settings_updated
                 (fun r => {| s_id := s_id r;
                              s_theme_id := theme_string (update_themeId dto);
                              s_custom_colors := s_custom_colors r;
                              s_created_at := s_created_at r;
                              s_updated_at := now |}) d) |}.
Proof.
  intros HR. unfold SettingsService.updateTheme, update_settings_theme.
  now apply settings_write.
Qed.

Lemma updateCustomColors_ready (w : World) (d : SQLiteDatabase)
      (dto : UpdateCustomColorsDto) (now : Z) :
  Ready w d ->
  SettingsService.updateCustomColors JSON_parse JSON_stringify dto now w =
  SettingsService.getSettings JSON_parse
    {| dbInstance :=
         Some (settings_updated
                 (fun r => {| s_id := s_id r; s_theme_id := js "custom";
                              s_custom_colors :=
                                Some (JSON_stringify (update_customColors dto));
                              s_created_at := s_created_at r;
                              s_updated_at := now |}) d) |}.
Proof.
  intros HR.
  unfold SettingsService.updateCustomColors, update_settings_theme_colors.
  now apply settings_write.
Qed.

Lemma resetToDefault_ready (w : World) (d : SQLiteDatabase) (now : Z) :
  Ready w d ->
  SettingsService.resetToDefault JSON_parse now w =
  SettingsService.getSettings JSON_parse
    {| dbInstance :=
         Some (settings_updated
                 (fun r => {| s_id := s_id r; s_theme_id := js "default";
                              s_custom_colors := None;
                              s_created_at := s_created_at r;
                              s_updated_at := now |}) d) |}.
Proof.
  intros HR.
  unfold SettingsService.resetToDefault, update_settings_theme_colors.
  now apply settings_write.
Qed.

Lemma settings_updated_well_formed (d : SQLiteDatabase)
      (upd : AppSettingsRow -> AppSettingsRow) :
  (forall r, s_id (upd r) = s_id r) ->
  well_formed d -> well_formed (settings_updated upd d).
Proof.
  intros Hid [Ht Hfk Hrefs Hl Hi Hn Hx Hf (r & Hs & Hr)].
  constructor; try assumption.
  exists (upd r). unfold settings_updated. cbn. rewrite Hs. cbn.
  rewrite Hr. cbn. split; [reflexivity|]. now rewrite Hid.
Qed.

Lemma settings_well_formed (w : World) (now : Z) :
  WellFormed w ->
  (forall dto, WellFormed (snd (SettingsService.updateTheme JSON_parse dto now w)))
  /\ (forall dto, WellFormed
                    (snd (SettingsService.updateCustomColors
                            JSON_parse JSON_stringify dto now w)))
  /\ WellFormed (snd (SettingsService.resetToDefault JSON_parse now w)).
Proof.
  wf_start w d Hdb Hwf HR.
  repeat split; intros;
    rewrite ?(updateTheme_ready w d _ now HR),
            ?(updateCustomColors_ready w d _ now HR),
            ?(resetToDefault_ready w d now HR);
    rewrite getSettings_reads_only;
    (eexists; split; [reflexivity|]);
    apply settings_updated_well_formed; try assumption; reflexivity.
Qed.

End SettingsEquations.

(** *** Clearing the data *)

Lemma filter_all {A} (l : list A) : filter (fun _ => true) l = l.
Proof. induction l as [|x l IH]; simpl; [reflexivity|now rewrite IH]. Qed.

Lemma filter_filter {A} (p q : A -> bool) (l : list A) :
  filter p (filter q l) = filter (fun x => q x && p x) l.
Proof.
  induction l as [|x l IH]; simpl; [reflexivity|].
  destruct (q x); simpl; [|exact IH]. destruct (p x); [now rewrite IH|exact IH].
Qed.

Lemma filter_none {A} (p : A -> bool) (l : list A) :
  (forall x, In x l -> p x = false) -> filter p l = [].
Proof.
  induction l as [|x l IH]; simpl; intros H; [reflexivity|].
  rewrite (H x (or_introl eq_refl)). apply IH. intros y Hy. apply H. now right.
Qed.

Lemma set_shopping_lists_same (d : SQLiteDatabase) :
  set_shopping_lists (shopping_lists d) d = d.
Proof. now destruct d. Qed.

Lemma set_shopping_items_same (d : SQLiteDatabase) :
  set_shopping_items (shopping_items d) d = d.
Proof. now destruct d. Qed.

Lemma delete_lists_fold (ids : list jsstring) (d : SQLiteDatabase) :
  tables d = current_tables ->
  foreign_keys d = true ->
  shopping_items d = [] ->
  fold_left (fun acc id => match acc with
                           | inl e => inl e
                           | inr d' => delete_list_where_id id d'
                           end) ids (inr d)
  = inr (set_shopping_lists
           (filter (fun l => negb (existsb (jsstring_eqb (l_id l)) ids))
                   (shopping_lists d)) d).
Proof.
  revert d. induction ids as [|id ids IH]; intros d Ht Hfk Hitems.
  - simpl. now rewrite filter_all, set_shopping_lists_same.
  - simpl. rewrite (delete_list_current id d Ht Hfk).
    set (d1 := set_shopping_lists
                 (filter (fun l => negb (jsstring_eqb (l_id l) id))
                         (shopping_lists d)) d).
    assert (Hsame : (if existsb (fun l => jsstring_eqb (l_id l) id) (shopping_lists d)
                     then set_shopping_items
                            (filter (fun i => negb (jsstring_eqb (i_list_id i) id))
                                    (shopping_items d)) d1
                     else d1) = d1).
    { destruct (existsb _ _); [|reflexivity].
      rewrite Hitems. simpl filter.
      replace (@nil ShoppingItemRow) with (shopping_items d1)
        by (unfold d1; cbn; exact Hitems).
      apply set_shopping_items_same. }
    rewrite Hsame. rewrite (IH d1 Ht Hfk Hitems).
    unfold d1. cbn [shopping_lists set_shopping_lists].
    rewrite filter_filter. f_equal.
    change (set_shopping_lists ?x (set_shopping_lists ?y d))
      with (set_shopping_lists x d).
    f_equal. apply filter_ext. intros l.
    now rewrite negb_orb.
Qed.

Lemma clearAllData_ready (w : World) (d : SQLiteDatabase) :
  Ready w d ->
  DatabaseService.clearAllData w =
  (inr tt,
   {| dbInstance := Some (set_shopping_lists [] (set_shopping_items [] d)) |}).
Proof.
  intros (Hdb & Ht & Hfk).
  unfold DatabaseService.clearAllData.
  cbv beta iota zeta delta [try_catch bind ret throw execAsync runAsync
                            DatabaseService.getDatabase].
  with_db Hdb.
  unfold delete_all_items. rewrite (find_table_current d _ Ht).
  change (find _ current_tables) with (Some current_items_table).
  cbv beta iota. cbn [dbInstance].
  unfold delete_all_lists.
  rewrite (find_table_current (set_shopping_items [] d) _ Ht).
  change (find _ current_tables)
    with (Some DatabaseService.shopping_lists_table).
  cbv beta iota.
  rewrite (delete_lists_fold _ (set_shopping_items [] d) Ht Hfk eq_refl).
  cbn [shopping_lists set_shopping_items].
  replace (filter _ (shopping_lists d)) with (@nil ShoppingListRow);
    [reflexivity|].
  symmetry. apply filter_none. intros l Hl.
  apply negb_false_iff, existsb_exists. exists (l_id l).
  split; [now apply in_map|apply jsstring_eqb_refl].
Qed.

Lemma clearAllData_well_formed (w : World) :
  WellFormed w -> WellFormed (snd (DatabaseService.clearAllData w)).
Proof.
  wf_start w d Hdb Hwf HR. rewrite (clearAllData_ready w d HR).
  pose proof Hwf as [Ht Hfk Hrefs Hl Hi Hn Hx Hf Hs].
  wf_changed d Hwf; try constructor. intros i [].
Qed.

(** Every call that writes keeps the store well formed, whether it
    resolves or rejects. *)
Lemma perform_well_formed (parse : jsstring -> option CustomColors)
      (stringify : CustomColors -> jsstring) (op : Operation) (w : World) :
  WellFormed w -> WellFormed (perform parse stringify op w).
Proof.
  intros H. destruct op; simpl.
  - now apply list_create_well_formed.
  - now apply list_update_well_formed.
  - now apply list_delete_well_formed.
  - now apply item_create_well_formed.
  - now apply item_update_well_formed.
  - now apply item_copy_well_formed.
  - now apply item_toggle_well_formed.
  - now apply item_delete_well_formed.
  - now apply item_deleteByListId_well_formed.
  - now apply (settings_well_formed parse stringify w now H).
  - now apply (settings_well_formed parse stringify w now H).
  - now apply (settings_well_formed parse stringify w now H).
  - now apply clearAllData_well_formed.
Qed.

Lemma perform_all_well_formed (parse : jsstring -> option CustomColors)
      (stringify : CustomColors -> jsstring) (ops : list Operation) (w : World) :
  WellFormed w -> WellFormed (perform_all parse stringify ops w).
Proof.
  revert w. induction ops as [|op ops IH]; intros w H; [exact H|].
  simpl. apply IH. now apply perform_well_formed.
Qed.

(** The first launch on an empty file gives a well-formed store. *)
Lemma launch_well_formed (clk : DatabaseService.Clock) :
  WellFormed (snd (DatabaseService.initializeDatabase
                     DatabaseService.empty_file clk Sample.closed)).
Proof.
  eexists. split; [reflexivity|].
  constructor; try reflexivity; try (cbn; constructor).
  - intros i [].
  - eexists. split; reflexivity.
Qed.

(* ================================================================= *)
(** * Further properties of the sources *)

(** ** States the application reaches *)

Lemma reached_well_formed (parse : jsstring -> option CustomColors)
      (stringify : CustomColors -> jsstring)
      (clk : DatabaseService.Clock) (ops : list Operation) :
  exists d : SQLiteDatabase,
    dbInstance (reached parse stringify clk ops) = Some d
    /\ well_formed d
    /\ Ready (reached parse stringify clk ops) d.
Proof.
  destruct (perform_all_well_formed parse stringify ops (first_launch clk)
              (launch_well_formed clk)) as (d & Hdb & Hwf).
  exists d. repeat split; try assumption; apply Hwf.
Qed.

(** X1. In every state the application reaches, from the first launch
    through any calls of the services, [getAll] returns lists with
    pairwise distinct ids and [getByListId] items with pairwise
    distinct ids. *)
Theorem reached_ids_are_unique :
  forall (parse : jsstring -> option CustomColors)
         (stringify : CustomColors -> jsstring)
         (clk : DatabaseService.Clock) (ops : list Operation) (listId : jsstring),
    let w := reached parse stringify clk ops in
    exists (lists : list ShoppingList) (its : list ShoppingItem),
      ShoppingListsService.getAll w = (inr lists, w)
      /\ NoDup (List.map list_id lists)
      /\ ShoppingItemsService.getByListId listId w = (inr its, w)
      /\ NoDup (List.map item_id its).
Proof.
  intros parse stringify clk ops listId w.
  destruct (reached_well_formed parse stringify clk ops) as (d & Hdb & Hwf & HR).
  fold w in Hdb, HR. eexists _, _. repeat apply conj.
  - exact (list_getAll_ready w d HR).
  - rewrite map_map. cbn.
    eapply Permutation_NoDup;
      [apply Permutation_sym, Permutation_map, order_by_perm|].
    exact (wf_list_ids Hwf).
  - exact (item_getByListId_ready w d listId HR).
  - rewrite map_map. cbn.
    eapply Permutation_NoDup;
      [apply Permutation_sym, Permutation_map, order_by_perm|].
    apply NoDup_map_filter. exact (wf_item_ids Hwf).
Qed.

(** X2. In every state the application reaches, every list name that
    [getAll] returns has 1 to 100 code units and every item text that
    [getByListId] returns has 1 to 500, with no white space at either
    end: the validators of the services keep the bounds that the
    tables themselves do not check. *)
Theorem reached_texts_are_valid :
  forall (parse : jsstring -> option CustomColors)
         (stringify : CustomColors -> jsstring)
         (clk : DatabaseService.Clock) (ops : list Operation) (listId : jsstring),
    let w := reached parse stringify clk ops in
    exists (lists : list ShoppingList) (its : list ShoppingItem),
      ShoppingListsService.getAll w = (inr lists, w)
      /\ Forall (fun l => valid_text 100 (list_name l)) lists
      /\ ShoppingItemsService.getByListId listId w = (inr its, w)
      /\ Forall (fun i => valid_text 500 (item_text i)) its.
Proof.
  intros parse stringify clk ops listId w.
  destruct (reached_well_formed parse stringify clk ops) as (d & Hdb & Hwf & HR).
  fold w in Hdb, HR. eexists _, _. repeat apply conj.
  - exact (list_getAll_ready w d HR).
  - apply Forall_map. cbn.
    eapply Permutation_Forall; [apply Permutation_sym, order_by_perm|].
    exact (wf_names Hwf).
  - exact (item_getByListId_ready w d listId HR).
  - apply Forall_map. cbn.
    eapply Permutation_Forall; [apply Permutation_sym, order_by_perm|].
    apply Forall_filter. exact (wf_texts Hwf).
Qed.

(** X3. In every state the application reaches, the list of an item
    exists: when the item service finds an item, the list service
    finds the list its [listId] names. No item outlives its list. *)
Theorem reached_items_have_their_list :
  forall (parse : jsstring -> option CustomColors)
         (stringify : CustomColors -> jsstring)
         (clk : DatabaseService.Clock) (ops : list Operation)
         (id : jsstring) (R : ShoppingItem),
    let w := reached parse stringify clk ops in
    ShoppingItemsService.getById id w = (inr (Some R), w) ->
    exists L : ShoppingList,
      ShoppingListsService.getById (item_listId R) w = (inr (Some L), w)
      /\ list_id L = item_listId R.
Proof.
  intros parse stringify clk ops id R w Hget.
  destruct (reached_well_formed parse stringify clk ops) as (d & Hdb & Hwf & HR).
  fold w in Hdb, HR. pose proof HR as (_ & Ht & _).
  rewrite (item_getById_ready w d id Hdb Ht) in Hget.
  destruct (find _ (shopping_items d)) as [row|] eqn:Hrow;
    cbn in Hget; [|discriminate].
  assert (R = ShoppingItemsService.of_row row) by congruence. subst R.
  apply find_some in Hrow as [Hin _].
  destruct (wf_references Hwf row Hin) as (l & Hl & Hid).
  rewrite (list_getById_ready w d _ Hdb Ht). cbn [item_listId ShoppingItemsService.of_row].
  assert (Hex : In (i_list_id row) (List.map l_id (shopping_lists d)))
    by (rewrite <- Hid; now apply in_map).
  destruct (find (fun l0 => jsstring_eqb (l_id l0) (i_list_id row))
                 (shopping_lists d)) as [l'|] eqn:Hfind.
  - exists (ShoppingListsService.of_row l'). split; [reflexivity|].
    now destruct (find_some_id l_id _ _ l' Hfind).
  - exfalso. pose proof (find_none _ _ Hfind l Hl) as Hno. cbv beta in Hno.
    rewrite Hid, jsstring_eqb_refl in Hno. discriminate.
Qed.

(** X4. In every state the application reaches, the settings row is
    there: [getSettings] resolves with the settings of id 1, or it
    rejects because the stored colour map does not parse; it never
    reports the settings as missing. *)
Theorem reached_settings_exist :
  forall (parse : jsstring -> option CustomColors)
         (stringify : CustomColors -> jsstring)
         (clk : DatabaseService.Clock) (ops : list Operation),
    let w := reached parse stringify clk ops in
    (exists s : AppSettings,
        SettingsService.getSettings parse w = (inr s, w) /\ settings_id s = 1%Z)
    \/ SettingsService.getSettings parse w =
       (inl (DatabaseError (js "Failed to retrieve app settings")
               (Some (SyntaxError (js "Unexpected token")))), w).
Proof.
  intros parse stringify clk ops w.
  destruct (reached_well_formed parse stringify clk ops) as (d & Hdb & Hwf & HR).
  fold w in Hdb, HR. rewrite (getSettings_ready parse w d HR).
  destruct (wf_settings Hwf) as (r & Hs & Hr). rewrite Hs. cbn [find].
  rewrite Hr. cbn.
  destruct (s_custom_colors r) as [[|c text]|];
    try (left; eexists; split; [reflexivity|exact Hr]).
  destruct (parse (c :: text));
    [left; eexists; split; [reflexivity|exact Hr]|now right].
Qed.

(** ** Lists: create, update, delete *)

Lemma ready_after (w : World) (d d' : SQLiteDatabase) :
  Ready w d -> tables d' = tables d -> foreign_keys d' = foreign_keys d ->
  Ready {| dbInstance := Some d' |} d'.
Proof. intros (_ & Ht & Hfk) Ht' Hfk'. repeat split; congruence. Qed.

Lemma find_app_miss {A} (p : A -> bool) (l : list A) (x : A) :
  p x = false -> find p (l ++ [x]) = find p l.
Proof.
  intros Hx. induction l as [|y l IH]; simpl; [now rewrite Hx|].
  now destruct (p y).
Qed.

Lemma validateListName_lenient (name : jsstring) :
  (List.length (trim name) <= 100)%nat ->
  ShoppingListsService.validateListName name true =
  inr (match trim name with [] => js "Shopping List" | _ => trim name end).
Proof.
  intros H. unfold ShoppingListsService.validateListName.
  destruct (trim name) as [|c t] eqn:E; [reflexivity|].
  simpl Nat.eqb. cbv iota.
  now replace (100 <? List.length (c :: t))%nat with false
    by (symmetry; apply Nat.ltb_ge; exact H).
Qed.

(** X5. A list created with a name of at most 100 code units after
    trimming, and without a lone surrogate, is stored as returned:
    [getById] of the new id reads it back, [getAll] contains it,
    [count] has grown by one, and every other id reads as before. The
    stored name is the trimmed name, or 'Shopping List' when that is
    empty. *)
Theorem list_create_then_read :
  forall (w : World) (d : SQLiteDatabase) (name uuid : jsstring) (now : Z),
    Ready w d ->
    (List.length (trim name) <= 100)%nat ->
    isWellFormed name = true ->
    ~ In uuid (list_ids d) ->
    exists (L : ShoppingList) (w' : World),
      ShoppingListsService.create {| create_list_name := name |} uuid now w
      = (inr L, w')
      /\ L = {| list_id := uuid;
                list_name := match trim name with
                             | [] => js "Shopping List"
                             | _ => trim name
                             end;
                list_createdAt := now; list_updatedAt := now |}
      /\ ShoppingListsService.getById uuid w' = (inr (Some L), w')
      /\ (forall id', id' <> uuid ->
                      fst (ShoppingListsService.getById id' w')
                      = fst (ShoppingListsService.getById id' w))
      /\ (exists lists, ShoppingListsService.getAll w' = (inr lists, w')
                        /\ In L lists)
      /\ (exists n, ShoppingListsService.count w = (inr n, w)
                    /\ ShoppingListsService.count w' = (inr (n + 1)%Z, w')).
Proof.
  intros w d name uuid now HR Hlen _ Hfresh.
  pose proof HR as (Hdb & Ht & Hfk).
  pose proof (list_create_ready w d {| create_list_name := name |} uuid now HR)
    as Hcreate.
  cbn [create_list_name] in Hcreate.
  rewrite (validateListName_lenient name Hlen) in Hcreate. cbv zeta in Hcreate.
  rewrite (existsb_id_false l_id uuid _ Hfresh) in Hcreate.
  set (L := {| list_id := uuid;
               list_name := match trim name with
                            | [] => js "Shopping List"
                            | _ => trim name
                            end;
               list_createdAt := now; list_updatedAt := now |}) in *.
  set (d' := set_shopping_lists (shopping_lists d ++ [list_row L]) d) in *.
  assert (HR' : Ready {| dbInstance := Some d' |} d')
    by (apply (ready_after w d d' HR); reflexivity).
  exists L, {| dbInstance := Some d' |}. repeat apply conj.
  - exact Hcreate.
  - reflexivity.
  - rewrite (list_getById_ready {| dbInstance := Some d' |} d' uuid eq_refl Ht).
    cbn [d' shopping_lists set_shopping_lists].
    now rewrite (find_app_fresh l_id uuid _ (list_row L) Hfresh eq_refl).
  - intros id' Hne.
    rewrite (list_getById_ready {| dbInstance := Some d' |} d' id' eq_refl Ht),
            (list_getById_ready w d id' Hdb Ht).
    cbn [d' shopping_lists set_shopping_lists fst].
    rewrite find_app_miss; [reflexivity|].
    apply jsstring_eqb_neq. cbn. congruence.
  - eexists. split; [exact (list_getAll_ready _ d' HR')|].
    change L with (ShoppingListsService.of_row (list_row L)).
    apply in_map.
    apply (Permutation_in _ (Permutation_sym (order_by_perm _ _ _ _))).
    cbn [d' shopping_lists set_shopping_lists]. apply in_or_app. right. now left.
  - eexists. split; [exact (list_count_ready w d HR)|].
    rewrite (list_count_ready _ d' HR').
    cbn [d' shopping_lists set_shopping_lists].
    rewrite length_app. cbn [List.length]. do 2 f_equal. lia.
Qed.

Lemma find_update_same {A} (proj : A -> jsstring) (upd : A -> A)
      (id : jsstring) (l : list A) :
  (forall x, proj (upd x) = proj x) ->
  find (fun x => jsstring_eqb (proj x) id)
       (List.map (fun x => if jsstring_eqb (proj x) id then upd x else x) l)
  = option_map upd (find (fun x => jsstring_eqb (proj x) id) l).
Proof.
  intros Hid. induction l as [|x l IH]; simpl; [reflexivity|].
  destruct (jsstring_eqb (proj x) id) eqn:E.
  - now rewrite Hid, E.
  - now rewrite E.
Qed.

Lemma find_update_other {A} (proj : A -> jsstring) (upd : A -> A)
      (id id' : jsstring) (l : list A) :
  (forall x, proj (upd x) = proj x) ->
  id' <> id ->
  find (fun x => jsstring_eqb (proj x) id')
       (List.map (fun x => if jsstring_eqb (proj x) id then upd x else x) l)
  = find (fun x => jsstring_eqb (proj x) id') l.
Proof.
  intros Hid Hne. induction l as [|x l IH]; simpl; [reflexivity|].
  destruct (jsstring_eqb (proj x) id) eqn:E.
  - rewrite Hid. apply jsstring_eqb_eq in E.
    assert (jsstring_eqb (proj x) id' = false)
      by (apply jsstring_eqb_neq; congruence).
    now rewrite H.
  - now destruct (jsstring_eqb (proj x) id').
Qed.

Lemma find_removed {A} (proj : A -> jsstring) (id : jsstring) (l : list A) :
  find (fun x => jsstring_eqb (proj x) id)
       (filter (fun x => negb (jsstring_eqb (proj x) id)) l) = None.
Proof.
  induction l as [|x l IH]; simpl; [reflexivity|].
  destruct (jsstring_eqb (proj x) id) eqn:E; simpl; [exact IH|].
  now rewrite E.
Qed.

Lemma find_remove_other {A} (proj : A -> jsstring) (id id' : jsstring)
      (l : list A) :
  id' <> id ->
  find (fun x => jsstring_eqb (proj x) id')
       (filter (fun x => negb (jsstring_eqb (proj x) id)) l)
  = find (fun x => jsstring_eqb (proj x) id') l.
Proof.
  intros Hne. induction l as [|x l IH]; simpl; [reflexivity|].
  destruct (jsstring_eqb (proj x) id) eqn:E; simpl.
  - apply jsstring_eqb_eq in E.
    assert (jsstring_eqb (proj x) id' = false)
      by (apply jsstring_eqb_neq; congruence).
    now rewrite H.
  - now destruct (jsstring_eqb (proj x) id').
Qed.

Lemma filter_removed {A} (proj : A -> jsstring) (id : jsstring) (l : list A) :
  filter (fun x => jsstring_eqb (proj x) id)
         (filter (fun x => negb (jsstring_eqb (proj x) id)) l) = [].
Proof.
  rewrite filter_filter. apply filter_none. intros x _.
  now destruct (jsstring_eqb (proj x) id).
Qed.

Lemma filter_remove_other {A} (proj : A -> jsstring) (id id' : jsstring)
      (l : list A) :
  id' <> id ->
  filter (fun x => jsstring_eqb (proj x) id')
         (filter (fun x => negb (jsstring_eqb (proj x) id)) l)
  = filter (fun x => jsstring_eqb (proj x) id') l.
Proof.
  intros Hne. rewrite filter_filter. apply filter_ext. intros x.
  destruct (jsstring_eqb (proj x) id) eqn:E; [|reflexivity].
  apply jsstring_eqb_eq in E. simpl. symmetry.
  apply jsstring_eqb_neq. congruence.
Qed.

(** X6. A name longer than 100 code units after trimming is rejected
    by [create] as well as by [update], with the ValidationError on
    field 'name' that carries the untrimmed input, and nothing is
    stored: the default name stands in for an empty name only. *)
Theorem list_name_over_bound_rejected :
  forall (w : World) (d : SQLiteDatabase) (name id uuid : jsstring) (now : Z),
    dbInstance w = Some d ->
    (100 < List.length (trim name))%nat ->
    ShoppingListsService.create {| create_list_name := name |} uuid now w
    = (inl (ValidationError (js "List name cannot exceed 100 characters")
                            (js "name") name), w)
    /\ ShoppingListsService.update id {| update_list_name_to := name |} now w
       = (inl (ValidationError (js "List name cannot exceed 100 characters")
                               (js "name") name), w).
Proof.
  intros w d name id uuid now Hdb Hlong.
  assert (Hv : forall b, ShoppingListsService.validateListName name b =
                         inl (ValidationError
                                (js "List name cannot exceed 100 characters")
                                (js "name") name)).
  { intros b. unfold ShoppingListsService.validateListName.
    destruct (List.length (trim name)) as [|n] eqn:E; [lia|].
    simpl Nat.eqb. cbv iota.
    now replace (100 <? S n)%nat with true by (symmetry; apply Nat.ltb_lt; lia). }
  split.
  - unfold ShoppingListsService.create. unfold_async. with_db Hdb.
    cbn [create_list_name]. now rewrite Hv.
  - unfold ShoppingListsService.update. unfold_async. with_db Hdb.
    cbn [update_list_name_to]. now rewrite Hv.
Qed.

(** X7. [update] of a stored list with a name of 1 to 100 code units
    after trimming, and without a lone surrogate, returns the list
    with the trimmed name and the new
    [updatedAt], its id and [createdAt] as they were; [getById] then
    reads exactly that, and every other list and every item listing is
    as before. *)
Theorem list_update_then_read :
  forall (w : World) (d : SQLiteDatabase) (id name : jsstring) (now : Z)
         (L0 : ShoppingList),
    Ready w d ->
    ~ invalid_text 100 name ->
    isWellFormed name = true ->
    ShoppingListsService.getById id w = (inr (Some L0), w) ->
    exists (L : ShoppingList) (w' : World),
      ShoppingListsService.update id {| update_list_name_to := name |} now w
      = (inr L, w')
      /\ L = {| list_id := id; list_name := trim name;
                list_createdAt := list_createdAt L0; list_updatedAt := now |}
      /\ list_id L0 = id
      /\ ShoppingListsService.getById id w' = (inr (Some L), w')
      /\ (forall id', id' <> id ->
                      fst (ShoppingListsService.getById id' w')
                      = fst (ShoppingListsService.getById id' w))
      /\ (forall listId,
             fst (ShoppingItemsService.getByListId listId w')
             = fst (ShoppingItemsService.getByListId listId w)).
Proof.
  intros w d id name now L0 HR Hvalid _ Hget.
  pose proof HR as (Hdb & Ht & Hfk).
  rewrite (list_getById_ready w d id Hdb Ht) in Hget.
  destruct (find _ (shopping_lists d)) as [row|] eqn:Hrow;
    cbn in Hget; [|discriminate].
  assert (L0 = ShoppingListsService.of_row row) by congruence. subst L0.
  destruct (find_some_id l_id id _ row Hrow) as [Hid _].
  pose proof (list_update_ready w d id {| update_list_name_to := name |} now HR)
    as Hupd.
  cbn [update_list_name_to] in Hupd.
  rewrite (validateListName_valid name false Hvalid), Hrow in Hupd.
  set (upd := fun l => {| l_id := l_id l; l_name := trim name;
                          l_created_at := l_created_at l;
                          l_updated_at := now |}) in *.
  set (d' := set_shopping_lists _ d) in Hupd.
  assert (HR' : Ready {| dbInstance := Some d' |} d')
    by (apply (ready_after w d d' HR); reflexivity).
  eexists _, _. repeat apply conj.
  - exact Hupd.
  - now rewrite Hid.
  - exact Hid.
  - rewrite (list_getById_ready {| dbInstance := Some d' |} d' id eq_refl Ht).
    cbn [d' shopping_lists set_shopping_lists].
    rewrite (find_update_same l_id upd id) by reflexivity.
    now rewrite Hrow.
  - intros id' Hne.
    rewrite (list_getById_ready {| dbInstance := Some d' |} d' id' eq_refl Ht),
            (list_getById_ready w d id' Hdb Ht).
    cbn [d' shopping_lists set_shopping_lists fst].
    now rewrite (find_update_other l_id upd id id') by (reflexivity || exact Hne).
  - intros listId.
    now rewrite (item_getByListId_ready _ d' listId HR'),
                (item_getByListId_ready w d listId HR).
Qed.

(** X8. [deleteList] of a stored list removes the list and, through the
    foreign key, every item of it: afterwards [getById] of the id finds
    nothing, [getByListId] of it is empty and its count is 0, while
    every other list and the items of every other list read as
    before. *)
Theorem list_delete_cascades :
  forall (w : World) (d : SQLiteDatabase) (id : jsstring) (L0 : ShoppingList),
    Ready w d ->
    ShoppingListsService.getById id w = (inr (Some L0), w) ->
    exists w' : World,
      ShoppingListsService.deleteList id w = (inr tt, w')
      /\ ShoppingListsService.getById id w' = (inr None, w')
      /\ ShoppingItemsService.getByListId id w' = (inr [], w')
      /\ ShoppingItemsService.countByListId id w' = (inr 0%Z, w')
      /\ (forall id', id' <> id ->
            fst (ShoppingListsService.getById id' w')
            = fst (ShoppingListsService.getById id' w)
            /\ fst (ShoppingItemsService.getByListId id' w')
               = fst (ShoppingItemsService.getByListId id' w)).
Proof.
  intros w d id L0 HR Hget.
  pose proof HR as (Hdb & Ht & Hfk).
  rewrite (list_getById_ready w d id Hdb Ht) in Hget.
  destruct (find _ (shopping_lists d)) as [row|] eqn:Hrow;
    cbn in Hget; [|discriminate].
  pose proof (list_delete_ready w d id HR) as Hdel. rewrite Hrow in Hdel.
  set (d' := set_shopping_items _ _) in Hdel.
  assert (HR' : Ready {| dbInstance := Some d' |} d')
    by (apply (ready_after w d d' HR); reflexivity).
  eexists. repeat apply conj.
  - exact Hdel.
  - rewrite (list_getById_ready {| dbInstance := Some d' |} d' id eq_refl Ht).
    cbn [d' shopping_lists set_shopping_lists set_shopping_items].
    now rewrite (find_removed l_id).
  - rewrite (item_getByListId_ready _ d' id HR').
    cbn [d' shopping_items set_shopping_items].
    now rewrite (filter_removed i_list_id).
  - rewrite (item_countByListId_ready _ d' id HR').
    cbn [d' shopping_items set_shopping_items].
    now rewrite (filter_removed i_list_id).
  - intros id' Hne. split.
    + rewrite (list_getById_ready {| dbInstance := Some d' |} d' id' eq_refl Ht),
              (list_getById_ready w d id' Hdb Ht).
      cbn [d' shopping_lists set_shopping_lists set_shopping_items fst].
      now rewrite (find_remove_other l_id id id').
    + rewrite (item_getByListId_ready _ d' id' HR'),
              (item_getByListId_ready w d id' HR).
      cbn [d' shopping_items set_shopping_items fst].
      now rewrite (filter_remove_other i_list_id id id').
Qed.

(** X9. An id that no row has is answered with a NotFoundError that
    carries the id, and the store is left as it was: by [deleteList],
    and by [update] of a list once the new name is valid, with the
    message 'Shopping list not found: ' followed by the id; by
    [toggleComplete] and [deleteItem], and by [update] of an item once
    the new text is valid, with 'Shopping item not found'; and by
    [create] of an item for a list that is not stored, with 'Shopping
    list not found' on 'listId'. *)
Theorem absent_id_is_not_found :
  forall (w : World) (d : SQLiteDatabase) (id name text uuid : jsstring) (now : Z),
    Ready w d ->
    ~ invalid_text 100 name ->
    ~ invalid_text 500 text ->
    ~ In id (list_ids d) ->
    ~ In id (item_ids d) ->
    ShoppingListsService.deleteList id w
    = (inl (NotFoundError (js "Shopping list not found: " ++ id)
                          (js "ShoppingList") id), w)
    /\ ShoppingListsService.update id {| update_list_name_to := name |} now w
       = (inl (NotFoundError (js "Shopping list not found: " ++ id)
                             (js "ShoppingList") id), w)
    /\ ShoppingItemsService.create
         {| create_item_listId := id; create_item_text := text |} uuid now w
       = (inl (NotFoundError (js "Shopping list not found") (js "listId") id), w)
    /\ ShoppingItemsService.update id {| update_item_text_to := text |} now w
       = (inl (NotFoundError (js "Shopping item not found") (js "id") id), w)
    /\ ShoppingItemsService.toggleComplete id now w
       = (inl (NotFoundError (js "Shopping item not found") (js "id") id), w)
    /\ ShoppingItemsService.deleteItem id w
       = (inl (NotFoundError (js "Shopping item not found") (js "id") id), w).
Proof.
  intros w d id name text uuid now HR Hname Htext Hl Hi.
  pose proof (find_none_id l_id id (shopping_lists d) Hl) as Hfl.
  pose proof (find_none_id i_id id (shopping_items d) Hi) as Hfi.
  repeat apply conj.
  - rewrite (list_delete_ready w d id HR). now rewrite Hfl.
  - exact (list_update_absent w d id name now HR Hname Hl).
  - exact (item_create_absent_list w d id text uuid now HR Htext Hl).
  - exact (item_update_absent w d id text now HR Htext Hi).
  - rewrite (item_toggle_ready w d id now HR). now rewrite Hfi.
  - rewrite (item_delete_ready w d id HR). now rewrite Hfi.
Qed.

(** ** Listings after a change *)

Section OrderByChanges.
Variable A : Type.
Variable key : A -> Z.

Lemma insert_sorted_map (dir : Direction) (f : A -> A) (x : A) (l : list A) :
  (forall y, key (f y) = key y) ->
  insert_sorted key dir (f x) (List.map f l)
  = List.map f (insert_sorted key dir x l).
Proof.
  intros Hk. induction l as [|y l IH]; simpl; [reflexivity|].
  unfold before. rewrite !Hk.
  fold (before key dir x y). destruct (before key dir x y); simpl; [reflexivity|].
  now rewrite IH.
Qed.

(** Changing rows without changing the key leaves each row in place. *)
Lemma order_by_map (dir : Direction) (f : A -> A) (l : list A) :
  (forall y, key (f y) = key y) ->
  order_by key dir (List.map f l) = List.map f (order_by key dir l).
Proof.
  intros Hk. induction l as [|x l IH]; simpl; [reflexivity|].
  now rewrite IH, insert_sorted_map.
Qed.

Lemma before_trans (dir : Direction) (x y z : A) :
  before key dir x y = true -> in_order key dir y z -> before key dir x z = true.
Proof.
  unfold before, in_order. destruct dir; intros H1 H2;
    apply Z.leb_le; apply Z.leb_le in H1; lia.
Qed.

Lemma insert_sorted_filter (dir : Direction) (p : A -> bool) (x : A) (l : list A) :
  StronglySorted (in_order key dir) l ->
  filter p (insert_sorted key dir x l)
  = if p x then insert_sorted key dir x (filter p l) else filter p l.
Proof.
  induction 1 as [|y l Hl IH Hy]; simpl.
  - now destruct (p x).
  - destruct (before key dir x y) eqn:E; simpl.
    + destruct (p x) eqn:Px; [|reflexivity].
      destruct (p y) eqn:Py; simpl; [now rewrite E|].
      destruct (filter p l) as [|z s] eqn:F; [reflexivity|]. simpl.
      assert (Hz : In z l).
      { apply (proj1 (filter_In p z l)). rewrite F. now left. }
      rewrite Forall_forall in Hy.
      now rewrite (before_trans dir x y z E (Hy z Hz)).
    + rewrite IH. destruct (p y) eqn:Py; destruct (p x) eqn:Px; simpl;
        try reflexivity.
      now rewrite E.
Qed.

(** Removing rows leaves the others in the order they had. *)
Lemma order_by_filter (dir : Direction) (p : A -> bool) (l : list A) :
  order_by key dir (filter p l) = filter p (order_by key dir l).
Proof.
  induction l as [|x l IH]; simpl; [reflexivity|].
  rewrite insert_sorted_filter by apply order_by_sorted.
  destruct (p x); simpl; now rewrite IH.
Qed.

Lemma insert_sorted_snoc (x y : A) (s : list A) :
  (key y <= key x)%Z ->
  insert_sorted key ASC y (s ++ [x]) = insert_sorted key ASC y s ++ [x].
Proof.
  intros Hle. induction s as [|z s IH]; simpl.
  - unfold before. now replace (key y <=? key x)%Z with true
      by (symmetry; apply Z.leb_le; exact Hle).
  - destruct (key y <=? key z)%Z; simpl; [reflexivity|]. now rewrite IH.
Qed.

(** A row added with a key no smaller than any other comes last in
    ascending order. *)
Lemma order_by_snoc_asc (x : A) (l : list A) :
  Forall (fun y => (key y <= key x)%Z) l ->
  order_by key ASC (l ++ [x]) = order_by key ASC l ++ [x].
Proof.
  induction 1 as [|y l Hy Hl IH]; simpl; [reflexivity|].
  now rewrite IH, insert_sorted_snoc.
Qed.

(** A row added with a key greater than any other comes first in
    descending order. *)
Lemma order_by_snoc_desc (x : A) (l : list A) :
  Forall (fun y => (key y < key x)%Z) l ->
  order_by key DESC (l ++ [x]) = x :: order_by key DESC l.
Proof.
  induction 1 as [|y l Hy Hl IH]; simpl; [reflexivity|].
  rewrite IH. simpl. unfold before.
  now replace (key x <=? key y)%Z with false
    by (symmetry; apply Z.leb_gt; exact Hy).
Qed.

End OrderByChanges.

Lemma filter_map_commute {A B} (f : A -> B) (q : B -> bool) (l : list A) :
  filter q (List.map f l) = List.map f (filter (fun x => q (f x)) l).
Proof.
  induction l as [|x l IH]; simpl; [reflexivity|].
  destruct (q (f x)); simpl; now rewrite IH.
Qed.

Lemma filter_update_commute {A} (p : A -> bool) (f : A -> A) (l : list A) :
  (forall x, p (f x) = p x) ->
  filter p (List.map f l) = List.map f (filter p l).
Proof.
  intros Hp. rewrite filter_map_commute. f_equal. apply filter_ext.
  exact Hp.
Qed.

Lemma filter_swap {A} (p q : A -> bool) (l : list A) :
  filter p (filter q l) = filter q (filter p l).
Proof.
  rewrite !filter_filter. apply filter_ext. intros x. apply andb_comm.
Qed.

Lemma filter_snoc {A} (p : A -> bool) (l : list A) (x : A) :
  filter p (l ++ [x]) = if p x then filter p l ++ [x] else filter p l.
Proof.
  rewrite filter_app. simpl. destruct (p x); [reflexivity|apply app_nil_r].
Qed.

Lemma listing_after_update (w : World) (d : SQLiteDatabase)
      (upd : ShoppingItemRow -> ShoppingItemRow) (f : ShoppingItem -> ShoppingItem)
      (id listId : jsstring) :
  Ready w d ->
  (forall i, i_id (upd i) = i_id i) ->
  (forall i, i_list_id (upd i) = i_list_id i) ->
  (forall i, i_created_at (upd i) = i_created_at i) ->
  (forall i, In i (shopping_items d) -> i_id i = id ->
             ShoppingItemsService.of_row (upd i)
             = f (ShoppingItemsService.of_row i)) ->
  exists items,
    ShoppingItemsService.getByListId listId w = (inr items, w)
    /\ ShoppingItemsService.getByListId listId
         {| dbInstance := Some (items_updated upd id d) |}
       = (inr (replace_item id f items),
          {| dbInstance := Some (items_updated upd id d) |}).
Proof.
  intros HR Hid Hlist Hkey Hrow.
  assert (HR' : Ready {| dbInstance := Some (items_updated upd id d) |}
                      (items_updated upd id d))
    by (apply (ready_after w d _ HR); reflexivity).
  eexists. split; [exact (item_getByListId_ready w d listId HR)|].
  rewrite (item_getByListId_ready _ _ listId HR'). f_equal. f_equal.
  unfold items_updated, replace_item. cbn [shopping_items set_shopping_items].
  set (g := fun i => if jsstring_eqb (i_id i) id then upd i else i).
  rewrite (filter_update_commute
             (fun i => jsstring_eqb (i_list_id i) listId) g)
    by (intros i; unfold g; destruct (jsstring_eqb (i_id i) id);
        [now rewrite Hlist|reflexivity]).
  rewrite (order_by_map _ i_created_at ASC g)
    by (intros i; unfold g; destruct (jsstring_eqb (i_id i) id);
        [apply Hkey|reflexivity]).
  rewrite !List.map_map. apply map_ext_in. intros i Hi. unfold g.
  cbn [ShoppingItemsService.of_row item_id].
  destruct (jsstring_eqb (i_id i) id) eqn:E; [|reflexivity].
  apply Hrow; [|now apply jsstring_eqb_eq].
  apply (Permutation_in _ (order_by_perm _ i_created_at ASC _)) in Hi.
  now apply filter_In in Hi.
Qed.

Lemma listing_after_delete (w : World) (d : SQLiteDatabase) (id listId : jsstring) :
  Ready w d ->
  let d' := set_shopping_items
              (filter (fun i => negb (jsstring_eqb (i_id i) id))
                      (shopping_items d)) d in
  exists items,
    ShoppingItemsService.getByListId listId w = (inr items, w)
    /\ ShoppingItemsService.getByListId listId {| dbInstance := Some d' |}
       = (inr (without_item id items), {| dbInstance := Some d' |}).
Proof.
  intros HR d'.
  assert (HR' : Ready {| dbInstance := Some d' |} d')
    by (apply (ready_after w d _ HR); reflexivity).
  eexists. split; [exact (item_getByListId_ready w d listId HR)|].
  rewrite (item_getByListId_ready _ _ listId HR'). f_equal. f_equal.
  unfold without_item. cbn [d' shopping_items set_shopping_items].
  rewrite filter_swap, order_by_filter.
  now rewrite (filter_map_commute ShoppingItemsService.of_row).
Qed.

Lemma lists_after_item_change (w : World) (d : SQLiteDatabase)
      (rows : list ShoppingItemRow) :
  Ready w d ->
  fst (ShoppingListsService.getAll
         {| dbInstance := Some (set_shopping_items rows d) |})
  = fst (ShoppingListsService.getAll w).
Proof.
  intros HR.
  assert (HR' : Ready {| dbInstance := Some (set_shopping_items rows d) |}
                      (set_shopping_items rows d))
    by (apply (ready_after w d _ HR); reflexivity).
  now rewrite (list_getAll_ready _ _ HR'), (list_getAll_ready w d HR).
Qed.

Lemma item_found (w : World) (d : SQLiteDatabase) (id : jsstring)
      (item : ShoppingItem) :
  Ready w d ->
  ShoppingItemsService.getById id w = (inr (Some item), w) ->
  exists row, find (fun i => jsstring_eqb (i_id i) id) (shopping_items d) = Some row
              /\ item = ShoppingItemsService.of_row row
              /\ i_id row = id.
Proof.
  intros (Hdb & Ht & _) Hget.
  rewrite (item_getById_ready w d id Hdb Ht) in Hget.
  destruct (find _ (shopping_items d)) as [row|] eqn:Hrow;
    cbn in Hget; [|discriminate].
  exists row. repeat apply conj; [reflexivity|congruence|].
  exact (proj1 (find_some_id i_id id _ row Hrow)).
Qed.

Lemma items_updated_getById (w : World) (d : SQLiteDatabase)
      (upd : ShoppingItemRow -> ShoppingItemRow) (id : jsstring) :
  Ready w d ->
  (forall i, i_id (upd i) = i_id i) ->
  let w' := {| dbInstance := Some (items_updated upd id d) |} in
  ShoppingItemsService.getById id w'
  = (inr (option_map ShoppingItemsService.of_row
            (option_map upd
               (find (fun i => jsstring_eqb (i_id i) id) (shopping_items d)))),
     w')
  /\ forall id', id' <> id ->
       fst (ShoppingItemsService.getById id' w')
       = fst (ShoppingItemsService.getById id' w).
Proof.
  intros (Hdb & Ht & _) Hid w'. split.
  - rewrite (item_getById_ready w' (items_updated upd id d) id eq_refl Ht).
    unfold items_updated. cbn [shopping_items set_shopping_items].
    now rewrite (find_update_same i_id upd id _ Hid).
  - intros id' Hne.
    rewrite (item_getById_ready w' (items_updated upd id d) id' eq_refl Ht),
            (item_getById_ready w d id' Hdb Ht).
    unfold items_updated. cbn [shopping_items set_shopping_items fst].
    now rewrite (find_update_other i_id upd id id' _ Hid Hne).
Qed.

(** X10. [update] of a stored item with a text of 1 to 500 code units
    after trimming, and without a lone surrogate, returns the item
    with the trimmed text and the new
    [updatedAt] and nothing else changed; [getById] then reads exactly
    that; every listing is the listing of before with that item
    replaced in place; every other item and the lists read as
    before. *)
Theorem item_update_then_read :
  forall (w : World) (d : SQLiteDatabase) (id text : jsstring) (now : Z)
         (I0 : ShoppingItem),
    Ready w d ->
    ~ invalid_text 500 text ->
    isWellFormed text = true ->
    ShoppingItemsService.getById id w = (inr (Some I0), w) ->
    exists w' : World,
      ShoppingItemsService.update id {| update_item_text_to := text |} now w
      = (inr (item_edited (trim text) now I0), w')
      /\ ShoppingItemsService.getById id w'
         = (inr (Some (item_edited (trim text) now I0)), w')
      /\ (forall id', id' <> id ->
            fst (ShoppingItemsService.getById id' w')
            = fst (ShoppingItemsService.getById id' w))
      /\ (forall listId, exists items,
             ShoppingItemsService.getByListId listId w = (inr items, w)
             /\ ShoppingItemsService.getByListId listId w'
                = (inr (replace_item id (item_edited (trim text) now) items), w'))
      /\ fst (ShoppingListsService.getAll w') = fst (ShoppingListsService.getAll w).
Proof.
  intros w d id text now I0 HR Hvalid _ Hget.
  destruct (item_found w d id I0 HR Hget) as (row & Hrow & -> & Hid).
  pose proof (item_update_ready w d id {| update_item_text_to := text |} now HR)
    as Hupd.
  cbn [update_item_text_to] in Hupd.
  rewrite (validateItemText_valid text Hvalid), Hrow in Hupd.
  destruct (items_updated_getById w d (with_text (trim text) now) id HR
              (fun _ => eq_refl)) as [Hsame Hother].
  rewrite Hrow in Hsame.
  eexists. repeat apply conj.
  - exact Hupd.
  - exact Hsame.
  - exact Hother.
  - intros listId.
    exact (listing_after_update w d (with_text (trim text) now)
             (item_edited (trim text) now) id listId HR
             (fun _ => eq_refl) (fun _ => eq_refl) (fun _ => eq_refl)
             (fun _ _ _ => eq_refl)).
  - exact (lists_after_item_change w d _ HR).
Qed.

Lemma unique_row {A} (proj : A -> jsstring) (id : jsstring) (l : list A)
      (row x : A) :
  NoDup (List.map proj l) ->
  find (fun y => jsstring_eqb (proj y) id) l = Some row ->
  In x l -> proj x = id -> x = row.
Proof.
  induction l as [|y l IH]; simpl; [discriminate|].
  intros Hnd Hfind Hin Hx. inversion Hnd as [|? ? Hy Hl]; subst.
  destruct (jsstring_eqb (proj y) (proj x)) eqn:E.
  - injection Hfind as <-. destruct Hin as [Hin|Hin]; [now symmetry|].
    apply jsstring_eqb_eq in E. exfalso. apply Hy. rewrite E.
    now apply in_map.
  - destruct Hin as [Hin|Hin].
    + subst y. now rewrite jsstring_eqb_refl in E.
    + now apply IH.
Qed.

(** X11. In a store where no two items share an id, [toggleComplete]
    of a stored item returns the item with the flag negated and the new
    [updatedAt] and nothing else changed; [getById] then reads exactly
    that; every listing is the listing of before with that item
    replaced in place; every other item and the lists read as
    before. *)
Theorem item_toggle_then_read :
  forall (w : World) (d : SQLiteDatabase) (id : jsstring) (now : Z)
         (I0 : ShoppingItem),
    Ready w d ->
    NoDup (item_ids d) ->
    ShoppingItemsService.getById id w = (inr (Some I0), w) ->
    exists w' : World,
      ShoppingItemsService.toggleComplete id now w
      = (inr (item_toggled now I0), w')
      /\ ShoppingItemsService.getById id w' = (inr (Some (item_toggled now I0)), w')
      /\ (forall id', id' <> id ->
            fst (ShoppingItemsService.getById id' w')
            = fst (ShoppingItemsService.getById id' w))
      /\ (forall listId, exists items,
             ShoppingItemsService.getByListId listId w = (inr items, w)
             /\ ShoppingItemsService.getByListId listId w'
                = (inr (replace_item id (item_toggled now) items), w'))
      /\ fst (ShoppingListsService.getAll w') = fst (ShoppingListsService.getAll w).
Proof.
  intros w d id now I0 HR Hnd Hget.
  destruct (item_found w d id I0 HR Hget) as (row & Hrow & -> & Hid).
  pose proof (item_toggle_ready w d id now HR) as Htog.
  rewrite Hrow in Htog. cbv zeta in Htog.
  set (flag := ShoppingItemsService.bit
                 (negb (ShoppingItemsService.Boolean (i_completed row)))) in *.
  assert (Hrow' : ShoppingItemsService.of_row (with_completed flag now row)
                  = item_toggled now (ShoppingItemsService.of_row row)).
  { unfold ShoppingItemsService.of_row, item_toggled, with_completed, flag.
    cbn. now rewrite Boolean_bit. }
  destruct (items_updated_getById w d (with_completed flag now) id HR
              (fun _ => eq_refl)) as [Hsame Hother].
  rewrite Hrow in Hsame. cbn [option_map] in Hsame.
  rewrite Hrow' in Htog, Hsame.
  eexists. repeat apply conj.
  - exact Htog.
  - exact Hsame.
  - exact Hother.
  - intros listId.
    apply (listing_after_update w d (with_completed flag now)
             (item_toggled now) id listId HR
             (fun _ => eq_refl) (fun _ => eq_refl) (fun _ => eq_refl)).
    intros i Hi Hi'.
    now rewrite (unique_row i_id id (shopping_items d) row i Hnd Hrow Hi Hi').
  - exact (lists_after_item_change w d _ HR).
Qed.

(** X12. [deleteItem] of a stored item removes that item and nothing
    else: afterwards [getById] of the id finds nothing, every listing
    is the listing of before without it, in the same order, and every
    other item and the lists read as before. *)
Theorem item_delete_then_read :
  forall (w : World) (d : SQLiteDatabase) (id : jsstring) (I0 : ShoppingItem),
    Ready w d ->
    ShoppingItemsService.getById id w = (inr (Some I0), w) ->
    exists w' : World,
      ShoppingItemsService.deleteItem id w = (inr tt, w')
      /\ ShoppingItemsService.getById id w' = (inr None, w')
      /\ (forall id', id' <> id ->
            fst (ShoppingItemsService.getById id' w')
            = fst (ShoppingItemsService.getById id' w))
      /\ (forall listId, exists items,
             ShoppingItemsService.getByListId listId w = (inr items, w)
             /\ ShoppingItemsService.getByListId listId w'
                = (inr (without_item id items), w'))
      /\ fst (ShoppingListsService.getAll w') = fst (ShoppingListsService.getAll w).
Proof.
  intros w d id I0 HR Hget.
  destruct (item_found w d id I0 HR Hget) as (row & Hrow & _ & _).
  pose proof HR as (Hdb & Ht & _).
  pose proof (item_delete_ready w d id HR) as Hdel. rewrite Hrow in Hdel.
  set (d' := set_shopping_items _ d) in Hdel.
  eexists. repeat apply conj.
  - exact Hdel.
  - rewrite (item_getById_ready {| dbInstance := Some d' |} d' id eq_refl Ht).
    cbn [d' shopping_items set_shopping_items].
    now rewrite (find_removed i_id).
  - intros id' Hne.
    rewrite (item_getById_ready {| dbInstance := Some d' |} d' id' eq_refl Ht),
            (item_getById_ready w d id' Hdb Ht).
    cbn [d' shopping_items set_shopping_items fst].
    now rewrite (find_remove_other i_id id id').
  - intros listId. exact (listing_after_delete w d id listId HR).
  - exact (lists_after_item_change w d _ HR).
Qed.

(** X13. [deleteByListId] resolves with the number of items the list
    had, which is what [countByListId] answered before; afterwards the
    list has no items, while the items of every other list and the
    lists themselves, the emptied one included, read as before. *)
Theorem deleteByListId_empties_one_list :
  forall (w : World) (d : SQLiteDatabase) (listId : jsstring),
    Ready w d ->
    exists (n : Z) (w' : World),
      ShoppingItemsService.deleteByListId listId w = (inr n, w')
      /\ ShoppingItemsService.countByListId listId w = (inr n, w)
      /\ ShoppingItemsService.getByListId listId w' = (inr [], w')
      /\ ShoppingItemsService.countByListId listId w' = (inr 0%Z, w')
      /\ (forall listId', listId' <> listId ->
            fst (ShoppingItemsService.getByListId listId' w')
            = fst (ShoppingItemsService.getByListId listId' w))
      /\ fst (ShoppingListsService.getAll w') = fst (ShoppingListsService.getAll w).
Proof.
  intros w d listId HR.
  pose proof (item_deleteByListId_ready w d listId HR) as Hdel.
  set (d' := set_shopping_items _ d) in Hdel.
  assert (HR' : Ready {| dbInstance := Some d' |} d')
    by (apply (ready_after w d d' HR); reflexivity).
  eexists _, _. repeat apply conj.
  - exact Hdel.
  - exact (item_countByListId_ready w d listId HR).
  - rewrite (item_getByListId_ready _ d' listId HR').
    cbn [d' shopping_items set_shopping_items].
    now rewrite (filter_removed i_list_id).
  - rewrite (item_countByListId_ready _ d' listId HR').
    cbn [d' shopping_items set_shopping_items].
    now rewrite (filter_removed i_list_id).
  - intros listId' Hne.
    rewrite (item_getByListId_ready _ d' listId' HR'),
            (item_getByListId_ready w d listId' HR).
    cbn [d' shopping_items set_shopping_items fst].
    now rewrite (filter_remove_other i_list_id listId listId').
  - exact (lists_after_item_change w d _ HR).
Qed.

(** X14. [create] of an item with a text of 1 to 500 code units after
    trimming, and without a lone surrogate, for a stored list, stores
    the item it returns: the
    trimmed text, not completed, both timestamps the clock reading.
    [getById] of the new id reads it back and every other id reads as
    before; when the clock reading is later than the creation of every
    item of the list, the listing of the list is the one of before with
    the new item at the end; the listings of the other lists are as
    before. *)
Theorem item_create_then_read :
  forall (w : World) (d : SQLiteDatabase) (listId text uuid : jsstring) (now : Z),
    Ready w d ->
    ~ invalid_text 500 text ->
    isWellFormed text = true ->
    In listId (list_ids d) ->
    ~ In uuid (item_ids d) ->
    exists (I : ShoppingItem) (w' : World),
      ShoppingItemsService.create
        {| create_item_listId := listId; create_item_text := text |} uuid now w
      = (inr I, w')
      /\ I = {| item_id := uuid; item_listId := listId; item_text := trim text;
                item_completed := false; item_createdAt := now;
                item_updatedAt := now |}
      /\ ShoppingItemsService.getById uuid w' = (inr (Some I), w')
      /\ (forall id', id' <> uuid ->
            fst (ShoppingItemsService.getById id' w')
            = fst (ShoppingItemsService.getById id' w))
      /\ (exists items,
             ShoppingItemsService.getByListId listId w = (inr items, w)
             /\ (Forall (fun item => (item_createdAt item < now)%Z) items ->
                 ShoppingItemsService.getByListId listId w'
                 = (inr (items ++ [I]), w')))
      /\ (forall listId', listId' <> listId ->
            fst (ShoppingItemsService.getByListId listId' w')
            = fst (ShoppingItemsService.getByListId listId' w)).
Proof.
  intros w d listId text uuid now HR Hvalid _ Hlist Hfresh.
  pose proof HR as (Hdb & Ht & _).
  pose proof (item_create_ready w d
                {| create_item_listId := listId; create_item_text := text |}
                uuid now HR) as Hcr.
  cbn [create_item_listId create_item_text] in Hcr.
  rewrite (validateItemText_valid text Hvalid),
          (existsb_id_true l_id listId _ Hlist),
          (existsb_id_false i_id uuid _ Hfresh) in Hcr.
  set (row := {| i_id := uuid; i_list_id := listId; i_text := trim text;
                 i_completed := 0; i_created_at := now; i_updated_at := now |})
    in Hcr.
  set (d' := set_shopping_items _ d) in Hcr.
  assert (HR' : Ready {| dbInstance := Some d' |} d')
    by (apply (ready_after w d d' HR); reflexivity).
  eexists _, _. repeat apply conj.
  - exact Hcr.
  - reflexivity.
  - rewrite (item_getById_ready {| dbInstance := Some d' |} d' uuid eq_refl Ht).
    cbn [d' shopping_items set_shopping_items].
    now rewrite (find_app_fresh i_id uuid _ row Hfresh eq_refl).
  - intros id' Hne.
    rewrite (item_getById_ready {| dbInstance := Some d' |} d' id' eq_refl Ht),
            (item_getById_ready w d id' Hdb Ht).
    cbn [d' shopping_items set_shopping_items fst].
    rewrite find_app_miss; [reflexivity|].
    apply jsstring_eqb_neq. cbn. congruence.
  - eexists. split; [exact (item_getByListId_ready w d listId HR)|].
    intros Hlater.
    rewrite (item_getByListId_ready _ d' listId HR').
    cbn [d' shopping_items set_shopping_items].
    rewrite filter_snoc. cbn [row i_list_id]. rewrite jsstring_eqb_refl.
    rewrite order_by_snoc_asc.
    + now rewrite List.map_app.
    + apply Forall_forall. intros i Hi.
      rewrite Forall_forall in Hlater.
      assert (Hin : In (ShoppingItemsService.of_row i)
                       (List.map ShoppingItemsService.of_row
                          (order_by i_created_at ASC
                             (filter (fun i => jsstring_eqb (i_list_id i) listId)
                                     (shopping_items d))))).
      { apply in_map.
        exact (Permutation_in _ (Permutation_sym (order_by_perm _ _ _ _)) Hi). }
      specialize (Hlater _ Hin). cbn in Hlater. cbn. lia.
  - intros listId' Hne.
    rewrite (item_getByListId_ready _ d' listId' HR'),
            (item_getByListId_ready w d listId' HR).
    cbn [d' shopping_items set_shopping_items fst].
    rewrite filter_snoc. cbn [row i_list_id].
    now replace (jsstring_eqb listId listId') with false
      by (symmetry; apply jsstring_eqb_neq; congruence).
Qed.

(** X15. The counts are the lengths of the listings: [count] answers
    the number of lists [getAll] returns, and [countByListId] the
    number of items [getByListId] returns for the list. *)
Theorem counts_agree_with_listings :
  forall (w : World) (d : SQLiteDatabase) (listId : jsstring),
    Ready w d ->
    (exists lists,
        ShoppingListsService.getAll w = (inr lists, w)
        /\ ShoppingListsService.count w = (inr (Z.of_nat (List.length lists)), w))
    /\ (exists items,
        ShoppingItemsService.getByListId listId w = (inr items, w)
        /\ ShoppingItemsService.countByListId listId w
           = (inr (Z.of_nat (List.length items)), w)).
Proof.
  intros w d listId HR. split; eexists; split.
  - exact (list_getAll_ready w d HR).
  - rewrite (list_count_ready w d HR), length_map.
    now rewrite (Permutation_length (order_by_perm _ _ _ _)).
  - exact (item_getByListId_ready w d listId HR).
  - rewrite (item_countByListId_ready w d listId HR), length_map.
    now rewrite (Permutation_length (order_by_perm _ _ _ _)).
Qed.

(** ** Failures of the store *)

(** X16. When the generated id is already the id of a stored row,
    [create] of a list and [create] of an item reject with the
    DatabaseError of the operation, whose cause is the error of the
    INSERT, and the stored rows stay as they were: the row that has the
    id is not overwritten. *)
Theorem create_with_taken_id_is_refused :
  forall (w : World) (d : SQLiteDatabase) (name listId text uuid : jsstring)
         (now : Z),
    Ready w d ->
    (List.length (trim name) <= 100)%nat ->
    ~ invalid_text 500 text ->
    In listId (list_ids d) ->
    (In uuid (list_ids d) ->
     exists cause,
       ShoppingListsService.create {| create_list_name := name |} uuid now w
       = (inl (DatabaseError (js "Failed to create shopping list") (Some cause)), w)
       /\ isDatabaseError cause = false)
    /\ (In uuid (item_ids d) ->
        exists cause,
          ShoppingItemsService.create
            {| create_item_listId := listId; create_item_text := text |} uuid now w
          = (inl (DatabaseError (js "Failed to create shopping item") (Some cause)), w)
          /\ isDatabaseError cause = false).
Proof.
  intros w d name listId text uuid now HR Hname Htext Hlist. split; intros Htaken.
  - rewrite (list_create_ready w d {| create_list_name := name |} uuid now HR).
    cbn [create_list_name]. rewrite (validateListName_lenient name Hname).
    cbv zeta. rewrite (existsb_id_true l_id uuid _ Htaken).
    eexists. split; reflexivity.
  - rewrite (item_create_ready w d _ uuid now HR).
    cbn [create_item_listId create_item_text].
    rewrite (validateItemText_valid text Htext),
            (existsb_id_true l_id listId _ Hlist),
            (existsb_id_true i_id uuid _ Htaken).
    eexists. split; reflexivity.
Qed.

Section Uninitialized.
Variable JSON_parse : jsstring -> option CustomColors.
Variable JSON_stringify : CustomColors -> jsstring.

Ltac refuse Hdb :=
  unfold refused; unfold_async; with_db Hdb;
  eexists; split; [reflexivity|];
  unfold not_initialized; eauto.

(** X18. Before [initializeDatabase] has run, or after
    [closeDatabase], every function of the three services rejects
    with a DatabaseError that is, or has as its cause, 'Database not
    initialized', whatever its arguments, and nothing else happens. *)
Theorem services_refuse_without_database :
  forall (w : World) (id uuid : jsstring) (now : Z)
         (ldto : CreateShoppingListDto) (lupd : UpdateShoppingListDto)
         (idto : CreateShoppingItemDto) (iupd : UpdateShoppingItemDto)
         (theme : UpdateThemeDto) (colors : UpdateCustomColorsDto),
    dbInstance w = None ->
    refused ShoppingListsService.getAll w
    /\ refused (ShoppingListsService.getById id) w
    /\ refused (ShoppingListsService.create ldto uuid now) w
    /\ refused (ShoppingListsService.update id lupd now) w
    /\ refused (ShoppingListsService.deleteList id) w
    /\ refused ShoppingListsService.count w
    /\ refused (ShoppingItemsService.getByListId id) w
    /\ refused (ShoppingItemsService.getById id) w
    /\ refused (ShoppingItemsService.create idto uuid now) w
    /\ refused (ShoppingItemsService.update id iupd now) w
    /\ refused (ShoppingItemsService.copy id uuid now) w
    /\ refused (ShoppingItemsService.toggleComplete id now) w
    /\ refused (ShoppingItemsService.deleteItem id) w
    /\ refused (ShoppingItemsService.countByListId id) w
    /\ refused (ShoppingItemsService.deleteByListId id) w
    /\ refused (SettingsService.getSettings JSON_parse) w
    /\ refused (SettingsService.updateTheme JSON_parse theme now) w
    /\ refused (SettingsService.updateCustomColors JSON_parse JSON_stringify
                  colors now) w
    /\ refused (SettingsService.resetToDefault JSON_parse now) w
    /\ refused DatabaseService.clearAllData w.
Proof.
  intros w id uuid now ldto lupd idto iupd theme colors Hdb.
  repeat apply conj.
  - unfold ShoppingListsService.getAll. refuse Hdb.
  - unfold ShoppingListsService.getById. refuse Hdb.
  - unfold ShoppingListsService.create. refuse Hdb.
  - unfold ShoppingListsService.update. refuse Hdb.
  - unfold ShoppingListsService.deleteList. refuse Hdb.
  - unfold ShoppingListsService.count. refuse Hdb.
  - unfold ShoppingItemsService.getByListId. refuse Hdb.
  - unfold ShoppingItemsService.getById. refuse Hdb.
  - unfold ShoppingItemsService.create. refuse Hdb.
  - unfold ShoppingItemsService.update. refuse Hdb.
  - unfold ShoppingItemsService.copy. refuse Hdb.
  - unfold ShoppingItemsService.toggleComplete. refuse Hdb.
  - unfold ShoppingItemsService.deleteItem. refuse Hdb.
  - unfold ShoppingItemsService.countByListId. refuse Hdb.
  - unfold ShoppingItemsService.deleteByListId. refuse Hdb.
  - unfold SettingsService.getSettings. refuse Hdb.
  - unfold SettingsService.updateTheme. refuse Hdb.
  - unfold SettingsService.updateCustomColors. refuse Hdb.
  - unfold SettingsService.resetToDefault. refuse Hdb.
  - unfold DatabaseService.clearAllData. refuse Hdb.
Qed.

End Uninitialized.

(** ** Settings *)

Section SettingsRoundTrips.
Variable JSON_parse : jsstring -> option CustomColors.
Variable JSON_stringify : CustomColors -> jsstring.

Lemma getSettings_after_write (w : World) (d : SQLiteDatabase)
      (upd : AppSettingsRow -> AppSettingsRow) (r : AppSettingsRow) :
  Ready w d ->
  app_settings d = [r] -> s_id r = 1%Z -> s_id (upd r) = 1%Z ->
  Ready {| dbInstance := Some (settings_updated upd d) |} (settings_updated upd d)
  /\ find (fun r => Z.eqb (s_id r) 1) (app_settings (settings_updated upd d))
     = Some (upd r).
Proof.
  intros HR Hrows Hid Hid'. split.
  - apply (ready_after w d _ HR); reflexivity.
  - unfold settings_updated. cbn [app_settings set_app_settings].
    rewrite Hrows. cbn. rewrite Hid. cbn. now rewrite Hid'.
Qed.

(** X19. [updateCustomColors] stores the colour map as JSON text under
    the theme 'custom' and returns the settings read back: provided
    [JSON.parse] gives back the map from the text [JSON.stringify]
    made of it, a text without a lone surrogate, the settings returned
    carry that map, the theme
    'custom' and the new [updatedAt], with [createdAt] as stored, and a
    later [getSettings] returns the same. *)
Theorem custom_colors_round_trip :
  forall (w : World) (d : SQLiteDatabase) (r : AppSettingsRow)
         (colors : CustomColors) (now : Z),
    Ready w d ->
    app_settings d = [r] -> s_id r = 1%Z ->
    JSON_stringify colors <> [] ->
    isWellFormed (JSON_stringify colors) = true ->
    JSON_parse (JSON_stringify colors) = Some colors ->
    exists w' : World,
      let stored := {| settings_id := 1; settings_themeId := js "custom";
                       settings_customColors := Some colors;
                       settings_createdAt := s_created_at r;
                       settings_updatedAt := now |} in
      SettingsService.updateCustomColors JSON_parse JSON_stringify
        {| update_customColors := colors |} now w = (inr stored, w')
      /\ SettingsService.getSettings JSON_parse w' = (inr stored, w').
Proof.
  intros w d r colors now HR Hrows Hid Hne _ Hparse.
  set (upd := fun r => {| s_id := s_id r; s_theme_id := js "custom";
                          s_custom_colors := Some (JSON_stringify colors);
                          s_created_at := s_created_at r;
                          s_updated_at := now |}).
  destruct (getSettings_after_write w d upd r HR Hrows Hid Hid) as [HR' Hfind].
  pose proof (getSettings_ready JSON_parse _ _ HR') as Hget.
  rewrite Hfind in Hget. cbn [upd s_custom_colors] in Hget.
  destruct (JSON_stringify colors) as [|c text] eqn:Ejson; [contradiction|].
  rewrite Hparse in Hget.
  unfold settings_of, upd in Hget.
  cbn [s_id s_theme_id s_created_at s_updated_at] in Hget.
  rewrite Hid in Hget.
  eexists. cbv zeta. split; [|exact Hget].
  rewrite (updateCustomColors_ready JSON_parse JSON_stringify w d _ now HR).
  cbn [update_customColors]. rewrite Ejson. exact Hget.
Qed.

(** X20. [resetToDefault] stores the theme 'default' and no colour map,
    whatever was stored and whether or not it could be read: it
    returns settings with the theme 'default', no custom colours and
    the new [updatedAt], and a later [getSettings] returns the same. *)
Theorem resetToDefault_always_recovers :
  forall (w : World) (d : SQLiteDatabase) (r : AppSettingsRow) (now : Z),
    Ready w d ->
    app_settings d = [r] -> s_id r = 1%Z ->
    exists w' : World,
      let stored := {| settings_id := 1; settings_themeId := js "default";
                       settings_customColors := None;
                       settings_createdAt := s_created_at r;
                       settings_updatedAt := now |} in
      SettingsService.resetToDefault JSON_parse now w = (inr stored, w')
      /\ SettingsService.getSettings JSON_parse w' = (inr stored, w').
Proof.
  intros w d r now HR Hrows Hid.
  set (upd := fun r => {| s_id := s_id r; s_theme_id := js "default";
                          s_custom_colors := None;
                          s_created_at := s_created_at r;
                          s_updated_at := now |}).
  destruct (getSettings_after_write w d upd r HR Hrows Hid Hid) as [HR' Hfind].
  pose proof (getSettings_ready JSON_parse _ _ HR') as Hget.
  rewrite Hfind in Hget. cbn [upd s_custom_colors] in Hget.
  unfold settings_of, upd in Hget.
  cbn [s_id s_theme_id s_created_at s_updated_at] in Hget.
  rewrite Hid in Hget.
  eexists. cbv zeta. split; [|exact Hget].
  rewrite (resetToDefault_ready JSON_parse w d now HR). exact Hget.
Qed.

(** X21. When the stored colour text is not JSON, [getSettings] rejects
    with the DatabaseError 'Failed to retrieve app settings' caused by
    the SyntaxError, and so does [updateTheme]; but [updateTheme] has
    then already written: the settings row carries the selected theme
    and the new [updated_at], the colour text as before. *)
Theorem updateTheme_writes_before_it_reads :
  forall (w : World) (d : SQLiteDatabase) (r : AppSettingsRow)
         (c : N) (text : jsstring) (theme : ThemePresetId) (now : Z),
    Ready w d ->
    app_settings d = [r] -> s_id r = 1%Z ->
    s_custom_colors r = Some (c :: text) ->
    JSON_parse (c :: text) = None ->
    let failure := DatabaseError (js "Failed to retrieve app settings")
                     (Some (SyntaxError (js "Unexpected token"))) in
    SettingsService.getSettings JSON_parse w = (inl failure, w)
    /\ exists d' : SQLiteDatabase,
        SettingsService.updateTheme JSON_parse {| update_themeId := theme |} now w
        = (inl failure, {| dbInstance := Some d' |})
        /\ app_settings d' = [{| s_id := 1; s_theme_id := theme_string theme;
                                 s_custom_colors := Some (c :: text);
                                 s_created_at := s_created_at r;
                                 s_updated_at := now |}]
        /\ shopping_lists d' = shopping_lists d
        /\ shopping_items d' = shopping_items d.
Proof.
  intros w d r c text theme now HR Hrows Hid Hcolors Hparse. cbv zeta. split.
  - rewrite (getSettings_ready JSON_parse w d HR), Hrows. cbn.
    rewrite Hid. cbn. now rewrite Hcolors, Hparse.
  - set (upd := fun r => {| s_id := s_id r; s_theme_id := theme_string theme;
                            s_custom_colors := s_custom_colors r;
                            s_created_at := s_created_at r;
                            s_updated_at := now |}).
    destruct (getSettings_after_write w d upd r HR Hrows Hid Hid) as [HR' Hfind].
    pose proof (getSettings_ready JSON_parse _ _ HR') as Hget.
    rewrite Hfind in Hget. cbn [upd s_custom_colors] in Hget.
    rewrite Hcolors, Hparse in Hget.
    exists (settings_updated upd d). repeat apply conj.
    + rewrite (updateTheme_ready JSON_parse w d _ now HR). exact Hget.
    + unfold settings_updated. cbn [app_settings set_app_settings].
      rewrite Hrows. cbn. rewrite Hid. cbn. unfold upd.
      now rewrite Hid, Hcolors.
    + reflexivity.
    + reflexivity.
Qed.

End SettingsRoundTrips.

(** ** Launching again *)

Ltac schema_leaf d Hdb :=
  cbn [snd];
  first [ exists d; split; [exact Hdb|now repeat split]
        | eexists; split; [reflexivity|now repeat split] ].

Ltac schema_cases d Hdb :=
  cbv zeta;
  repeat match goal with
         | |- context [match ?x with _ => _ end] => destruct x
         end;
  schema_leaf d Hdb.

Lemma perform_keeps_schema (parse : jsstring -> option CustomColors)
      (stringify : CustomColors -> jsstring) (op : Operation)
      (w : World) (d : SQLiteDatabase) :
  dbInstance w = Some d -> well_formed d ->
  exists d', dbInstance (perform parse stringify op w) = Some d'
             /\ same_schema d d'.
Proof.
  intros Hdb Hwf. pose proof (well_formed_ready w d Hdb Hwf) as HR.
  destruct op; cbn [perform].
  - rewrite (list_create_ready w d dto uuid now HR). schema_cases d Hdb.
  - rewrite (list_update_ready w d id dto now HR). schema_cases d Hdb.
  - rewrite (list_delete_ready w d id HR). schema_cases d Hdb.
  - rewrite (item_create_ready w d dto uuid now HR). schema_cases d Hdb.
  - rewrite (item_update_ready w d id dto now HR). schema_cases d Hdb.
  - rewrite (item_copy_ready w d id uuid now HR). schema_cases d Hdb.
  - rewrite (item_toggle_ready w d id now HR). schema_cases d Hdb.
  - rewrite (item_delete_ready w d id HR). schema_cases d Hdb.
  - rewrite (item_deleteByListId_ready w d listId HR). schema_cases d Hdb.
  - rewrite (updateTheme_ready parse w d dto now HR), getSettings_reads_only.
    schema_leaf d Hdb.
  - rewrite (updateCustomColors_ready parse stringify w d dto now HR),
            getSettings_reads_only.
    schema_leaf d Hdb.
  - rewrite (resetToDefault_ready parse w d now HR), getSettings_reads_only.
    schema_leaf d Hdb.
  - rewrite (clearAllData_ready w d HR). schema_leaf d Hdb.
Qed.

Lemma reached_schema (parse : jsstring -> option CustomColors)
      (stringify : CustomColors -> jsstring)
      (clk : DatabaseService.Clock) (ops : list Operation) :
  exists d0 d : SQLiteDatabase,
    dbInstance (first_launch clk) = Some d0
    /\ dbInstance (reached parse stringify clk ops) = Some d
    /\ well_formed d
    /\ same_schema d0 d.
Proof.
  unfold reached.
  destruct (launch_well_formed clk) as (d0 & Hdb0 & Hwf0).
  exists d0. fold (first_launch clk) in Hdb0.
  assert (Hgen : forall w d1, dbInstance w = Some d1 -> well_formed d1 ->
                              same_schema d0 d1 ->
                 exists d, dbInstance (perform_all parse stringify ops w) = Some d
                           /\ well_formed d /\ same_schema d0 d).
  { induction ops as [|op ops IH]; intros w d1 Hdb Hwf Hs.
    - exists d1. split; [exact Hdb|split; assumption].
    - cbn [perform_all fold_left].
      destruct (perform_keeps_schema parse stringify op w d1 Hdb Hwf)
        as (d2 & Hdb2 & Hs2).
      destruct (perform_well_formed parse stringify op w
                  (ex_intro _ d1 (conj Hdb Hwf))) as (d2' & Hdb2' & Hwf2).
      assert (d2' = d2) by congruence. subst d2'.
      apply (IH _ d2 Hdb2 Hwf2).
      destruct Hs as (? & ? & ? & ?), Hs2 as (? & ? & ? & ?).
      repeat split; congruence. }
  destruct (Hgen (first_launch clk) d0 Hdb0 Hwf0) as (d & Hdb & Hwf & Hs).
  - unfold same_schema. now repeat split.
  - exists d. split; [exact Hdb0|split; [exact Hdb|split; assumption]].
Qed.

Lemma set_foreign_keys_same (d : SQLiteDatabase) :
  foreign_keys d = true -> set_foreign_keys true d = d.
Proof. destruct d. cbn. now intros ->. Qed.

(** A file whose latest applied migration is the current one, or a
    later one, is opened and left as it is. *)
Lemma initializeDatabase_up_to_date (d : SQLiteDatabase)
      (clk : DatabaseService.Clock) (v : Z) :
  select_latest_version d = inr (Some v) ->
  (DatabaseService.CURRENT_SCHEMA_VERSION <= v)%Z ->
  DatabaseService.initializeDatabase d clk {| dbInstance := None |}
  = (inr (set_foreign_keys true d),
     {| dbInstance := Some (set_foreign_keys true d) |}).
Proof.
  intros Hv Hle. unfold DatabaseService.CURRENT_SCHEMA_VERSION in Hle.
  unfold select_latest_version in Hv.
  destruct (find_table "schema_version" d) as [t|] eqn:Ht; [|discriminate].
  unfold DatabaseService.initializeDatabase, DatabaseService.runMigrations,
    DatabaseService.openDatabaseAsync, DatabaseService.pragma_foreign_keys_on.
  cbn [execAsync]. unfold_async. cbn [dbInstance].
  unfold create_table_if_not_exists.
  change (find_table _ (set_foreign_keys true (set_foreign_keys false d)))
    with (find_table "schema_version" d).
  rewrite Ht. cbn [dbInstance].
  unfold select_latest_version.
  change (find_table _ (set_foreign_keys true (set_foreign_keys false d)))
    with (find_table "schema_version" d).
  rewrite Ht.
  change (schema_version (set_foreign_keys true (set_foreign_keys false d)))
    with (schema_version d).
  injection Hv as Hv. rewrite Hv.
  replace (v <? 1)%Z with false by (symmetry; apply Z.ltb_ge; lia).
  replace (v <? 2)%Z with false by (symmetry; apply Z.ltb_ge; lia).
  replace (v <? 3)%Z with false by (symmetry; apply Z.ltb_ge; lia).
  reflexivity.
Qed.

Lemma first_launch_schema (clk : DatabaseService.Clock) (d0 : SQLiteDatabase) :
  dbInstance (first_launch clk) = Some d0 ->
  tables d0 = current_tables
  /\ List.map v_version (schema_version d0) = [1; 2; 3]%Z.
Proof.
  intros H. vm_compute in H. injection H as <-. split; reflexivity.
Qed.

(** X22. In whatever state the application is after its first launch
    and any calls of the services, closing the connection and
    initializing again gives back the store as it was: the migrations
    find version 3 and run nothing, and every row is where it was. *)
Theorem relaunch_restores_the_store :
  forall (parse : jsstring -> option CustomColors)
         (stringify : CustomColors -> jsstring)
         (clk clk' : DatabaseService.Clock) (ops : list Operation),
  exists d : SQLiteDatabase,
    dbInstance (reached parse stringify clk ops) = Some d
    /\ DatabaseService.closeDatabase (reached parse stringify clk ops)
       = (inr tt, {| dbInstance := None |})
    /\ DatabaseService.initializeDatabase d clk' {| dbInstance := None |}
       = (inr d, {| dbInstance := Some d |}).
Proof.
  intros parse stringify clk clk' ops.
  destruct (reached_schema parse stringify clk ops)
    as (d0 & d & Hdb0 & Hdb & Hwf & Ht & _ & Hv & _).
  destruct (first_launch_schema clk d0 Hdb0) as [Ht0 Hv0].
  exists d. repeat apply conj.
  - exact Hdb.
  - unfold DatabaseService.closeDatabase. now rewrite Hdb.
  - rewrite (initializeDatabase_up_to_date d clk' 3).
    + now rewrite (set_foreign_keys_same d (wf_foreign_keys Hwf)).
    + unfold select_latest_version, find_table. rewrite Ht, Ht0, Hv.
      cbn [find current_tables].
      destruct (schema_version d0) as [|[v1 a1] [|[v2 a2] [|[v3 a3] [|]]]];
        try discriminate.
      injection Hv0 as -> -> ->. reflexivity.
    + reflexivity.
Qed.

(** X23. A file left by version 1 of the schema (the two tables
    without the [completed] column, one version row) is upgraded by
    [initializeDatabase]: migration V1 is skipped, V2 and V3 run. The
    lists are kept as they are; the items are kept, each not
    completed; the settings row is created with the theme 'default'
    and no colours; and the store is then the current schema with
    foreign keys on. *)
Theorem upgrade_from_version_1 :
  forall (file : SQLiteDatabase) (clk : DatabaseService.Clock) (applied : Z),
    tables file = [DatabaseService.schema_version_table;
                   DatabaseService.shopping_lists_table;
                   DatabaseService.shopping_items_table] ->
    schema_version file = [{| v_version := 1; v_applied_at := applied |}] ->
    app_settings file = [] ->
    exists d : SQLiteDatabase,
      DatabaseService.initializeDatabase file clk {| dbInstance := None |}
      = (inr d, {| dbInstance := Some d |})
      /\ Ready {| dbInstance := Some d |} d
      /\ shopping_lists d = shopping_lists file
      /\ shopping_items d
         = List.map (fun i => {| i_id := i_id i; i_list_id := i_list_id i;
                                 i_text := i_text i; i_completed := 0;
                                 i_created_at := i_created_at i;
                                 i_updated_at := i_updated_at i |})
                    (shopping_items file)
      /\ app_settings d
         = [{| s_id := 1; s_theme_id := js "default"; s_custom_colors := None;
               s_created_at := DatabaseService.at_v3_created clk;
               s_updated_at := DatabaseService.at_v3_updated clk |}]
      /\ List.map v_version (schema_version d) = [1; 2; 3]%Z
      /\ indexes d = indexes file.
Proof.
  intros [fk ts ixs vs lists items sets] clk applied Ht Hv Hs. cbn in Ht, Hv, Hs. subst.
  eexists. split; [vm_compute; reflexivity|].
  repeat apply conj; reflexivity.
Qed.

Lemma runAsync_keeps_open (stmt : SQLiteDatabase -> JsError + SQLiteDatabase)
      (w : World) :
  is_open w -> is_open (snd (runAsync stmt w)).
Proof.
  intros (d & Hdb). unfold runAsync. rewrite Hdb.
  destruct (stmt d) as [e|d']; cbn; [now exists d|now exists d'].
Qed.

Lemma execAsync_keeps_open
      (script : list (SQLiteDatabase -> JsError + SQLiteDatabase)) (w : World) :
  is_open w -> is_open (snd (execAsync script w)).
Proof.
  revert w. induction script as [|stmt script IH]; intros w Hw; [exact Hw|].
  cbn [execAsync]. unfold bind.
  pose proof (runAsync_keeps_open stmt w Hw) as Hstep.
  destruct (runAsync stmt w) as [[e|[]] w1]; cbn [snd] in *; [exact Hstep|].
  now apply IH.
Qed.

Lemma runMigrations_keeps_open (clk : DatabaseService.Clock) (w : World) :
  is_open w -> is_open (snd (DatabaseService.runMigrations clk w)).
Proof.
  intros Hw. unfold DatabaseService.runMigrations, try_catch.
  assert (Hbody : forall (A : Type) (m : M A) (k : A -> M unit) (w : World),
             is_open (snd (m w)) ->
             (forall a w1, is_open w1 -> is_open (snd (k a w1))) ->
             is_open (snd (bind m k w))).
  { intros A m k w0 Hm Hk. unfold bind.
    destruct (m w0) as [[e|a] w1]; cbn [snd] in *; [exact Hm|now apply Hk]. }
  match goal with
  | |- is_open (snd (match ?body w with _ => _ end)) =>
      assert (Hopen : is_open (snd (body w)))
  end.
  { apply Hbody; [now apply execAsync_keeps_open|]. intros _ w1 Hw1.
    apply Hbody.
    { unfold getFirstAsync. destruct Hw1 as (d1 & Hd1). rewrite Hd1.
      now exists d1. }
    intros result w2 Hw2.
    apply Hbody.
    { destruct (_ <? 1)%Z; [now apply execAsync_keeps_open|exact Hw2]. }
    intros _ w3 Hw3.
    apply Hbody.
    { destruct (_ <? 2)%Z; [now apply execAsync_keeps_open|exact Hw3]. }
    intros _ w4 Hw4.
    destruct (_ <? 3)%Z; [now apply execAsync_keeps_open|exact Hw4]. }
  match goal with
  | |- is_open (snd (match ?body w with _ => _ end)) =>
      destruct (body w) as [[e|[]] w1]; exact Hopen
  end.
Qed.

(** X24. When [initializeDatabase] rejects because a migration failed,
    the connection it opened stays assigned to [dbInstance]. A later
    call of [initializeDatabase] therefore resolves at once with that
    connection, whatever the file and the clock, and runs no
    migration. *)
Theorem failed_migration_leaves_connection :
  forall (file : SQLiteDatabase) (clk : DatabaseService.Clock)
         (cause : option JsError) (w' : World),
    DatabaseService.initializeDatabase file clk {| dbInstance := None |}
    = (inl (DatabaseError (js "Failed to initialize database")
              (Some (DatabaseError (js "Database migration failed") cause))),
       w') ->
    exists d : SQLiteDatabase,
      dbInstance w' = Some d
      /\ forall file' clk',
           DatabaseService.initializeDatabase file' clk' w' = (inr d, w').
Proof.
  intros file clk cause w' Hinit.
  assert (Hopen : is_open w').
  { revert Hinit.
    unfold DatabaseService.initializeDatabase, DatabaseService.openDatabaseAsync,
      DatabaseService.pragma_foreign_keys_on.
    cbn [execAsync]. unfold_async. cbn [dbInstance].
    pose proof (runMigrations_keeps_open clk
                  {| dbInstance :=
                       Some (set_foreign_keys true (set_foreign_keys false file)) |}
                  (ex_intro _ _ eq_refl)) as Hrun.
    destruct (DatabaseService.runMigrations clk _) as [[e|[]] w1];
      cbn [snd] in Hrun.
    - intros H. injection H as _ <-. exact Hrun.
    - destruct Hrun as (d1 & Hd1). rewrite Hd1. discriminate. }
  destruct Hopen as (d & Hdb). exists d. split; [exact Hdb|].
  intros file' clk'. unfold DatabaseService.initializeDatabase.
  unfold_async. now rewrite Hdb.
Qed.

(** X25. [clearAllData] on an initialized store resolves and removes
    every list and every item: afterwards [getAll] is empty, the count
    is 0 and every [getByListId] is empty. The settings are not
    touched: [getSettings] answers as before. *)
Theorem clearAllData_empties_lists_and_items :
  forall (parse : jsstring -> option CustomColors)
         (w : World) (d : SQLiteDatabase),
    Ready w d ->
    exists w' : World,
      DatabaseService.clearAllData w = (inr tt, w')
      /\ ShoppingListsService.getAll w' = (inr [], w')
      /\ ShoppingListsService.count w' = (inr 0%Z, w')
      /\ (forall listId,
             ShoppingItemsService.getByListId listId w' = (inr [], w'))
      /\ fst (SettingsService.getSettings parse w')
         = fst (SettingsService.getSettings parse w).
Proof.
  intros parse w d HR.
  set (d' := set_shopping_lists [] (set_shopping_items [] d)).
  assert (HR' : Ready {| dbInstance := Some d' |} d')
    by (apply (ready_after w d d' HR); reflexivity).
  exists {| dbInstance := Some d' |}. repeat apply conj.
  - exact (clearAllData_ready w d HR).
  - now rewrite (list_getAll_ready _ d' HR').
  - now rewrite (list_count_ready _ d' HR').
  - intros listId. now rewrite (item_getByListId_ready _ d' listId HR').
  - rewrite (getSettings_ready parse _ d' HR'),
            (getSettings_ready parse w d HR).
    cbn [d' app_settings set_shopping_lists set_shopping_items].
    destruct (find _ (app_settings d)) as [r|]; [|reflexivity].
    destruct (s_custom_colors r) as [[|c text]|]; try reflexivity.
    destruct (parse (c :: text)); reflexivity.
Qed.

(** ** The hooks and the store *)

(** X26. [fetchItems] and [fetchLists], and so [refresh], never
    reject. When the listing resolves the cache becomes the listing and
    the error is cleared; when it rejects the cache stays, and the
    error is the one thrown. Either way [isLoading] ends false, and one
    service call was made. *)
Theorem fetch_never_rejects :
  forall (listId : jsstring) (si : React.State ShoppingItem)
         (sl : React.State ShoppingList) (w : World),
    let ri := React.run (UseShoppingItems.refresh listId) si w in
    let rl := React.run UseShoppingLists.refresh sl w in
    (React.outcome ri = inr tt
     /\ React.isLoading (React.final ri) = false
     /\ React.world ri = snd (ShoppingItemsService.getByListId listId w)
     /\ React.calls ri = [React.items si]
     /\ match fst (ShoppingItemsService.getByListId listId w) with
        | inr fetched => React.items (React.final ri) = fetched
                         /\ React.error (React.final ri) = None
        | inl e => React.items (React.final ri) = React.items si
                   /\ React.error (React.final ri) = Some e
        end)
    /\ (React.outcome rl = inr tt
        /\ React.isLoading (React.final rl) = false
        /\ React.world rl = snd (ShoppingListsService.getAll w)
        /\ React.calls rl = [React.items sl]
        /\ match fst (ShoppingListsService.getAll w) with
           | inr fetched => React.items (React.final rl) = fetched
                            /\ React.error (React.final rl) = None
           | inl e => React.items (React.final rl) = React.items sl
                      /\ React.error (React.final rl) = Some e
           end).
Proof.
  intros listId si sl w. cbv zeta. split.
  - unfold UseShoppingItems.refresh, UseShoppingItems.fetchItems.
    cbv beta iota zeta delta
      [React.run React.try_ React.then_ React.await React.setItems
       React.setError React.setIsLoading React.items React.isLoading
       React.error React.outcome React.final React.world React.calls].
    destruct (ShoppingItemsService.getByListId listId w) as [[e|fetched] w'];
      cbn; repeat split; reflexivity.
  - unfold UseShoppingLists.refresh, UseShoppingLists.fetchLists.
    cbv beta iota zeta delta
      [React.run React.try_ React.then_ React.await React.setItems
       React.setError React.setIsLoading React.items React.isLoading
       React.error React.outcome React.final React.world React.calls].
    destruct (ShoppingListsService.getAll w) as [[e|fetched] w'];
      cbn; repeat split; reflexivity.
Qed.

Lemma listing_after_append (w : World) (d : SQLiteDatabase)
      (row : ShoppingItemRow) (listId : jsstring) (items : list ShoppingItem) :
  Ready w d ->
  i_list_id row = listId ->
  ShoppingItemsService.getByListId listId w = (inr items, w) ->
  Forall (fun item => (item_createdAt item < i_created_at row)%Z) items ->
  let w' := {| dbInstance :=
                 Some (set_shopping_items (shopping_items d ++ [row]) d) |} in
  ShoppingItemsService.getByListId listId w'
  = (inr (items ++ [ShoppingItemsService.of_row row]), w').
Proof.
  intros HR Hlist Hshow Hlater w'.
  assert (HR' : Ready w' (set_shopping_items (shopping_items d ++ [row]) d))
    by (apply (ready_after w d _ HR); reflexivity).
  rewrite (item_getByListId_ready w d listId HR) in Hshow.
  injection Hshow as <-.
  rewrite (item_getByListId_ready _ _ listId HR').
  cbn [shopping_items set_shopping_items].
  rewrite filter_snoc, Hlist, jsstring_eqb_refl.
  rewrite order_by_snoc_asc; [now rewrite List.map_app|].
  apply Forall_forall. intros i Hi. rewrite Forall_forall in Hlater.
  apply (Permutation_in i
           (Permutation_sym (order_by_perm _ i_created_at ASC _))) in Hi.
  apply (in_map ShoppingItemsService.of_row) in Hi.
  specialize (Hlater _ Hi).
  cbn in Hlater. lia.
Qed.

Lemma replace_twice (id : jsstring) (f : ShoppingItem -> ShoppingItem)
      (v : ShoppingItem) (cache : list ShoppingItem) :
  (forall item, item_id (f item) = item_id item) ->
  List.map (fun item => if jsstring_eqb (item_id item) id then v else item)
           (List.map (fun item => if jsstring_eqb (item_id item) id
                                  then f item else item) cache)
  = replace_item id (fun _ => v) cache.
Proof.
  intros Hid. unfold replace_item. rewrite List.map_map. apply map_ext.
  intros item. destruct (jsstring_eqb (item_id item) id) eqn:E.
  - now rewrite Hid, E.
  - now rewrite E.
Qed.

Lemma listing_replaced (w : World) (d : SQLiteDatabase)
      (upd : ShoppingItemRow -> ShoppingItemRow) (row : ShoppingItemRow)
      (id listId : jsstring) (items : list ShoppingItem) :
  Ready w d ->
  NoDup (item_ids d) ->
  find (fun i => jsstring_eqb (i_id i) id) (shopping_items d) = Some row ->
  (forall i, i_id (upd i) = i_id i) ->
  (forall i, i_list_id (upd i) = i_list_id i) ->
  (forall i, i_created_at (upd i) = i_created_at i) ->
  ShoppingItemsService.getByListId listId w = (inr items, w) ->
  let w' := {| dbInstance := Some (items_updated upd id d) |} in
  ShoppingItemsService.getByListId listId w'
  = (inr (replace_item id (fun _ => ShoppingItemsService.of_row (upd row)) items),
     w').
Proof.
  intros HR Hnd Hrow Hid Hlist Hkey Hshow w'.
  destruct (listing_after_update w d upd
              (fun _ => ShoppingItemsService.of_row (upd row)) id listId HR
              Hid Hlist Hkey) as (items' & Hbefore & Hafter).
  - intros i Hi Hi'.
    now rewrite (unique_row i_id id (shopping_items d) row i Hnd Hrow Hi Hi').
  - rewrite Hshow in Hbefore. injection Hbefore as <-. exact Hafter.
Qed.

(** X27. The cache of the items hook keeps up with the store. When the
    cache shows the listing of the list, no two stored items share an
    id, and [updateItem], [toggleComplete] or [deleteItem] resolves,
    the cache at the end is the listing of the store at the end. The
    same holds for [createItem] when the item is created for that list
    at a clock reading later than the creation of every item shown.
    The text given to [updateItem] or [createItem] is taken without a
    lone surrogate. *)
Theorem items_cache_follows_store :
  forall (listId : jsstring) (st : React.State ShoppingItem)
         (w : World) (d : SQLiteDatabase),
    Ready w d ->
    NoDup (item_ids d) ->
    shows_items listId st w ->
    (forall id dto clock now v,
        let r := UseShoppingItems.call
                   (UseShoppingItems.Update id dto clock now) st w in
        isWellFormed (update_item_text_to dto) = true ->
        React.outcome r = inr v ->
        shows_items listId (React.final r) (React.world r))
    /\ (forall id clock now v,
        let r := UseShoppingItems.call
                   (UseShoppingItems.ToggleComplete id clock now) st w in
        React.outcome r = inr v ->
        shows_items listId (React.final r) (React.world r))
    /\ (forall id v,
        let r := UseShoppingItems.call (UseShoppingItems.Delete id) st w in
        React.outcome r = inr v ->
        shows_items listId (React.final r) (React.world r))
    /\ (forall dto uuid now v,
        let r := UseShoppingItems.call
                   (UseShoppingItems.Create dto uuid now) st w in
        create_item_listId dto = listId ->
        isWellFormed (create_item_text dto) = true ->
        Forall (fun item => (item_createdAt item < now)%Z) (React.items st) ->
        React.outcome r = inr v ->
        shows_items listId (React.final r) (React.world r)).
Proof.
  intros listId st w d HR Hnd Hshow. unfold shows_items in *.
  repeat apply conj.
  - intros id dto clock now v. cbv zeta. intros _. rewrite call_settles.
    cbn [UseShoppingItems.service].
    rewrite (item_update_ready w d id dto now HR).
    destruct (ShoppingItemsService.validateItemText _) as [e|text];
      [discriminate|].
    destruct (find _ (shopping_items d)) as [row|] eqn:Hrow; [|discriminate].
    intros _. cbn [React.final React.world React.items
                   UseShoppingItems.cache_resolved
                   UseShoppingItems.cache_in_flight].
    rewrite replace_twice by reflexivity.
    exact (listing_replaced w d (with_text text now) row id listId _ HR Hnd Hrow
             (fun _ => eq_refl) (fun _ => eq_refl) (fun _ => eq_refl) Hshow).
  - intros id clock now v. cbv zeta. rewrite call_settles.
    cbn [UseShoppingItems.service].
    rewrite (item_toggle_ready w d id now HR).
    destruct (find _ (shopping_items d)) as [row|] eqn:Hrow; [|discriminate].
    intros _. cbv zeta.
    cbn [React.final React.world React.items
         UseShoppingItems.cache_resolved UseShoppingItems.cache_in_flight].
    rewrite replace_twice by reflexivity.
    exact (listing_replaced w d
             (with_completed
                (ShoppingItemsService.bit
                   (negb (ShoppingItemsService.Boolean (i_completed row)))) now)
             row id listId _ HR Hnd Hrow
             (fun _ => eq_refl) (fun _ => eq_refl) (fun _ => eq_refl) Hshow).
  - intros id v. cbv zeta. rewrite call_settles.
    cbn [UseShoppingItems.service].
    rewrite (item_delete_ready w d id HR).
    destruct (find _ (shopping_items d)) as [row|] eqn:Hrow; [|discriminate].
    intros _.
    cbn [React.final React.world React.items
         UseShoppingItems.cache_resolved UseShoppingItems.cache_in_flight].
    destruct (listing_after_delete w d id listId HR) as (items & Hbefore & Hafter).
    rewrite Hshow in Hbefore. injection Hbefore as <-. exact Hafter.
  - intros dto uuid now v. cbv zeta. intros Hlist _ Hlater.
    rewrite call_settles. cbn [UseShoppingItems.service].
    rewrite (item_create_ready w d dto uuid now HR).
    destruct (ShoppingItemsService.validateItemText _) as [e|text];
      [discriminate|].
    destruct (existsb _ (shopping_lists d)); [|discriminate].
    destruct (existsb _ (shopping_items d)); [discriminate|].
    intros _.
    cbn [React.final React.world React.items
         UseShoppingItems.cache_resolved UseShoppingItems.cache_in_flight].
    exact (listing_after_append w d
             {| i_id := uuid; i_list_id := create_item_listId dto;
                i_text := text; i_completed := 0;
                i_created_at := now; i_updated_at := now |}
             listId _ HR Hlist Hshow Hlater).
Qed.



(** X29. The cache of the lists hook keeps up with the store. When the
    cache shows [getAll] and [deleteList] resolves, the cache at the
    end is [getAll] of the store at the end; so it is when [createList],
    given a name without a lone surrogate, resolves at a clock reading
    later than the creation of every list shown, the new list first. *)
Theorem lists_cache_follows_store :
  forall (st : React.State ShoppingList) (w : World) (d : SQLiteDatabase),
    Ready w d ->
    shows_lists st w ->
    (forall id v,
        let r := UseShoppingLists.call (UseShoppingLists.Delete id) st w in
        React.outcome r = inr v ->
        shows_lists (React.final r) (React.world r))
    /\ (forall dto uuid now v,
        let r := UseShoppingLists.call
                   (UseShoppingLists.Create dto uuid now) st w in
        isWellFormed (create_list_name dto) = true ->
        Forall (fun l => (list_createdAt l < now)%Z) (React.items st) ->
        React.outcome r = inr v ->
        shows_lists (React.final r) (React.world r)
        /\ React.items (React.final r) = v :: React.items st).
Proof.
  intros st w d HR Hshow. unfold shows_lists in *.
  rewrite (list_getAll_ready w d HR) in Hshow. injection Hshow as Hshow.
  split.
  - intros id v. cbv zeta. rewrite list_call_settles.
    cbn [UseShoppingLists.service].
    rewrite (list_delete_ready w d id HR).
    destruct (find _ (shopping_lists d)) as [row|]; [|discriminate].
    intros _.
    cbn [React.final React.world React.items
         UseShoppingLists.cache_resolved UseShoppingLists.cache_in_flight].
    set (d' := set_shopping_items _ _).
    assert (HR' : Ready {| dbInstance := Some d' |} d')
      by (apply (ready_after w d d' HR); reflexivity).
    rewrite (list_getAll_ready _ d' HR'). f_equal. f_equal.
    cbn [d' shopping_lists set_shopping_lists set_shopping_items].
    rewrite order_by_filter, <- Hshow.
    now rewrite (filter_map_commute ShoppingListsService.of_row).
  - intros dto uuid now v. cbv zeta. intros _ Hlater.
    rewrite list_call_settles. cbn [UseShoppingLists.service].
    rewrite (list_create_ready w d dto uuid now HR).
    destruct (ShoppingListsService.validateListName _ true) as [e|name];
      [discriminate|].
    cbv zeta. destruct (existsb _ (shopping_lists d)); [discriminate|].
    cbn [React.outcome React.final React.world React.items
         UseShoppingLists.cache_resolved].
    intros Hv. injection Hv as <-. split; [|reflexivity].
    set (row := list_row _).
    set (d' := set_shopping_lists _ d).
    assert (HR' : Ready {| dbInstance := Some d' |} d')
      by (apply (ready_after w d d' HR); reflexivity).
    rewrite (list_getAll_ready _ d' HR'). f_equal. f_equal.
    cbn [d' shopping_lists set_shopping_lists].
    rewrite order_by_snoc_desc; [now rewrite <- Hshow|].
    apply Forall_forall. intros l Hl. rewrite Forall_forall in Hlater.
    apply (Permutation_in l
             (Permutation_sym (order_by_perm _ l_created_at DESC _))) in Hl.
    apply (in_map ShoppingListsService.of_row) in Hl. rewrite Hshow in Hl.
    specialize (Hlater _ Hl). cbn in Hlater. cbn. lia.
Qed.

(** ** Generated ids *)

Lemma toString16_digit (v : N) :
  (v < 16)%N -> UUID.toString16 v = [UUID.hex_digit v].
Proof.
  intros Hv. unfold UUID.toString16.
  destruct (N.to_nat v); cbn [UUID.toString16_digits]; [reflexivity|].
  now replace (v <? 16)%N with true by (symmetry; apply N.ltb_lt; exact Hv).
Qed.

Lemma hex_digit_is_hex (v : N) : (v < 16)%N -> UUID.is_hex (UUID.hex_digit v).
Proof.
  intros Hv. unfold UUID.is_hex, UUID.hex_digit.
  apply nth_In. change (List.length (js "0123456789abcdef")) with 16%nat. lia.
Qed.

Lemma variant_digit (r : N) :
  (r < 16)%N ->
  (N.lor (N.land r 3) 8 < 16)%N
  /\ In (UUID.hex_digit (N.lor (N.land r 3) 8)) (js "89ab").
Proof.
  intros Hr.
  assert (Hcases : In r [0; 1; 2; 3; 4; 5; 6; 7; 8; 9; 10; 11; 12; 13; 14; 15]%N).
  { destruct r as [|p]; [now left|].
    do 16 (try (destruct p as [p|p|]; try lia));
      cbn; tauto. }
  cbn in Hcases.
  repeat (destruct Hcases as [<-|Hcases]; [split; [reflexivity|cbn; tauto]|]).
  contradiction.
Qed.

Lemma replace_xy_admits (random : nat -> N) (t : jsstring) (k : nat) :
  (forall n, (random n < 16)%N) ->
  Forall2 UUID.admits t (UUID.replace_xy t random k).
Proof.
  intros Hr. revert k. induction t as [|c rest IH]; intros k; [constructor|].
  cbn [UUID.replace_xy].
  destruct (c =? 120)%N eqn:Ex.
  - cbv zeta. rewrite (toString16_digit _ (Hr k)). constructor; [|apply IH].
    unfold UUID.admits. rewrite Ex. apply hex_digit_is_hex, Hr.
  - destruct (c =? 121)%N eqn:Ey.
    + cbv zeta. destruct (variant_digit (random k) (Hr k)) as [Hlt Hin].
      rewrite (toString16_digit _ Hlt). constructor; [|apply IH].
      unfold UUID.admits. now rewrite Ex, Ey.
    + constructor; [|apply IH]. unfold UUID.admits. now rewrite Ex, Ey.
Qed.

(** X17. Whatever [Math.random] returns, [generateUUID] gives an id in
    the form of a version-4 UUID: 36 code units, position by position
    what the template admits: the hyphens and the '4' where the
    template has them, a lower-case hexadecimal digit for every 'x',
    and one of '8', '9', 'a', 'b' for the 'y'. *)
Theorem generateUUID_has_v4_form :
  forall random : nat -> N,
    (forall n, (random n < 16)%N) ->
    Forall2 UUID.admits UUID.template (UUID.generateUUID random)
    /\ List.length (UUID.generateUUID random) = 36%nat.
Proof.
  intros random Hr.
  pose proof (replace_xy_admits random UUID.template 0 Hr) as H.
  split; [exact H|].
  apply Forall2_length in H. unfold UUID.generateUUID. rewrite <- H.
  reflexivity.
Qed.

(** ** The theme context and the settings *)

Section ThemeContextFacts.
Variable JSON_parse : jsstring -> option CustomColors.
Variable JSON_stringify : CustomColors -> jsstring.

Lemma settings_after_clearing (w : World) (d : SQLiteDatabase)
      (upd : AppSettingsRow -> AppSettingsRow) (r : AppSettingsRow) :
  Ready w d ->
  app_settings d = [r] -> s_id r = 1%Z -> s_id (upd r) = 1%Z ->
  s_custom_colors (upd r) = None ->
  SettingsService.getSettings JSON_parse
    {| dbInstance := Some (settings_updated upd d) |}
  = (inr (settings_of (upd r) None),
     {| dbInstance := Some (settings_updated upd d) |}).
Proof.
  intros HR Hrows Hid Hid' Hcolors.
  destruct (getSettings_after_write w d upd r HR Hrows Hid Hid') as [HR' Hfind].
  now rewrite (getSettings_ready JSON_parse _ _ HR'), Hfind, Hcolors.
Qed.

Lemma settings_after_colors (w : World) (d : SQLiteDatabase)
      (upd : AppSettingsRow -> AppSettingsRow) (r : AppSettingsRow)
      (text : jsstring) (colors : CustomColors) :
  Ready w d ->
  app_settings d = [r] -> s_id r = 1%Z -> s_id (upd r) = 1%Z ->
  s_custom_colors (upd r) = Some text ->
  text <> [] ->
  JSON_parse text = Some colors ->
  SettingsService.getSettings JSON_parse
    {| dbInstance := Some (settings_updated upd d) |}
  = (inr (settings_of (upd r) (Some colors)),
     {| dbInstance := Some (settings_updated upd d) |}).
Proof.
  intros HR Hrows Hid Hid' Hcolors Hne Hparse.
  destruct (getSettings_after_write w d upd r HR Hrows Hid Hid') as [HR' Hfind].
  rewrite (getSettings_ready JSON_parse _ _ HR'), Hfind, Hcolors.
  destruct text as [|c text]; [contradiction|]. now rewrite Hparse.
Qed.

(** X30. The theme context follows the settings of the store.
    [loadSettings] never rejects and ends with [isLoading] false: the
    context then holds what [getSettings] answered, or the theme
    'default' without colours when it rejected. After [resetTheme],
    and after [setCustomColors] with a colour map that [JSON.parse]
    gives back from its text (a text without a lone surrogate), the
    context holds what [getSettings] answers. After [setTheme] has resolved, the theme of the context is
    the theme of the store, and for a preset the context holds no
    colours. *)
Theorem theme_context_follows_settings :
  forall (st : ThemeContext.State) (w : World) (d : SQLiteDatabase)
         (r : AppSettingsRow) (now : Z),
    Ready w d ->
    app_settings d = [r] -> s_id r = 1%Z ->
    (exists st',
        ThemeContext.loadSettings JSON_parse st w = (inr tt, st', w)
        /\ ThemeContext.isLoading st' = false
        /\ match fst (SettingsService.getSettings JSON_parse w) with
           | inr _ => ThemeContext.agrees JSON_parse st' w
           | inl _ => ThemeContext.themeId st' = js "default"
                      /\ ThemeContext.customColors st' = None
           end)
    /\ (exists st' w',
        ThemeContext.resetTheme JSON_parse now st w = (inr tt, st', w')
        /\ ThemeContext.agrees JSON_parse st' w')
    /\ (forall colors,
        JSON_stringify colors <> [] ->
        isWellFormed (JSON_stringify colors) = true ->
        JSON_parse (JSON_stringify colors) = Some colors ->
        exists st' w',
          ThemeContext.setCustomColors JSON_parse JSON_stringify colors now st w
          = (inr tt, st', w')
          /\ ThemeContext.agrees JSON_parse st' w')
    /\ (forall theme st' w',
        ThemeContext.setTheme JSON_parse theme now st w = (inr tt, st', w') ->
        (exists settings,
            SettingsService.getSettings JSON_parse w' = (inr settings, w')
            /\ settings_themeId settings = ThemeContext.themeId st')
        /\ (theme <> theme_custom -> ThemeContext.customColors st' = None)).
Proof.
  intros st w d r now HR Hrows Hid. repeat apply conj.
  - unfold ThemeContext.loadSettings.
    pose proof (getSettings_reads_only JSON_parse w) as Hsame.
    destruct (SettingsService.getSettings JSON_parse w) as [[e|settings] w0]
      eqn:Hget; cbn [snd] in Hsame; subst w0; eexists;
      (split; [reflexivity|split; [reflexivity|]]); cbn [fst].
    + split; reflexivity.
    + exists settings. repeat split. exact Hget.
  - unfold ThemeContext.resetTheme.
    rewrite (resetToDefault_ready JSON_parse w d now HR).
    set (upd := fun r0 => {| s_id := s_id r0; s_theme_id := js "default";
                             s_custom_colors := None;
                             s_created_at := s_created_at r0;
                             s_updated_at := now |}).
    rewrite (settings_after_clearing w d upd r HR Hrows Hid Hid eq_refl).
    eexists _, _. split; [reflexivity|].
    eexists. split;
      [exact (settings_after_clearing w d upd r HR Hrows Hid Hid eq_refl)|].
    split; reflexivity.
  - intros colors Hne _ Hparse.
    unfold ThemeContext.setCustomColors.
    rewrite (updateCustomColors_ready JSON_parse JSON_stringify w d _ now HR).
    cbn [update_customColors].
    set (upd := fun r0 => {| s_id := s_id r0; s_theme_id := js "custom";
                             s_custom_colors := Some (JSON_stringify colors);
                             s_created_at := s_created_at r0;
                             s_updated_at := now |}).
    rewrite (settings_after_colors w d upd r _ colors HR Hrows Hid Hid eq_refl
               Hne Hparse).
    eexists _, _. split; [reflexivity|].
    eexists. split;
      [exact (settings_after_colors w d upd r _ colors HR Hrows Hid Hid eq_refl
                Hne Hparse)|].
    split; reflexivity.
  - intros theme st' w'. unfold ThemeContext.setTheme.
    rewrite (updateTheme_ready JSON_parse w d _ now HR).
    cbn [update_themeId].
    set (upd := fun r0 => {| s_id := s_id r0; s_theme_id := theme_string theme;
                             s_custom_colors := s_custom_colors r0;
                             s_created_at := s_created_at r0;
                             s_updated_at := now |}).
    destruct (getSettings_after_write w d upd r HR Hrows Hid Hid) as [HR' Hfind].
    pose proof (getSettings_ready JSON_parse _ _ HR') as Hget.
    rewrite Hfind in Hget.
    pose proof (getSettings_reads_only JSON_parse
                  {| dbInstance := Some (settings_updated upd d) |}) as Hsame.
    destruct (SettingsService.getSettings JSON_parse _) as [[e|settings] w0]
      eqn:Hread; [discriminate|].
    cbn [snd] in Hsame. subst w0.
    assert (Htheme : settings_themeId settings = theme_string theme).
    { destruct (s_custom_colors (upd r)) as [[|c text]|].
      - now injection Hget as ->.
      - destruct (JSON_parse (c :: text)); [now injection Hget as ->|discriminate].
      - now injection Hget as ->. }
    cbv zeta. intros H. injection H as <- <-. split.
    + exists settings. split; [exact Hread|].
      rewrite Htheme. destruct theme; reflexivity.
    + intros Hpreset. destruct theme; try reflexivity. contradiction.
Qed.
End ThemeContextFacts.

(* ================================================================= *)
(** ** The further properties at the sample states *)

Lemma sample_launched_ready :
  Ready Sample.launched (Sample.connection Sample.launched).
Proof. split; [|split]; vm_compute; reflexivity. Qed.

Lemma sample_groceries_ready :
  Ready Sample.with_groceries (Sample.connection Sample.with_groceries).
Proof. split; [|split]; vm_compute; reflexivity. Qed.

Lemma sample_milk_ready :
  Ready Sample.with_milk (Sample.connection Sample.with_milk).
Proof. split; [|split]; vm_compute; reflexivity. Qed.

Lemma sample_colors_ready :
  Ready Sample.with_custom_colors (Sample.connection Sample.with_custom_colors).
Proof. split; [|split]; vm_compute; reflexivity. Qed.

Lemma sample_milk_found :
  ShoppingItemsService.getById Sample.milk_id Sample.with_milk
  = (inr (Some Sample.milk), Sample.with_milk).
Proof. vm_compute. reflexivity. Qed.

Lemma sample_groceries_found :
  ShoppingListsService.getById Sample.groceries_id Sample.with_milk
  = (inr (Some Sample.groceries), Sample.with_milk).
Proof. vm_compute. reflexivity. Qed.

Lemma sample_milk_ids : NoDup (item_ids (Sample.connection Sample.with_milk)).
Proof. vm_compute. constructor; [intros []|constructor]. Qed.

Lemma sample_milk_shown :
  shows_items Sample.groceries_id Sample.showing_milk Sample.with_milk.
Proof. vm_compute. reflexivity. Qed.

Lemma sample_groceries_shown :
  shows_lists Sample.showing_groceries Sample.with_groceries.
Proof. vm_compute. reflexivity. Qed.

Lemma sample_absent (id : jsstring) (ids : list jsstring) :
  existsb (jsstring_eqb id) ids = false -> ~ In id ids.
Proof.
  intros H Hin. apply (proj2 (not_true_iff_false _) H).
  apply existsb_exists. exists id. split; [exact Hin|apply jsstring_eqb_refl].
Qed.

Lemma reached_items_have_their_list_witness :
  let ops := [ListCreate {| create_list_name := js "Groceries" |}
                         Sample.groceries_id 2000;
              ItemCreate {| create_item_listId := Sample.groceries_id;
                            create_item_text := js "Milk" |}
                         Sample.milk_id 3000] in
  let w := reached Sample.parse Sample.stringify Sample.clock ops in
  ShoppingItemsService.getById Sample.milk_id w = (inr (Some Sample.milk), w)
  /\ exists L : ShoppingList,
      ShoppingListsService.getById Sample.groceries_id w = (inr (Some L), w)
      /\ list_id L = Sample.groceries_id.
Proof.
  cbv zeta.
  assert (Hget : ShoppingItemsService.getById Sample.milk_id
                   (reached Sample.parse Sample.stringify Sample.clock
                      [ListCreate {| create_list_name := js "Groceries" |}
                                  Sample.groceries_id 2000;
                       ItemCreate {| create_item_listId := Sample.groceries_id;
                                     create_item_text := js "Milk" |}
                                  Sample.milk_id 3000])
                 = (inr (Some Sample.milk), _))
    by (vm_compute; reflexivity).
  split; [exact Hget|].
  exact (reached_items_have_their_list Sample.parse Sample.stringify
           Sample.clock _ Sample.milk_id Sample.milk Hget).
Defined.

Lemma list_create_then_read_witness :
  let w := Sample.with_groceries in
  Ready w (Sample.connection w)
  /\ (List.length (trim (js " Hardware ")) <= 100)%nat
  /\ isWellFormed (js " Hardware ") = true
  /\ ~ In (js "list-2") (list_ids (Sample.connection w))
  /\ exists (L : ShoppingList) (w' : World),
      ShoppingListsService.create {| create_list_name := js " Hardware " |}
        (js "list-2") 5000 w = (inr L, w')
      /\ ShoppingListsService.getById (js "list-2") w' = (inr (Some L), w').
Proof.
  cbv zeta.
  assert (Hlen : (List.length (trim (js " Hardware ")) <= 100)%nat)
    by (vm_compute; lia).
  assert (Hfresh : ~ In (js "list-2")
                        (list_ids (Sample.connection Sample.with_groceries)))
    by (apply sample_absent; vm_compute; reflexivity).
  destruct (list_create_then_read Sample.with_groceries
              (Sample.connection Sample.with_groceries)
              (js " Hardware ") (js "list-2") 5000
              sample_groceries_ready Hlen eq_refl Hfresh)
    as (L & w' & Hcreate & _ & Hget & _).
  split; [exact sample_groceries_ready|]. split; [exact Hlen|].
  split; [reflexivity|].
  split; [exact Hfresh|]. exists L, w'. split; [exact Hcreate|exact Hget].
Defined.

Ltac sample_valid :=
  let H := fresh "H" in
  unfold invalid_text; intros [H|H]; vm_compute in H; [discriminate|lia].

Lemma list_name_over_bound_rejected_witness :
  let w := Sample.with_groceries in
  let name := List.repeat 97%N 101 in
  dbInstance w = Some (Sample.connection w)
  /\ (100 < List.length (trim name))%nat
  /\ ShoppingListsService.create {| create_list_name := name |}
       (js "list-2") 5000 w
     = (inl (ValidationError (js "List name cannot exceed 100 characters")
                             (js "name") name), w)
  /\ ShoppingListsService.update Sample.groceries_id
       {| update_list_name_to := name |} 5000 w
     = (inl (ValidationError (js "List name cannot exceed 100 characters")
                             (js "name") name), w).
Proof.
  cbv zeta.
  assert (Hdb : dbInstance Sample.with_groceries
                = Some (Sample.connection Sample.with_groceries))
    by reflexivity.
  assert (Hlong : (100 < List.length (trim (List.repeat 97%N 101)))%nat)
    by (vm_compute; lia).
  split; [exact Hdb|]. split; [exact Hlong|].
  exact (list_name_over_bound_rejected Sample.with_groceries
           (Sample.connection Sample.with_groceries) (List.repeat 97%N 101)
           Sample.groceries_id (js "list-2") 5000 Hdb Hlong).
Defined.

Lemma list_update_then_read_witness :
  let w := Sample.with_milk in
  Ready w (Sample.connection w)
  /\ ~ invalid_text 100 (js " Food ")
  /\ isWellFormed (js " Food ") = true
  /\ ShoppingListsService.getById Sample.groceries_id w
     = (inr (Some Sample.groceries), w)
  /\ exists (L : ShoppingList) (w' : World),
      ShoppingListsService.update Sample.groceries_id
        {| update_list_name_to := js " Food " |} 5000 w = (inr L, w')
      /\ L = {| list_id := Sample.groceries_id; list_name := js "Food";
                list_createdAt := 2000; list_updatedAt := 5000 |}
      /\ ShoppingListsService.getById Sample.groceries_id w' = (inr (Some L), w').
Proof.
  cbv zeta.
  assert (Hvalid : ~ invalid_text 100 (js " Food ")) by sample_valid.
  destruct (list_update_then_read Sample.with_milk
              (Sample.connection Sample.with_milk) Sample.groceries_id
              (js " Food ") 5000 Sample.groceries sample_milk_ready Hvalid
              eq_refl sample_groceries_found)
    as (L & w' & Hupdate & HL & _ & Hget & _).
  split; [exact sample_milk_ready|]. split; [exact Hvalid|].
  split; [reflexivity|]. split; [exact sample_groceries_found|].
  exists L, w'. split; [exact Hupdate|]. split; [exact HL|exact Hget].
Defined.

Lemma sample_stocked_ready :
  Ready Sample.stocked (Sample.connection Sample.stocked).
Proof. split; [|split]; vm_compute; reflexivity. Qed.

Lemma sample_lists_differ : Sample.hardware_id <> Sample.groceries_id.
Proof. intros H. vm_compute in H. discriminate. Qed.

Lemma sample_items_differ : Sample.eggs_id <> Sample.milk_id.
Proof. intros H. vm_compute in H. discriminate. Qed.

Lemma list_delete_cascades_witness :
  let w := Sample.stocked in
  Ready w (Sample.connection w)
  /\ ShoppingListsService.getById Sample.groceries_id w
     = (inr (Some Sample.groceries), w)
  /\ List.map item_id
       (match fst (ShoppingItemsService.getByListId Sample.groceries_id w) with
        | inr items => items
        | inl _ => []
        end)
     = [Sample.milk_id; Sample.eggs_id]
  /\ exists w' : World,
      ShoppingListsService.deleteList Sample.groceries_id w = (inr tt, w')
      /\ ShoppingListsService.getById Sample.groceries_id w' = (inr None, w')
      /\ ShoppingItemsService.getByListId Sample.groceries_id w' = (inr [], w')
      /\ ShoppingItemsService.getById Sample.milk_id w' = (inr None, w')
      /\ fst (ShoppingItemsService.getByListId Sample.hardware_id w')
         = fst (ShoppingItemsService.getByListId Sample.hardware_id w)
      /\ List.map item_id
           (match fst (ShoppingItemsService.getByListId Sample.hardware_id w) with
            | inr items => items
            | inl _ => []
            end)
         = [Sample.nails_id].
Proof.
  cbv zeta.
  assert (Hfound : ShoppingListsService.getById Sample.groceries_id Sample.stocked
                   = (inr (Some Sample.groceries), Sample.stocked))
    by (vm_compute; reflexivity).
  destruct (list_delete_cascades Sample.stocked
              (Sample.connection Sample.stocked) Sample.groceries_id
              Sample.groceries sample_stocked_ready Hfound)
    as (w' & Hdelete & Hgone & Hempty & _ & Hothers).
  split; [exact sample_stocked_ready|]. split; [exact Hfound|].
  split; [vm_compute; reflexivity|].
  exists w'. split; [exact Hdelete|]. split; [exact Hgone|].
  split; [exact Hempty|].
  split.
  - assert (Hw' : w' = snd (ShoppingListsService.deleteList Sample.groceries_id
                              Sample.stocked))
      by (rewrite Hdelete; reflexivity).
    rewrite Hw'. vm_compute. reflexivity.
  - split; [exact (proj2 (Hothers Sample.hardware_id sample_lists_differ))|].
    vm_compute. reflexivity.
Defined.

Lemma absent_id_is_not_found_witness :
  let w := Sample.with_milk in
  let missing := js "no-such-id" in
  Ready w (Sample.connection w)
  /\ ~ invalid_text 100 (js "Food") /\ ~ invalid_text 500 (js "Eggs")
  /\ ~ In missing (list_ids (Sample.connection w))
  /\ ~ In missing (item_ids (Sample.connection w))
  /\ ShoppingListsService.deleteList missing w
     = (inl (NotFoundError (js "Shopping list not found: no-such-id")
                           (js "ShoppingList") missing), w)
  /\ ShoppingItemsService.toggleComplete missing 5000 w
     = (inl (NotFoundError (js "Shopping item not found") (js "id") missing), w).
Proof.
  cbv zeta.
  assert (Hname : ~ invalid_text 100 (js "Food")) by sample_valid.
  assert (Htext : ~ invalid_text 500 (js "Eggs")) by sample_valid.
  assert (Hl : ~ In (js "no-such-id")
                    (list_ids (Sample.connection Sample.with_milk)))
    by (apply sample_absent; vm_compute; reflexivity).
  assert (Hi : ~ In (js "no-such-id")
                    (item_ids (Sample.connection Sample.with_milk)))
    by (apply sample_absent; vm_compute; reflexivity).
  destruct (absent_id_is_not_found Sample.with_milk
              (Sample.connection Sample.with_milk) (js "no-such-id")
              (js "Food") (js "Eggs") Sample.eggs_id 5000
              sample_milk_ready Hname Htext Hl Hi)
    as (Hdelete & _ & _ & _ & Htoggle & _).
  split; [exact sample_milk_ready|]. split; [exact Hname|].
  split; [exact Htext|]. split; [exact Hl|]. split; [exact Hi|].
  split; [exact Hdelete|exact Htoggle].
Defined.

Lemma item_update_then_read_witness :
  let w := Sample.with_milk in
  Ready w (Sample.connection w)
  /\ ~ invalid_text 500 (js " Oat milk ")
  /\ isWellFormed (js " Oat milk ") = true
  /\ ShoppingItemsService.getById Sample.milk_id w = (inr (Some Sample.milk), w)
  /\ exists w' : World,
      ShoppingItemsService.update Sample.milk_id
        {| update_item_text_to := js " Oat milk " |} 5000 w
      = (inr (item_edited (js "Oat milk") 5000 Sample.milk), w')
      /\ ShoppingItemsService.getByListId Sample.groceries_id w'
         = (inr [item_edited (js "Oat milk") 5000 Sample.milk], w').
Proof.
  cbv zeta.
  assert (Hvalid : ~ invalid_text 500 (js " Oat milk ")) by sample_valid.
  destruct (item_update_then_read Sample.with_milk
              (Sample.connection Sample.with_milk) Sample.milk_id
              (js " Oat milk ") 5000 Sample.milk sample_milk_ready Hvalid
              eq_refl sample_milk_found)
    as (w' & Hupdate & _ & _ & Hlisting & _).
  destruct (Hlisting Sample.groceries_id) as (items & Hbefore & Hafter).
  split; [exact sample_milk_ready|]. split; [exact Hvalid|].
  split; [reflexivity|]. split; [exact sample_milk_found|].
  exists w'. split; [exact Hupdate|].
  rewrite sample_milk_shown in Hbefore. injection Hbefore as <-.
  exact Hafter.
Defined.

Lemma item_toggle_then_read_witness :
  let w := Sample.with_milk in
  Ready w (Sample.connection w)
  /\ NoDup (item_ids (Sample.connection w))
  /\ ShoppingItemsService.getById Sample.milk_id w = (inr (Some Sample.milk), w)
  /\ exists w' : World,
      ShoppingItemsService.toggleComplete Sample.milk_id 5000 w
      = (inr (item_toggled 5000 Sample.milk), w')
      /\ ShoppingItemsService.getById Sample.milk_id w'
         = (inr (Some (item_toggled 5000 Sample.milk)), w').
Proof.
  cbv zeta.
  destruct (item_toggle_then_read Sample.with_milk
              (Sample.connection Sample.with_milk) Sample.milk_id 5000
              Sample.milk sample_milk_ready sample_milk_ids sample_milk_found)
    as (w' & Htoggle & Hget & _).
  split; [exact sample_milk_ready|]. split; [exact sample_milk_ids|].
  split; [exact sample_milk_found|].
  exists w'. split; [exact Htoggle|exact Hget].
Defined.

Lemma item_delete_then_read_witness :
  let w := Sample.stocked in
  Ready w (Sample.connection w)
  /\ ShoppingItemsService.getById Sample.milk_id w = (inr (Some Sample.milk), w)
  /\ exists (w' : World) (items : list ShoppingItem),
      ShoppingItemsService.deleteItem Sample.milk_id w = (inr tt, w')
      /\ ShoppingItemsService.getById Sample.milk_id w' = (inr None, w')
      /\ fst (ShoppingItemsService.getById Sample.eggs_id w')
         = fst (ShoppingItemsService.getById Sample.eggs_id w)
      /\ ShoppingItemsService.getByListId Sample.groceries_id w = (inr items, w)
      /\ List.map item_id items = [Sample.milk_id; Sample.eggs_id]
      /\ ShoppingItemsService.getByListId Sample.groceries_id w'
         = (inr (without_item Sample.milk_id items), w')
      /\ List.map item_id (without_item Sample.milk_id items) = [Sample.eggs_id].
Proof.
  cbv zeta.
  assert (Hfound : ShoppingItemsService.getById Sample.milk_id Sample.stocked
                   = (inr (Some Sample.milk), Sample.stocked))
    by (vm_compute; reflexivity).
  destruct (item_delete_then_read Sample.stocked
              (Sample.connection Sample.stocked) Sample.milk_id
              Sample.milk sample_stocked_ready Hfound)
    as (w' & Hdelete & Hgone & Hothers & Hlisting & _).
  destruct (Hlisting Sample.groceries_id) as (items & Hbefore & Hafter).
  assert (Hitems : items
                   = match fst (ShoppingItemsService.getByListId
                                  Sample.groceries_id Sample.stocked) with
                     | inr l => l
                     | inl _ => []
                     end)
    by (rewrite Hbefore; reflexivity).
  split; [exact sample_stocked_ready|]. split; [exact Hfound|].
  exists w', items. split; [exact Hdelete|]. split; [exact Hgone|].
  split; [exact (Hothers Sample.eggs_id sample_items_differ)|].
  split; [exact Hbefore|].
  split; [rewrite Hitems; vm_compute; reflexivity|].
  split; [exact Hafter|].
  rewrite Hitems. vm_compute. reflexivity.
Defined.

Lemma deleteByListId_empties_one_list_witness :
  let w := Sample.stocked in
  Ready w (Sample.connection w)
  /\ ShoppingItemsService.countByListId Sample.groceries_id w = (inr 2%Z, w)
  /\ ShoppingItemsService.countByListId Sample.hardware_id w = (inr 1%Z, w)
  /\ exists (n : Z) (w' : World),
      ShoppingItemsService.deleteByListId Sample.groceries_id w = (inr n, w')
      /\ ShoppingItemsService.countByListId Sample.groceries_id w = (inr n, w)
      /\ ShoppingItemsService.getByListId Sample.groceries_id w' = (inr [], w')
      /\ fst (ShoppingItemsService.getByListId Sample.hardware_id w')
         = fst (ShoppingItemsService.getByListId Sample.hardware_id w)
      /\ fst (ShoppingListsService.getAll w') = fst (ShoppingListsService.getAll w).
Proof.
  cbv zeta.
  destruct (deleteByListId_empties_one_list Sample.stocked
              (Sample.connection Sample.stocked) Sample.groceries_id
              sample_stocked_ready)
    as (n & w' & Hdelete & Hcount & Hempty & _ & Hothers & Hlists).
  split; [exact sample_stocked_ready|]. split; [vm_compute; reflexivity|].
  split; [vm_compute; reflexivity|].
  exists n, w'. split; [exact Hdelete|]. split; [exact Hcount|].
  split; [exact Hempty|].
  split; [exact (Hothers Sample.hardware_id sample_lists_differ)|exact Hlists].
Defined.

Lemma item_create_then_read_witness :
  let w := Sample.with_milk in
  let eggs := {| item_id := Sample.eggs_id; item_listId := Sample.groceries_id;
                 item_text := js "Eggs"; item_completed := false;
                 item_createdAt := 3600; item_updatedAt := 3600 |} in
  Ready w (Sample.connection w)
  /\ ~ invalid_text 500 (js " Eggs ")
  /\ isWellFormed (js " Eggs ") = true
  /\ In Sample.groceries_id (list_ids (Sample.connection w))
  /\ ~ In Sample.eggs_id (item_ids (Sample.connection w))
  /\ exists w' : World,
      ShoppingItemsService.create
        {| create_item_listId := Sample.groceries_id;
           create_item_text := js " Eggs " |} Sample.eggs_id 3600 w
      = (inr eggs, w')
      /\ ShoppingItemsService.getById Sample.eggs_id w' = (inr (Some eggs), w')
      /\ ShoppingItemsService.getByListId Sample.groceries_id w'
         = (inr [Sample.milk; eggs], w').
Proof.
  cbv zeta.
  assert (Hvalid : ~ invalid_text 500 (js " Eggs ")) by sample_valid.
  assert (Hlist : In Sample.groceries_id
                     (list_ids (Sample.connection Sample.with_milk)))
    by (left; reflexivity).
  assert (Hfresh : ~ In Sample.eggs_id
                        (item_ids (Sample.connection Sample.with_milk)))
    by (apply sample_absent; vm_compute; reflexivity).
  destruct (item_create_then_read Sample.with_milk
              (Sample.connection Sample.with_milk) Sample.groceries_id
              (js " Eggs ") Sample.eggs_id 3600 sample_milk_ready Hvalid
              eq_refl Hlist Hfresh)
    as (I & w' & Hcreate & HI & Hget & _ & (items & Hbefore & Hafter) & _).
  split; [exact sample_milk_ready|]. split; [exact Hvalid|].
  split; [reflexivity|]. split; [exact Hlist|]. split; [exact Hfresh|].
  rewrite sample_milk_shown in Hbefore. injection Hbefore as <-.
  assert (Hlater : Forall (fun item => (item_createdAt item < 3600)%Z)
                          (React.items Sample.showing_milk))
    by (constructor; [reflexivity|constructor]).
  specialize (Hafter Hlater). subst I.
  exists w'. split; [exact Hcreate|]. split; [exact Hget|exact Hafter].
Defined.

Lemma counts_agree_with_listings_witness :
  let w := Sample.stocked in
  Ready w (Sample.connection w)
  /\ ShoppingListsService.count w = (inr 2%Z, w)
  /\ ShoppingItemsService.countByListId Sample.groceries_id w = (inr 2%Z, w)
  /\ (exists lists,
         ShoppingListsService.getAll w = (inr lists, w)
         /\ ShoppingListsService.count w
            = (inr (Z.of_nat (List.length lists)), w))
  /\ (exists items,
         ShoppingItemsService.getByListId Sample.groceries_id w = (inr items, w)
         /\ ShoppingItemsService.countByListId Sample.groceries_id w
            = (inr (Z.of_nat (List.length items)), w)).
Proof.
  cbv zeta.
  destruct (counts_agree_with_listings Sample.stocked
              (Sample.connection Sample.stocked) Sample.groceries_id
              sample_stocked_ready)
    as [Hlists Hitems].
  split; [exact sample_stocked_ready|]. split; [vm_compute; reflexivity|].
  split; [vm_compute; reflexivity|].
  split; [exact Hlists|exact Hitems].
Defined.

Lemma create_with_taken_id_is_refused_witness :
  let w := Sample.with_milk in
  Ready w (Sample.connection w)
  /\ (List.length (trim (js "Hardware")) <= 100)%nat
  /\ ~ invalid_text 500 (js "Eggs")
  /\ In Sample.groceries_id (list_ids (Sample.connection w))
  /\ In Sample.milk_id (item_ids (Sample.connection w))
  /\ (exists cause,
         ShoppingListsService.create {| create_list_name := js "Hardware" |}
           Sample.groceries_id 5000 w
         = (inl (DatabaseError (js "Failed to create shopping list")
                               (Some cause)), w)
         /\ isDatabaseError cause = false)
  /\ (exists cause,
         ShoppingItemsService.create
           {| create_item_listId := Sample.groceries_id;
              create_item_text := js "Eggs" |} Sample.milk_id 5000 w
         = (inl (DatabaseError (js "Failed to create shopping item")
                               (Some cause)), w)
         /\ isDatabaseError cause = false).
Proof.
  cbv zeta.
  assert (Hname : (List.length (trim (js "Hardware")) <= 100)%nat)
    by (vm_compute; lia).
  assert (Htext : ~ invalid_text 500 (js "Eggs")) by sample_valid.
  assert (Hlist : In Sample.groceries_id
                     (list_ids (Sample.connection Sample.with_milk)))
    by (left; reflexivity).
  assert (Hitem : In Sample.milk_id
                     (item_ids (Sample.connection Sample.with_milk)))
    by (left; reflexivity).
  split; [exact sample_milk_ready|]. split; [exact Hname|].
  split; [exact Htext|]. split; [exact Hlist|]. split; [exact Hitem|].
  split.
  - exact (proj1 (create_with_taken_id_is_refused Sample.with_milk
                    (Sample.connection Sample.with_milk) (js "Hardware")
                    Sample.groceries_id (js "Eggs") Sample.groceries_id 5000
                    sample_milk_ready Hname Htext Hlist) Hlist).
  - exact (proj2 (create_with_taken_id_is_refused Sample.with_milk
                    (Sample.connection Sample.with_milk) (js "Hardware")
                    Sample.groceries_id (js "Eggs") Sample.milk_id 5000
                    sample_milk_ready Hname Htext Hlist) Hitem).
Defined.

Lemma generateUUID_has_v4_form_witness :
  let random := fun _ : nat => 7%N in
  (forall n, (random n < 16)%N)
  /\ UUID.generateUUID random = js "77777777-7777-4777-b777-777777777777"
  /\ Forall2 UUID.admits UUID.template (UUID.generateUUID random)
  /\ List.length (UUID.generateUUID random) = 36%nat.
Proof.
  cbv zeta.
  assert (Hr : forall n : nat, ((fun _ : nat => 7%N) n < 16)%N)
    by (intros n; reflexivity).
  split; [exact Hr|]. split; [vm_compute; reflexivity|].
  exact (generateUUID_has_v4_form (fun _ => 7%N) Hr).
Defined.

Lemma services_refuse_without_database_witness :
  let w := Sample.closed in
  dbInstance w = None
  /\ refused ShoppingListsService.getAll w
  /\ refused (ShoppingItemsService.toggleComplete Sample.milk_id 5000) w
  /\ refused (SettingsService.getSettings Sample.parse) w
  /\ refused DatabaseService.clearAllData w.
Proof.
  cbv zeta.
  pose proof (services_refuse_without_database Sample.parse Sample.stringify
                Sample.closed Sample.milk_id Sample.copy_id 5000
                {| create_list_name := js "Hardware" |}
                {| update_list_name_to := js "Food" |}
                {| create_item_listId := Sample.groceries_id;
                   create_item_text := js "Eggs" |}
                {| update_item_text_to := js "Oat milk" |}
                {| update_themeId := theme_retro |}
                {| update_customColors := Sample.accent |} eq_refl) as H.
  split; [reflexivity|].
  split; [exact (proj1 H)|].
  split; [exact (proj1 (proj2 (proj2 (proj2 (proj2 (proj2 (proj2 (proj2
            (proj2 (proj2 (proj2 (proj2 H))))))))))))|].
  split; [exact (proj1 (proj2 (proj2 (proj2 (proj2 (proj2 (proj2 (proj2
            (proj2 (proj2 (proj2 (proj2 (proj2 (proj2 (proj2
            (proj2 H))))))))))))))))|].
  exact (proj2 (proj2 (proj2 (proj2 (proj2 (proj2 (proj2 (proj2
            (proj2 (proj2 (proj2 (proj2 (proj2 (proj2 (proj2
            (proj2 (proj2 (proj2 (proj2 H))))))))))))))))))).
Defined.

Lemma custom_colors_round_trip_witness :
  let w := Sample.launched in
  let r := {| s_id := 1; s_theme_id := js "default"; s_custom_colors := None;
              s_created_at := 1002; s_updated_at := 1002 |} in
  let stored := {| settings_id := 1; settings_themeId := js "custom";
                   settings_customColors := Some Sample.accent;
                   settings_createdAt := 1002; settings_updatedAt := 4000 |} in
  Ready w (Sample.connection w)
  /\ app_settings (Sample.connection w) = [r]
  /\ Sample.stringify Sample.accent <> []
  /\ isWellFormed (Sample.stringify Sample.accent) = true
  /\ Sample.parse (Sample.stringify Sample.accent) = Some Sample.accent
  /\ exists w' : World,
      SettingsService.updateCustomColors Sample.parse Sample.stringify
        {| update_customColors := Sample.accent |} 4000 w = (inr stored, w')
      /\ SettingsService.getSettings Sample.parse w' = (inr stored, w').
Proof.
  cbv zeta.
  assert (Hne : Sample.stringify Sample.accent <> [])
    by (vm_compute; discriminate).
  assert (Hparse : Sample.parse (Sample.stringify Sample.accent)
                   = Some Sample.accent)
    by (vm_compute; reflexivity).
  assert (Hrows : app_settings (Sample.connection Sample.launched)
                  = [{| s_id := 1; s_theme_id := js "default";
                        s_custom_colors := None;
                        s_created_at := 1002; s_updated_at := 1002 |}])
    by (vm_compute; reflexivity).
  destruct (custom_colors_round_trip Sample.parse Sample.stringify
              Sample.launched (Sample.connection Sample.launched) _
              Sample.accent 4000 sample_launched_ready Hrows eq_refl Hne
              eq_refl Hparse)
    as (w' & Hupdate & Hget).
  split; [exact sample_launched_ready|]. split; [exact Hrows|].
  split; [exact Hne|]. split; [reflexivity|]. split; [exact Hparse|].
  exists w'. split; [exact Hupdate|exact Hget].
Defined.

Lemma resetToDefault_always_recovers_witness :
  let w := Sample.with_custom_colors in
  let r := {| s_id := 1; s_theme_id := js "custom";
              s_custom_colors := Some Sample.accent_json;
              s_created_at := 1002; s_updated_at := 4000 |} in
  let stored := {| settings_id := 1; settings_themeId := js "default";
                   settings_customColors := None;
                   settings_createdAt := 1002; settings_updatedAt := 5000 |} in
  Ready w (Sample.connection w)
  /\ app_settings (Sample.connection w) = [r]
  /\ exists w' : World,
      SettingsService.resetToDefault (fun _ => None) 5000 w = (inr stored, w')
      /\ SettingsService.getSettings (fun _ => None) w' = (inr stored, w').
Proof.
  cbv zeta.
  assert (Hrows : app_settings (Sample.connection Sample.with_custom_colors)
                  = [{| s_id := 1; s_theme_id := js "custom";
                        s_custom_colors := Some Sample.accent_json;
                        s_created_at := 1002; s_updated_at := 4000 |}])
    by (vm_compute; reflexivity).
  destruct (resetToDefault_always_recovers (fun _ => None)
              Sample.with_custom_colors
              (Sample.connection Sample.with_custom_colors) _ 5000
              sample_colors_ready Hrows eq_refl)
    as (w' & Hreset & Hget).
  split; [exact sample_colors_ready|]. split; [exact Hrows|].
  exists w'. split; [exact Hreset|exact Hget].
Defined.

Lemma updateTheme_writes_before_it_reads_witness :
  let w := snd (SettingsService.updateCustomColors Sample.parse
                  (fun _ => js "{oops") {| update_customColors := Sample.accent |}
                  4000 Sample.launched) in
  let r := {| s_id := 1; s_theme_id := js "custom";
              s_custom_colors := Some (js "{oops");
              s_created_at := 1002; s_updated_at := 4000 |} in
  let failure := DatabaseError (js "Failed to retrieve app settings")
                   (Some (SyntaxError (js "Unexpected token"))) in
  Ready w (Sample.connection w)
  /\ app_settings (Sample.connection w) = [r]
  /\ Sample.parse (js "{oops") = None
  /\ SettingsService.getSettings Sample.parse w = (inl failure, w)
  /\ exists d' : SQLiteDatabase,
      SettingsService.updateTheme Sample.parse
        {| update_themeId := theme_retro |} 5000 w
      = (inl failure, {| dbInstance := Some d' |})
      /\ app_settings d' = [{| s_id := 1; s_theme_id := js "retro";
                               s_custom_colors := Some (js "{oops");
                               s_created_at := 1002; s_updated_at := 5000 |}].
Proof.
  cbv zeta.
  set (w := snd (SettingsService.updateCustomColors Sample.parse
                   (fun _ => js "{oops") {| update_customColors := Sample.accent |}
                   4000 Sample.launched)).
  assert (HR : Ready w (Sample.connection w))
    by (split; [|split]; vm_compute; reflexivity).
  assert (Hrows : app_settings (Sample.connection w)
                  = [{| s_id := 1; s_theme_id := js "custom";
                        s_custom_colors := Some (js "{oops");
                        s_created_at := 1002; s_updated_at := 4000 |}])
    by (vm_compute; reflexivity).
  assert (Hparse : Sample.parse (js "{oops") = None)
    by (vm_compute; reflexivity).
  destruct (updateTheme_writes_before_it_reads Sample.parse w
              (Sample.connection w) _ 123%N (js "oops") theme_retro 5000
              HR Hrows eq_refl eq_refl Hparse)
    as (Hget & d' & Hupdate & Hrow & _).
  split; [exact HR|]. split; [exact Hrows|]. split; [exact Hparse|].
  split; [exact Hget|].
  exists d'. split; [exact Hupdate|exact Hrow].
Defined.

Lemma upgrade_from_version_1_witness :
  let row := {| l_id := Sample.groceries_id; l_name := js "Groceries";
                l_created_at := 2000; l_updated_at := 2000 |} in
  let irow := {| i_id := Sample.milk_id; i_list_id := Sample.groceries_id;
                 i_text := js "Milk"; i_completed := 7;
                 i_created_at := 3000; i_updated_at := 3000 |} in
  let file := set_shopping_items [irow]
                (set_shopping_lists [row] (Sample.connection Sample.after_v1)) in
  tables file = [DatabaseService.schema_version_table;
                 DatabaseService.shopping_lists_table;
                 DatabaseService.shopping_items_table]
  /\ schema_version file = [{| v_version := 1; v_applied_at := 1000 |}]
  /\ app_settings file = []
  /\ exists d : SQLiteDatabase,
      DatabaseService.initializeDatabase file Sample.clock {| dbInstance := None |}
      = (inr d, {| dbInstance := Some d |})
      /\ shopping_lists d = [row]
      /\ List.map i_completed (shopping_items d) = [0%Z]
      /\ List.map s_theme_id (app_settings d) = [js "default"].
Proof.
  cbv zeta.
  set (file := set_shopping_items _ _).
  assert (Ht : tables file = [DatabaseService.schema_version_table;
                              DatabaseService.shopping_lists_table;
                              DatabaseService.shopping_items_table])
    by (vm_compute; reflexivity).
  assert (Hv : schema_version file = [{| v_version := 1; v_applied_at := 1000 |}])
    by (vm_compute; reflexivity).
  assert (Hs : app_settings file = []) by (vm_compute; reflexivity).
  destruct (upgrade_from_version_1 file Sample.clock 1000 Ht Hv Hs)
    as (d & Hinit & _ & Hlists & Hitems & Hsettings & _).
  split; [exact Ht|]. split; [exact Hv|]. split; [exact Hs|].
  exists d. split; [exact Hinit|]. split; [exact Hlists|].
  split; [rewrite Hitems; reflexivity|rewrite Hsettings; reflexivity].
Defined.

Lemma failed_migration_leaves_connection_witness :
  let file := set_schema_version [{| v_version := 1; v_applied_at := 1000 |}]
                (set_tables [DatabaseService.schema_version_table]
                            DatabaseService.empty_file) in
  let first := DatabaseService.initializeDatabase file Sample.clock
                 {| dbInstance := None |} in
  fst first
  = inl (DatabaseError (js "Failed to initialize database")
           (Some (DatabaseError (js "Database migration failed")
                    (Some (no_such_table "shopping_items")))))
  /\ exists d : SQLiteDatabase,
      dbInstance (snd first) = Some d
      /\ DatabaseService.initializeDatabase DatabaseService.empty_file
           Sample.clock (snd first) = (inr d, snd first).
Proof.
  cbv zeta.
  set (file := set_schema_version _ _).
  assert (Hfirst : DatabaseService.initializeDatabase file Sample.clock
                     {| dbInstance := None |}
                   = (inl (DatabaseError (js "Failed to initialize database")
                             (Some (DatabaseError (js "Database migration failed")
                                      (Some (no_such_table "shopping_items"))))),
                      snd (DatabaseService.initializeDatabase file Sample.clock
                             {| dbInstance := None |})))
    by (vm_compute; reflexivity).
  destruct (failed_migration_leaves_connection file Sample.clock _ _ Hfirst)
    as (d & Hdb & Hagain).
  split; [rewrite Hfirst; reflexivity|].
  exists d. split; [exact Hdb|].
  exact (Hagain DatabaseService.empty_file Sample.clock).
Defined.

Lemma clearAllData_empties_lists_and_items_witness :
  let w := Sample.with_milk in
  Ready w (Sample.connection w)
  /\ ShoppingListsService.count w = (inr 1%Z, w)
  /\ exists w' : World,
      DatabaseService.clearAllData w = (inr tt, w')
      /\ ShoppingListsService.getAll w' = (inr [], w')
      /\ ShoppingItemsService.getByListId Sample.groceries_id w' = (inr [], w').
Proof.
  cbv zeta.
  destruct (clearAllData_empties_lists_and_items Sample.parse Sample.with_milk
              (Sample.connection Sample.with_milk) sample_milk_ready)
    as (w' & Hclear & Hall & _ & Hitems & _).
  split; [exact sample_milk_ready|]. split; [vm_compute; reflexivity|].
  exists w'. split; [exact Hclear|]. split; [exact Hall|].
  exact (Hitems Sample.groceries_id).
Defined.

Lemma items_cache_follows_store_witness :
  let w := Sample.with_milk in
  let st := Sample.showing_milk in
  let toggle := UseShoppingItems.call
                  (UseShoppingItems.ToggleComplete Sample.milk_id 4000 4001)
                  st w in
  let create := UseShoppingItems.call
                  (UseShoppingItems.Create
                     {| create_item_listId := Sample.groceries_id;
                        create_item_text := js " Eggs " |} Sample.eggs_id 3600)
                  st w in
  Ready w (Sample.connection w)
  /\ NoDup (item_ids (Sample.connection w))
  /\ shows_items Sample.groceries_id st w
  /\ React.outcome toggle = inr (item_toggled 4001 Sample.milk)
  /\ React.items (React.final toggle) = [item_toggled 4001 Sample.milk]
  /\ shows_items Sample.groceries_id (React.final toggle) (React.world toggle)
  /\ List.map item_text (React.items (React.final create))
     = [js "Milk"; js "Eggs"]
  /\ shows_items Sample.groceries_id (React.final create) (React.world create).
Proof.
  cbv zeta.
  destruct (items_cache_follows_store Sample.groceries_id Sample.showing_milk
              Sample.with_milk (Sample.connection Sample.with_milk)
              sample_milk_ready sample_milk_ids sample_milk_shown)
    as (_ & Htoggle & _ & Hcreate).
  cbv zeta in Htoggle, Hcreate.
  assert (Hout : React.outcome
                   (UseShoppingItems.call
                      (UseShoppingItems.ToggleComplete Sample.milk_id 4000 4001)
                      Sample.showing_milk Sample.with_milk)
                 = inr (item_toggled 4001 Sample.milk))
    by (vm_compute; reflexivity).
  assert (Hout' : React.outcome
                    (UseShoppingItems.call
                       (UseShoppingItems.Create
                          {| create_item_listId := Sample.groceries_id;
                             create_item_text := js " Eggs " |}
                          Sample.eggs_id 3600)
                       Sample.showing_milk Sample.with_milk)
                  = inr {| item_id := Sample.eggs_id;
                           item_listId := Sample.groceries_id;
                           item_text := js "Eggs"; item_completed := false;
                           item_createdAt := 3600; item_updatedAt := 3600 |})
    by (vm_compute; reflexivity).
  assert (Hlater : Forall (fun item => (item_createdAt item < 3600)%Z)
                          (React.items Sample.showing_milk))
    by (constructor; [reflexivity|constructor]).
  split; [exact sample_milk_ready|]. split; [exact sample_milk_ids|].
  split; [exact sample_milk_shown|]. split; [exact Hout|].
  split; [vm_compute; reflexivity|].
  split; [exact (Htoggle Sample.milk_id 4000%Z 4001%Z _ Hout)|].
  split; [vm_compute; reflexivity|].
  exact (Hcreate {| create_item_listId := Sample.groceries_id;
                    create_item_text := js " Eggs " |}
                 Sample.eggs_id 3600%Z _ eq_refl eq_refl Hlater Hout').
Defined.


Lemma lists_cache_follows_store_witness :
  let w := Sample.with_groceries in
  let st := Sample.showing_groceries in
  let hardware := {| list_id := Sample.hardware_id; list_name := js "Hardware";
                     list_createdAt := 2500; list_updatedAt := 2500 |} in
  let delete := UseShoppingLists.call
                  (UseShoppingLists.Delete Sample.groceries_id) st w in
  let create := UseShoppingLists.call
                  (UseShoppingLists.Create
                     {| create_list_name := js "Hardware" |}
                     Sample.hardware_id 2500) st w in
  Ready w (Sample.connection w)
  /\ shows_lists st w
  /\ React.outcome delete = inr tt
  /\ React.items (React.final delete) = []
  /\ shows_lists (React.final delete) (React.world delete)
  /\ React.outcome create = inr hardware
  /\ shows_lists (React.final create) (React.world create)
  /\ React.items (React.final create) = [hardware; Sample.groceries].
Proof.
  cbv zeta.
  destruct (lists_cache_follows_store Sample.showing_groceries
              Sample.with_groceries (Sample.connection Sample.with_groceries)
              sample_groceries_ready sample_groceries_shown)
    as (Hdelete & Hcreate).
  cbv zeta in Hdelete, Hcreate.
  assert (Hout : React.outcome
                   (UseShoppingLists.call
                      (UseShoppingLists.Delete Sample.groceries_id)
                      Sample.showing_groceries Sample.with_groceries)
                 = inr tt)
    by (vm_compute; reflexivity).
  assert (Hout' : React.outcome
                    (UseShoppingLists.call
                       (UseShoppingLists.Create
                          {| create_list_name := js "Hardware" |}
                          Sample.hardware_id 2500)
                       Sample.showing_groceries Sample.with_groceries)
                  = inr {| list_id := Sample.hardware_id;
                           list_name := js "Hardware";
                           list_createdAt := 2500; list_updatedAt := 2500 |})
    by (vm_compute; reflexivity).
  assert (Hlater : Forall (fun l => (list_createdAt l < 2500)%Z)
                          (React.items Sample.showing_groceries))
    by (constructor; [reflexivity|constructor]).
  destruct (Hcreate {| create_list_name := js "Hardware" |}
                    Sample.hardware_id 2500%Z _ eq_refl Hlater Hout')
    as (Hshows & Hitems).
  split; [exact sample_groceries_ready|]. split; [exact sample_groceries_shown|].
  split; [exact Hout|]. split; [vm_compute; reflexivity|].
  split; [exact (Hdelete Sample.groceries_id tt Hout)|].
  split; [exact Hout'|]. split; [exact Hshows|exact Hitems].
Defined.

Lemma theme_context_follows_settings_witness :
  let w := Sample.launched in
  let r := {| s_id := 1; s_theme_id := js "default"; s_custom_colors := None;
              s_created_at := 1002; s_updated_at := 1002 |} in
  Ready w (Sample.connection w)
  /\ app_settings (Sample.connection w) = [r]
  /\ (exists st' w',
         ThemeContext.setCustomColors Sample.parse Sample.stringify
           Sample.accent 4000 ThemeContext.initial w = (inr tt, st', w')
         /\ ThemeContext.agrees Sample.parse st' w')
  /\ (exists st' w',
         ThemeContext.resetTheme Sample.parse 4000 ThemeContext.initial w
         = (inr tt, st', w')
         /\ ThemeContext.agrees Sample.parse st' w').
Proof.
  cbv zeta.
  assert (Hrows : app_settings (Sample.connection Sample.launched)
                  = [{| s_id := 1; s_theme_id := js "default";
                        s_custom_colors := None;
                        s_created_at := 1002; s_updated_at := 1002 |}])
    by (vm_compute; reflexivity).
  assert (Hne : Sample.stringify Sample.accent <> [])
    by (vm_compute; discriminate).
  assert (Hparse : Sample.parse (Sample.stringify Sample.accent)
                   = Some Sample.accent)
    by (vm_compute; reflexivity).
  destruct (theme_context_follows_settings Sample.parse Sample.stringify
              ThemeContext.initial Sample.launched
              (Sample.connection Sample.launched) _ 4000
              sample_launched_ready Hrows eq_refl)
    as (_ & Hreset & Hcolors & _).
  split; [exact sample_launched_ready|]. split; [exact Hrows|].
  split; [exact (Hcolors Sample.accent Hne eq_refl Hparse)|exact Hreset].
Defined.
